(** * SchoolConnect: quiz attempt lifecycle, grading and analytics

    A shallow embedding of the quiz route handlers and of the Mongoose models
    they use:

    - [src/lib/models/Quiz.ts] and [src/lib/models/QuizAttempt.ts]: the
      schemas (with their validators and pre-save hooks) and the statics
      [updateAnalytics], [getStudentAttemptCount], [getQuizStatistics],
      [getBestAttempt], [getStudentProgress];
    - [POST /quizzes/[id]/attempt] (start or resume an attempt) and
      [GET /quizzes/[id]/attempt] (the current attempt or the history);
    - [POST /quiz-attempts/[id]/submit] (grade and finalise) and
      [PATCH /quiz-attempts/[id]/submit] (save progress);
    - [GET /quizzes/[id]], [PATCH /quizzes/[id]] and [DELETE /quizzes/[id]];
    - [submitQuiz] of the quiz taker page, which builds the body of the
      submit request.

    Conventions of the embedding.  A JavaScript number that can carry a
    fraction is an exact rational [Q] (IEEE-754 rounding is not modelled); a
    number that is an integer by construction (a count, a [Math.round]
    result, a timestamp in milliseconds) is a [Z].  A string is a
    [String.string] of 8-bit characters: case folding and white space are
    those of ASCII.  A MongoDB collection is a [gmap] from the document's
    [_id] to the document; an [ObjectId] is a [nat]. *)

From Stdlib Require Import ZArith QArith Qround Qfield Lqa String Ascii List Lia.
From stdpp Require Import gmap strings list fin_maps pretty sorting.

Local Open Scope Z_scope.

(** ** JavaScript values and string primitives *)

(** The values a JSON request body or a [Schema.Types.Mixed] field carries
    in this program: [answer] and [correctAnswer] are
    [string | number | boolean], and a field may be missing. *)
Inductive JsValue : Type :=
  | JUndefined
  | JNull
  | JBool (b : bool)
  | JNum (n : Z)
  | JStr (s : string).

(** [a === b]: same type and same value, no coercion. *)
Definition strict_eq (a b : JsValue) : bool :=
  match a, b with
  | JUndefined, JUndefined => true
  | JNull, JNull => true
  | JBool x, JBool y => Bool.eqb x y
  | JNum x, JNum y => Z.eqb x y
  | JStr x, JStr y => String.eqb x y
  | _, _ => false
  end.

(** [String(v)]. *)
Definition js_String (v : JsValue) : string :=
  match v with
  | JUndefined => "undefined"
  | JNull => "null"
  | JBool true => "true"
  | JBool false => "false"
  | JNum n => pretty n
  | JStr s => s
  end.

(** White space stripped by [String.prototype.trim] (ASCII part): TAB, LF,
    VT, FF, CR and SPACE. *)
Definition is_js_space (c : ascii) : bool :=
  let n := nat_of_ascii c in
  ((9 <=? n)%nat && (n <=? 13)%nat) || (n =? 32)%nat.

Fixpoint trimStart (s : string) : string :=
  match s with
  | EmptyString => EmptyString
  | String c s' => if is_js_space c then trimStart s' else s
  end.

(** Drops the trailing white space: a character is kept when something
    that is not white space follows it or when it is not white space. *)
Fixpoint trimEnd (s : string) : string :=
  match s with
  | EmptyString => EmptyString
  | String c s' =>
      match trimEnd s' with
      | EmptyString => if is_js_space c then EmptyString else String c EmptyString
      | t => String c t
      end
  end.

Definition trim (s : string) : string := trimEnd (trimStart s).

Definition lower_ascii (c : ascii) : ascii :=
  let n := nat_of_ascii c in
  if ((65 <=? n)%nat && (n <=? 90)%nat)%bool then ascii_of_nat (n + 32) else c.

Fixpoint toLowerCase (s : string) : string :=
  match s with
  | EmptyString => EmptyString
  | String c s' => String (lower_ascii c) (toLowerCase s')
  end.

(** [s.includes(sub)]: [sub] occurs in [s] at some position. *)
Fixpoint includes (s sub : string) : bool :=
  String.prefix sub s ||
  match s with
  | EmptyString => false
  | String _ s' => includes s' sub
  end.

(** [s.replace(pat, rep)] with a string pattern: only the first occurrence
    is replaced. *)
Fixpoint js_replace (s pat rep : string) : string :=
  if String.prefix pat s
  then rep +:+ String.substring (String.length pat)
                                (String.length s - String.length pat) s
  else match s with
       | EmptyString => EmptyString
       | String c s' => String c (js_replace s' pat rep)
       end.

(** [Math.round]: the nearest integer, a tie going up. *)
Definition Math_round (x : Q) : Z := Qfloor (x + (1 # 2))%Q.

(** Truthiness of a string: the empty string is falsy. *)
Definition truthy_string (s : string) : bool :=
  match s with EmptyString => false | _ => true end.

(** [x || 0] on an optional number: [undefined] and [0] both give [0]. *)
Definition or_zero (x : option Q) : Q :=
  match x with
  | Some q => q
  | None => 0%Q
  end.

Definition Qlt_bool (a b : Q) : bool := negb (Qle_bool b a).

(** ** Data model ([Quiz.ts], [QuizAttempt.ts], [User.ts]) *)

Inductive QuestionType : Type := multiple_choice | true_false | short_answer.
Inductive QuizStatus : Type := draft | published | archived.
Inductive AttemptStatus : Type := in_progress | completed | abandoned | time_expired.
Inductive UserRole : Type := role_teacher | role_student | role_parent.

#[global] Instance QuestionType_eq_dec : EqDecision QuestionType.
Proof. solve_decision. Defined.
#[global] Instance QuizStatus_eq_dec : EqDecision QuizStatus.
Proof. solve_decision. Defined.
#[global] Instance AttemptStatus_eq_dec : EqDecision AttemptStatus.
Proof. solve_decision. Defined.
#[global] Instance UserRole_eq_dec : EqDecision UserRole.
Proof. solve_decision. Defined.

Record IUser : Type := { role : UserRole }.

(** [IQuestion]; [q_id] and [q_type] are the fields [id] and [type]. *)
Record IQuestion : Type := {
  q_id : string;
  q_type : QuestionType;
  options : list string;
  correctAnswer : JsValue;
  points : Q
}.

Record QuizSettings : Type := {
  maxAttempts : Z;
  passingScore : option Q
}.

Record QuizAnalytics : Type := {
  totalAttempts : Z;
  averageScore : Q;
  completionRate : Q;
  averageTimeMinutes : Q
}.

(** [IQuiz], without the descriptive fields (title, description, subject,
    grade level, tags, estimated time), which play no part in attempts,
    grading or analytics. *)
Record IQuiz : Type := {
  author : nat;
  quiz_status : QuizStatus;
  questions : list IQuestion;
  settings : QuizSettings;
  totalPoints : Q;
  publishedAt : option Z;
  dueDate : option Z;
  analytics : QuizAnalytics
}.

(** A response as a plain JavaScript object: what the client sends in the
    request body and what the grading callback returns.  Every field but
    the two the interface makes mandatory may be absent. *)
Record ResponseObject : Type := {
  o_questionId : string;
  o_answer : JsValue;
  o_isCorrect : option bool;
  o_pointsEarned : option Q;
  o_timeSpentSeconds : option Q;
  o_attempts : option Q
}.

(** [IQuestionResponse]: a response as a subdocument that passed
    [QuestionResponseSchema]. *)
Record IQuestionResponse : Type := {
  questionId : string;
  answer : JsValue;
  isCorrect : bool;
  pointsEarned : Q;
  timeSpentSeconds : Q;
  r_attempts : Q
}.

(** [IQuizAttempt] ([feedback], [gradedBy], [gradedAt] are never written by
    the modelled code and are left out). *)
Record IQuizAttempt : Type := {
  quiz : nat;
  student : nat;
  attemptNumber : Z;
  status : AttemptStatus;
  responses : list IQuestionResponse;
  score : Q;
  maxScore : Q;
  percentage : Z;
  timeSpentMinutes : Q;
  startedAt : Z;
  completedAt : option Z;
  submittedAt : option Z;
  ipAddress : string;
  userAgent : string
}.

Definition with_percentage (p : Z) (a : IQuizAttempt) : IQuizAttempt :=
  {| quiz := quiz a; student := student a; attemptNumber := attemptNumber a;
     status := status a; responses := responses a; score := score a;
     maxScore := maxScore a; percentage := p;
     timeSpentMinutes := timeSpentMinutes a; startedAt := startedAt a;
     completedAt := completedAt a; submittedAt := submittedAt a;
     ipAddress := ipAddress a; userAgent := userAgent a |}.

Definition with_completedAt (t : option Z) (a : IQuizAttempt) : IQuizAttempt :=
  {| quiz := quiz a; student := student a; attemptNumber := attemptNumber a;
     status := status a; responses := responses a; score := score a;
     maxScore := maxScore a; percentage := percentage a;
     timeSpentMinutes := timeSpentMinutes a; startedAt := startedAt a;
     completedAt := t; submittedAt := submittedAt a;
     ipAddress := ipAddress a; userAgent := userAgent a |}.

Definition with_responses (rs : list IQuestionResponse) (a : IQuizAttempt)
  : IQuizAttempt :=
  {| quiz := quiz a; student := student a; attemptNumber := attemptNumber a;
     status := status a; responses := rs; score := score a;
     maxScore := maxScore a; percentage := percentage a;
     timeSpentMinutes := timeSpentMinutes a; startedAt := startedAt a;
     completedAt := completedAt a; submittedAt := submittedAt a;
     ipAddress := ipAddress a; userAgent := userAgent a |}.

Definition with_timeSpentMinutes (t : Q) (a : IQuizAttempt) : IQuizAttempt :=
  {| quiz := quiz a; student := student a; attemptNumber := attemptNumber a;
     status := status a; responses := responses a; score := score a;
     maxScore := maxScore a; percentage := percentage a;
     timeSpentMinutes := t; startedAt := startedAt a;
     completedAt := completedAt a; submittedAt := submittedAt a;
     ipAddress := ipAddress a; userAgent := userAgent a |}.

Definition with_quiz_status (s : QuizStatus) (q : IQuiz) : IQuiz :=
  {| author := author q; quiz_status := s; questions := questions q;
     settings := settings q; totalPoints := totalPoints q;
     publishedAt := publishedAt q; dueDate := dueDate q;
     analytics := analytics q |}.

Definition with_analytics (an : QuizAnalytics) (q : IQuiz) : IQuiz :=
  {| author := author q; quiz_status := quiz_status q; questions := questions q;
     settings := settings q; totalPoints := totalPoints q;
     publishedAt := publishedAt q; dueDate := dueDate q;
     analytics := an |}.

(** ** Schema validation and pre-save hooks

    [doc.save()] first runs the schema validators (Mongoose registers
    validation as the first pre-save hook), then the schema's own
    [pre('save')] hook, then writes the document. *)

(** [QuestionResponseSchema]: casts a plain object to a subdocument, or
    fails.  [questionId] is a required string (the empty string is refused),
    [answer] a required Mixed (neither [undefined] nor [null]), [isCorrect],
    [pointsEarned >= 0], [timeSpentSeconds >= 0] are required, [attempts]
    defaults to 1 and is at least 1. *)
Definition cast_response (o : ResponseObject) : option IQuestionResponse :=
  match o_isCorrect o, o_pointsEarned o, o_timeSpentSeconds o with
  | Some c, Some p, Some t =>
      let n := match o_attempts o with Some n => n | None => 1%Q end in
      if truthy_string (o_questionId o)
         && match o_answer o with JUndefined | JNull => false | _ => true end
         && Qle_bool 0 p && Qle_bool 0 t && Qle_bool 1 n
      then Some {| questionId := o_questionId o; answer := o_answer o;
                   isCorrect := c; pointsEarned := p;
                   timeSpentSeconds := t; r_attempts := n |}
      else None
  | _, _, _ => None
  end.

(** All the subdocuments are cast, or validation fails. *)
Definition cast_responses (os : list ResponseObject)
  : option (list IQuestionResponse) :=
  mapM cast_response os.

(** The validators of [QuizAttemptSchema] on the top-level paths. *)
Definition validate_attempt (a : IQuizAttempt) : bool :=
  (1 <=? attemptNumber a)
  && Qle_bool 0 (score a)
  && Qle_bool 1 (maxScore a)
  && (0 <=? percentage a) && (percentage a <=? 100)
  && Qle_bool 0 (timeSpentMinutes a)
  && (String.length (ipAddress a) <=? 45)%nat
  && (String.length (userAgent a) <=? 500)%nat.

(** [QuizAttemptSchema.pre('save')]. *)
Definition attempt_pre_save (now : Z) (a : IQuizAttempt) : IQuizAttempt :=
  let a1 :=
    if Qlt_bool 0 (maxScore a)
    then with_percentage (Math_round ((score a / maxScore a) * 100)%Q) a
    else a in
  if bool_decide (status a1 = completed)
     && match completedAt a1 with None => true | Some _ => false end
  then with_completedAt (Some now) a1
  else a1.

(** The validator of [QuestionSchema.correctAnswer]. *)
Definition valid_correctAnswer (q : IQuestion) : bool :=
  match q_type q, correctAnswer q with
  | multiple_choice, JNum n => (0 <=? n) && (n <? Z.of_nat (length (options q)))
  | true_false, JBool _ => true
  | short_answer, JStr s => (0 <? String.length (trim s))%nat
  | _, _ => false
  end.

Definition validate_question (q : IQuestion) : bool :=
  truthy_string (q_id q)
  && match q_type q with
     | multiple_choice =>
         (2 <=? length (options q))%nat && (length (options q) <=? 6)%nat
     | _ => true
     end
  && valid_correctAnswer q
  && Qle_bool 1 (points q) && Qle_bool (points q) 10.

(** The validators of [QuizSchema] on the modelled paths. *)
Definition validate_quiz (q : IQuiz) : bool :=
  (1 <=? length (questions q))%nat && (length (questions q) <=? 50)%nat
  && forallb validate_question (questions q)
  && (1 <=? maxAttempts (settings q)) && (maxAttempts (settings q) <=? 10)
  && match passingScore (settings q) with
     | Some p => Qle_bool 0 p && Qle_bool p 100
     | None => true
     end
  && Qle_bool 1 (totalPoints q).

(** A question without an id gets a new one ([newId i] is the [ObjectId]
    generated for the question at position [i]): the schema's default for
    [id], and again the loop of the pre-save hook. *)
Definition ensure_ids (newId : nat -> string) (qs : list IQuestion)
  : list IQuestion :=
  imap (fun i qu =>
          if truthy_string (q_id qu) then qu
          else {| q_id := newId i; q_type := q_type qu;
                  options := options qu;
                  correctAnswer := correctAnswer qu;
                  points := points qu |})
       qs.

(** [QuizSchema.pre('save')]: the total is recomputed, [publishedAt] is
    stamped on first publication, and the questions get their ids. *)
Definition quiz_pre_save (now : Z) (newId : nat -> string) (q : IQuiz) : IQuiz :=
  {| author := author q;
     quiz_status := quiz_status q;
     questions := ensure_ids newId (questions q);
     settings := settings q;
     totalPoints :=
       fold_left (fun total question => (total + points question)%Q)
                 (questions q) 0%Q;
     publishedAt :=
       match quiz_status q, publishedAt q with
       | published, None => Some now
       | _, p => p
       end;
     dueDate := dueDate q;
     analytics := analytics q |}.

(** ** The database, the environment and the handler monad *)

Record Db : Type := {
  users : gmap nat IUser;
  quizzes : gmap nat IQuiz;
  attempts : gmap nat IQuizAttempt
}.

(** What a handler can change: the database and the server console. *)
Record World : Type := {
  db : Db;
  console : list string
}.

(** What a handler reads from outside: the clock ([new Date()]), the ids
    that [new ObjectId()] hands out, and whether the database rejects
    [Quiz.findByIdAndUpdate] (the one database failure the model injects). *)
Record Env : Type := {
  now : Z;
  newObjectId : nat -> string;
  findByIdAndUpdate_rejects : bool
}.

Record JsError : Type := { err_name : string; err_message : string }.

Inductive Completion (A : Type) : Type :=
  | Returned (a : A)
  | Thrown (e : JsError).
Arguments Returned {A} a.
Arguments Thrown {A} e.

(** An [async] computation: it reads and writes the world, and either
    returns or throws.  What was written before a throw stays written. *)
Definition Action (A : Type) : Type := World -> Completion A * World.

Definition ret {A : Type} (a : A) : Action A := fun w => (Returned a, w).

Definition throw {A : Type} (e : JsError) : Action A := fun w => (Thrown e, w).

Definition bind {A B : Type} (m : Action A) (k : A -> Action B) : Action B :=
  fun w =>
    match m w with
    | (Returned a, w') => k a w'
    | (Thrown e, w') => (Thrown e, w')
    end.

Notation "'let*' x ':=' m 'in' k" := (bind m (fun x => k))
  (at level 10, x name, m at level 200, k at level 200, only parsing).

Definition try_catch {A : Type} (body : Action A) (handler : JsError -> Action A)
  : Action A :=
  fun w =>
    match body w with
    | (Returned a, w') => (Returned a, w')
    | (Thrown e, w') => handler e w'
    end.

Definition get_db : Action Db := fun w => (Returned (db w), w).

Definition put_db (d : Db) : Action unit :=
  fun w => (Returned tt, {| db := d; console := console w |}).

Definition console_error (line : string) : Action unit :=
  fun w => (Returned tt, {| db := db w; console := console w ++ [line] |}).

Definition set_attempts (m : gmap nat IQuizAttempt) (d : Db) : Db :=
  {| users := users d; quizzes := quizzes d; attempts := m |}.

Definition set_quizzes (m : gmap nat IQuiz) (d : Db) : Db :=
  {| users := users d; quizzes := m; attempts := attempts d |}.

Definition ValidationError (msg : string) : JsError :=
  {| err_name := "ValidationError"; err_message := msg |}.

Definition MongoServerError (msg : string) : JsError :=
  {| err_name := "MongoServerError"; err_message := msg |}.

Definition TypeError (msg : string) : JsError :=
  {| err_name := "TypeError"; err_message := msg |}.

(** ** HTTP requests and responses *)

(** [settings] in the body of a quiz update: the keys it carries. *)
Record SettingsPatch : Type := {
  patch_maxAttempts : option Z;
  patch_passingScore : option Q
}.

(** The parsed JSON body: every key a modelled handler reads, each of
    them optional.  [body_status] is [None] also for a string that is not
    one of the three statuses; [body_dueDate] is [Some None] for a falsy
    value. *)
Record RequestBody : Type := {
  body_responses : option (list ResponseObject);
  body_timeSpentMinutes : option Q;
  body_questions : option (list IQuestion);
  body_status : option QuizStatus;
  body_settings : option SettingsPatch;
  body_dueDate : option (option Z)
}.

Record Request : Type := {
  authorization : option string;      (* header *)
  auth_token_cookie : option string;  (* cookie 'auth-token' *)
  params_id : nat;                    (* the [id] segment of the route *)
  ip : option string;                 (* request.ip *)
  x_forwarded_for : option string;    (* header *)
  user_agent : option string;         (* header *)
  body : RequestBody
}.

(** The graded result the submit handler answers with. *)
Record SubmitResult : Type := {
  res_id : nat;
  res_score : Q;
  res_maxScore : Q;
  res_percentage : Z;
  res_timeSpentMinutes : Q;
  res_status : AttemptStatus;
  res_responses : list ResponseObject;
  res_completedAt : option Z
}.

Inductive ResponseBody : Type :=
  | ErrorBody (error : string)
  | AttemptBody (attempt : option (nat * IQuizAttempt))
  | ResultBody (result : SubmitResult)
  | MessageBody (message : string)
  | QuizBody (quiz : option IQuiz).

Record Response : Type := {
  resp_status : Z;
  resp_body : ResponseBody
}.

Definition json (b : ResponseBody) (st : Z) : Action Response :=
  ret {| resp_status := st; resp_body := b |}.

(** [authHeader?.replace('Bearer ', '') || cookieToken], with [None] for a
    falsy result. *)
Definition request_token (req : Request) : option string :=
  let fromHeader :=
    match authorization req with
    | Some h =>
        let t := js_replace h "Bearer " EmptyString in
        if truthy_string t then Some t else None
    | None => None
    end in
  match fromHeader with
  | Some t => Some t
  | None =>
      match auth_token_cookie req with
      | Some c => if truthy_string c then Some c else None
      | None => None
      end
  end.

(** A handler never lets an exception escape its [catch] block; the
    framework would answer 500 if one did. *)
Definition respond (h : Action Response) (w : World) : Response * World :=
  match h w with
  | (Returned r, w') => (r, w')
  | (Thrown _, w') =>
      ({| resp_status := 500; resp_body := ErrorBody "Internal Server Error" |}, w')
  end.

(** ** Model statics *)

(** [QuizAttempt.getStudentAttemptCount]:
    [countDocuments({student, quiz, status: {$in: [completed, abandoned, time_expired]}})]. *)
Definition getStudentAttemptCount (d : Db) (studentId quizId : nat) : Z :=
  Z.of_nat (length (filter
    (fun kv : nat * IQuizAttempt =>
       student kv.2 = studentId /\ quiz kv.2 = quizId /\
       status kv.2 ∈ [completed; abandoned; time_expired])
    (map_to_list (attempts d)))).

(** [QuizAttempt.findOne({student, quiz, status: 'in_progress'})]. *)
Definition findInProgress (d : Db) (studentId quizId : nat)
  : option (nat * IQuizAttempt) :=
  head (filter
    (fun kv : nat * IQuizAttempt =>
       student kv.2 = studentId /\ quiz kv.2 = quizId /\ status kv.2 = in_progress)
    (map_to_list (attempts d))).

(** [QuizAttempt.countDocuments({quiz})]. *)
Definition countQuizAttempts (d : Db) (quizId : nat) : Z :=
  Z.of_nat (length (filter
    (fun kv : nat * IQuizAttempt => quiz kv.2 = quizId)
    (map_to_list (attempts d)))).

(** The unique index [{student: 1, quiz: 1, attemptNumber: 1}]: the keys
    of a new document must not be taken. *)
Definition index_taken (d : Db) (a : IQuizAttempt) : bool :=
  bool_decide (Exists
    (fun kv : nat * IQuizAttempt =>
       student kv.2 = student a /\ quiz kv.2 = quiz a /\
       attemptNumber kv.2 = attemptNumber a)
    (map_to_list (attempts d))).

(** [new QuizAttempt({...}).save()]: validation, pre-save hook, insertion
    under a new [_id]. *)
Definition insert_attempt (env : Env) (a : IQuizAttempt) : Action nat :=
  if validate_attempt a then
    let a' := attempt_pre_save (now env) a in
    let* d := get_db in
    if index_taken d a' then
      throw (MongoServerError "E11000 duplicate key error")
    else
      let id := fresh (dom (attempts d)) in
      let* _ := put_db (set_attempts (<[id := a']> (attempts d)) d) in
      ret id
  else throw (ValidationError "QuizAttempt validation failed").

(** [attempt.save()] on a loaded document whose [responses] were assigned
    the plain objects [rs] (or left alone, with [None]): the subdocuments
    are cast and validated with the rest, then the hook runs and the
    document is written back.  The in-memory document is returned as the
    hook left it. *)
Definition save_attempt (env : Env) (id : nat) (a : IQuizAttempt)
    (rs : option (list ResponseObject)) : Action IQuizAttempt :=
  match match rs with
        | Some os => (fun l => with_responses l a) <$> cast_responses os
        | None => Some a
        end with
  | Some a1 =>
      if validate_attempt a1 then
        let a' := attempt_pre_save (now env) a1 in
        let* d := get_db in
        let* _ := put_db (set_attempts (<[id := a']> (attempts d)) d) in
        ret a'
      else throw (ValidationError "QuizAttempt validation failed")
  | None => throw (ValidationError "QuizAttempt validation failed")
  end.

(** [quiz.save()] on a loaded document. *)
Definition save_quiz (env : Env) (id : nat) (q : IQuiz) : Action unit :=
  if validate_quiz q then
    let* d := get_db in
    put_db (set_quizzes
              (<[id := quiz_pre_save (now env) (newObjectId env) q]> (quizzes d)) d)
  else throw (ValidationError "Quiz validation failed").

(** [Math.round(x * 100) / 100]: [x] to two decimals. *)
Definition round2 (x : Q) : Q := (inject_Z (Math_round (x * 100)) / 100)%Q.

(** The arithmetic of [Quiz.updateAnalytics]. *)
Definition next_analytics (an : QuizAnalytics) (score timeMinutes : Q)
    (completed : bool) : QuizAnalytics :=
  let newTotalAttempts := totalAttempts an + 1 in
  let newAverageScore :=
    ((averageScore an * inject_Z (totalAttempts an) + score)
       / inject_Z newTotalAttempts)%Q in
  let newAverageTime :=
    ((averageTimeMinutes an * inject_Z (totalAttempts an) + timeMinutes)
       / inject_Z newTotalAttempts)%Q in
  let completedAttempts :=
    Math_round (completionRate an * inject_Z (totalAttempts an) / 100)%Q
    + (if completed then 1 else 0) in
  let newCompletionRate :=
    (inject_Z completedAttempts / inject_Z newTotalAttempts * 100)%Q in
  {| totalAttempts := newTotalAttempts;
     averageScore := round2 newAverageScore;
     averageTimeMinutes := round2 newAverageTime;
     completionRate := round2 newCompletionRate |}.

(** [Quiz.updateAnalytics]: nothing happens when the quiz is gone; the
    write is a [findByIdAndUpdate], which may be rejected. *)
Definition updateAnalytics (env : Env) (quizId : nat) (score timeMinutes : Q)
    (completed : bool) : Action unit :=
  let* d := get_db in
  match quizzes d !! quizId with
  | None => ret tt
  | Some q =>
      if findByIdAndUpdate_rejects env then
        throw (MongoServerError "findByIdAndUpdate rejected")
      else
        put_db (set_quizzes
          (<[quizId := with_analytics
                         (next_analytics (analytics q) score timeMinutes completed) q]>
             (quizzes d)) d)
  end.

Record AttemptSummary : Type := {
  sum_id : nat;
  sum_student : nat;
  sum_score : Q;
  sum_percentage : Z;
  sum_timeSpentMinutes : Q;
  sum_startedAt : Z;
  sum_completedAt : option Z
}.

Record QuizStatistics : Type := {
  st_totalAttempts : Z;
  st_uniqueStudents : Z;
  st_averageScore : Z;
  st_highestScore : Z;
  st_lowestScore : Z;
  st_passRate : Z;
  st_averageTimeMinutes : Z;
  st_attempts : list AttemptSummary
}.

(** [a.reduce((a, b) => a + b, 0)] on integers and on rationals. *)
Definition sumZ (l : list Z) : Z := fold_left Z.add l 0.
Definition sumQ (l : list Q) : Q := fold_left Qplus l 0%Q.

(** [Math.max(...l)] and [Math.min(...l)] of a list that is not empty. *)
Definition maxZ (l : list Z) : Z :=
  match l with
  | [] => 0
  | x :: r => fold_left Z.max r x
  end.

Definition minZ (l : list Z) : Z :=
  match l with
  | [] => 0
  | x :: r => fold_left Z.min r x
  end.

(** The body of [getQuizStatistics] once the completed attempts of the
    quiz ([found]) and the passing score are known. *)
Definition statistics_of (passing : Q) (found : list (nat * IQuizAttempt))
  : QuizStatistics :=
  match found with
  | [] =>
      {| st_totalAttempts := 0; st_uniqueStudents := 0; st_averageScore := 0;
         st_highestScore := 0; st_lowestScore := 0; st_passRate := 0;
         st_averageTimeMinutes := 0; st_attempts := [] |}
  | _ =>
      let scores := map (fun kv : nat * IQuizAttempt => percentage kv.2) found in
      let times := map (fun kv : nat * IQuizAttempt => timeSpentMinutes kv.2) found in
      let n := Z.of_nat (length found) in
      let passedAttempts :=
        Z.of_nat (length (filter
          (fun kv : nat * IQuizAttempt =>
             Qle_bool passing (inject_Z (percentage kv.2)) = true) found)) in
      {| st_totalAttempts := n;
         st_uniqueStudents :=
           Z.of_nat (size (list_to_set
             (map (fun kv : nat * IQuizAttempt => student kv.2) found) : gset nat));
         st_averageScore := Math_round (inject_Z (sumZ scores) / inject_Z n)%Q;
         st_highestScore := maxZ scores;
         st_lowestScore := minZ scores;
         st_passRate := Math_round (inject_Z passedAttempts / inject_Z n * 100)%Q;
         st_averageTimeMinutes := Math_round (sumQ times / inject_Z n)%Q;
         st_attempts :=
           map (fun kv : nat * IQuizAttempt =>
                  {| sum_id := kv.1; sum_student := student kv.2;
                     sum_score := score kv.2; sum_percentage := percentage kv.2;
                     sum_timeSpentMinutes := timeSpentMinutes kv.2;
                     sum_startedAt := startedAt kv.2;
                     sum_completedAt := completedAt kv.2 |}) found |}
  end.

(** [quiz?.settings?.passingScore || 70]. *)
Definition passing_score (q : option IQuiz) : Q :=
  match q with
  | Some q =>
      match passingScore (settings q) with
      | Some p => if Qeq_bool p 0 then 70%Q else p
      | None => 70%Q
      end
  | None => 70%Q
  end.

(** [QuizAttempt.getQuizStatistics], for attempts whose student
    [populate] found. *)
Definition getQuizStatistics (d : Db) (quizId : nat) : QuizStatistics :=
  statistics_of (passing_score (quizzes d !! quizId))
    (filter (fun kv : nat * IQuizAttempt =>
               quiz kv.2 = quizId /\ status kv.2 = completed)
            (map_to_list (attempts d))).

(** ** Grading (the callback of [responses.map] in the submit handler) *)

(** [questions.find(q => q.id === response.questionId)]. *)
Definition findQuestion (qs : list IQuestion) (id : string) : option IQuestion :=
  List.find (fun q => String.eqb (q_id q) id) qs.

(** The [switch (question.type)] that sets [isCorrect]. *)
Definition checkAnswer (question : IQuestion) (ans : JsValue) : bool :=
  match q_type question with
  | multiple_choice => strict_eq ans (correctAnswer question)
  | true_false => strict_eq ans (correctAnswer question)
  | short_answer =>
      let studentAnswer := toLowerCase (trim (js_String ans)) in
      let correct := toLowerCase (trim (js_String (correctAnswer question))) in
      String.eqb studentAnswer correct
      || includes studentAnswer correct
      || includes correct studentAnswer
  end.

(** [isCorrect ? question.points : 0], or nothing when the callback
    returns before it for an unknown question. *)
Definition pointsFor (qs : list IQuestion) (response : ResponseObject) : option Q :=
  match findQuestion qs (o_questionId response) with
  | None => None
  | Some question =>
      Some (if checkAnswer question (o_answer response) then points question else 0%Q)
  end.

(** The object the callback returns. *)
Definition gradeResponse (qs : list IQuestion) (response : ResponseObject)
  : ResponseObject :=
  match findQuestion qs (o_questionId response) with
  | None =>
      (* { ...response, isCorrect: false, pointsEarned: 0 } *)
      {| o_questionId := o_questionId response;
         o_answer := o_answer response;
         o_isCorrect := Some false;
         o_pointsEarned := Some 0%Q;
         o_timeSpentSeconds := o_timeSpentSeconds response;
         o_attempts := o_attempts response |}
  | Some question =>
      let isCorrect := checkAnswer question (o_answer response) in
      {| o_questionId := o_questionId response;
         o_answer := o_answer response;
         o_isCorrect := Some isCorrect;
         o_pointsEarned := Some (if isCorrect then points question else 0%Q);
         o_timeSpentSeconds := Some (or_zero (o_timeSpentSeconds response));
         o_attempts := Some 1%Q |}
  end.

Definition gradedResponses (qs : list IQuestion) (rs : list ResponseObject)
  : list ResponseObject :=
  map (gradeResponse qs) rs.

(** [totalScore] after the map: it starts at 0 and every response with a
    known question adds its points, in order. *)
Definition totalScore (qs : list IQuestion) (rs : list ResponseObject) : Q :=
  fold_left (fun total r =>
               match pointsFor qs r with
               | Some p => (total + p)%Q
               | None => total
               end) rs 0%Q.

(** ** Route handlers *)

Section Handlers.

(** [jwt.verify(token, JWT_SECRET)] of the jsonwebtoken library: the
    [userId] of the payload, or [None] when it throws. *)
Variable jwt_verify : string -> option nat.

(** [verifyToken] of [lib/auth/jwt.ts]. *)
Definition verifyToken (token : string) : Action nat :=
  match jwt_verify token with
  | Some userId => ret userId
  | None => throw {| err_name := "Error"; err_message := "Invalid or expired token" |}
  end.

(** The [catch] block all handlers share, up to the two messages. *)
Definition catch_block (logPrefix failure : string) (e : JsError) : Action Response :=
  let* _ := console_error (logPrefix +:+ " " +:+ err_message e) in
  if String.eqb (err_message e) "Invalid or expired token"
  then json (ErrorBody "Invalid or expired token") 401
  else json (ErrorBody failure) 500.

(** *** [POST /quizzes/[id]/attempt]: start a new quiz attempt *)

(** [request.ip || request.headers.get('x-forwarded-for') || 'unknown'] *)
Definition clientAddress (req : Request) : string :=
  match ip req with
  | Some (String c s) => String c s
  | _ =>
      match x_forwarded_for req with
      | Some (String c s) => String c s
      | _ => "unknown"
      end
  end.

(** [request.headers.get('user-agent') || 'unknown'] *)
Definition clientAgent (req : Request) : string :=
  match user_agent req with
  | Some (String c s) => String c s
  | _ => "unknown"
  end.

Definition POST_attempt_try (env : Env) (req : Request) : Action Response :=
  match request_token req with
  | None => json (ErrorBody "Authentication required") 401
  | Some token =>
    let* userId := verifyToken token in
    let* d := get_db in
    match users d !! userId with
    | None => json (ErrorBody "User not found") 404
    | Some user =>
      if bool_decide (role user <> role_student) then
        json (ErrorBody "Only students can take quizzes") 403
      else
      match quizzes d !! params_id req with
      | None => json (ErrorBody "Quiz not found") 404
      | Some q =>
        if bool_decide (quiz_status q <> published) then
          json (ErrorBody "Quiz is not available") 403
        else if match dueDate q with
                | Some due => due <? now env
                | None => false
                end then
          json (ErrorBody "Quiz deadline has passed") 403
        else
        let completedAttempts := getStudentAttemptCount d userId (params_id req) in
        if maxAttempts (settings q) <=? completedAttempts then
          json (ErrorBody ("Maximum " +:+ pretty (maxAttempts (settings q))
                             +:+ " attempts reached")) 403
        else
        match findInProgress d userId (params_id req) with
        | Some existingAttempt => json (AttemptBody (Some existingAttempt)) 200
        | None =>
          let attemptNumber := completedAttempts + 1 in
          let attempt :=
            {| quiz := params_id req;
               student := userId;
               attemptNumber := attemptNumber;
               status := in_progress;
               score := 0%Q;
               maxScore := totalPoints q;
               percentage := 0;
               timeSpentMinutes := 0%Q;
               responses := [];
               startedAt := now env;
               completedAt := None;
               submittedAt := None;
               ipAddress := clientAddress req;
               userAgent := clientAgent req |} in
          let* id := insert_attempt env attempt in
          let* d' := get_db in
          json (AttemptBody ((fun a => (id, a)) <$> attempts d' !! id)) 201
        end
      end
    end
  end.

Definition POST_attempt (env : Env) (req : Request) : World -> Response * World :=
  respond (try_catch (POST_attempt_try env req)
             (catch_block "Start quiz attempt error:" "Failed to start quiz attempt")).

(** *** [POST /quiz-attempts/[id]/submit]: submit quiz attempt *)

Definition with_submission (score : Q) (percentage : Z) (time : Q) (t : Z)
    (a : IQuizAttempt) : IQuizAttempt :=
  {| quiz := quiz a; student := student a; attemptNumber := attemptNumber a;
     status := completed; responses := responses a; score := score;
     maxScore := maxScore a; percentage := percentage;
     timeSpentMinutes := time; startedAt := startedAt a;
     completedAt := Some t; submittedAt := Some t;
     ipAddress := ipAddress a; userAgent := userAgent a |}.

(** [quiz.totalPoints > 0 ? Math.round((totalScore / quiz.totalPoints) * 100) : 0] *)
Definition submitPercentage (q : IQuiz) (total : Q) : Z :=
  if Qlt_bool 0 (totalPoints q)
  then Math_round ((total / totalPoints q) * 100)%Q
  else 0.

Definition POST_submit_try (env : Env) (req : Request) : Action Response :=
  match request_token req with
  | None => json (ErrorBody "Authentication required") 401
  | Some token =>
    let* userId := verifyToken token in
    let* d := get_db in
    match users d !! userId with
    | None => json (ErrorBody "User not found") 404
    | Some user =>
      if bool_decide (role user <> role_student) then
        json (ErrorBody "Only students can submit quiz attempts") 403
      else
      match attempts d !! params_id req with
      | None => json (ErrorBody "Quiz attempt not found") 404
      | Some attempt =>
        if bool_decide (student attempt <> userId) then
          json (ErrorBody "Access denied") 403
        else if bool_decide (status attempt <> in_progress) then
          json (ErrorBody "Quiz attempt is not in progress") 400
        else
        match body_responses (body req) with
        | None => json (ErrorBody "Responses are required") 400
        | Some responses =>
          match quizzes d !! quiz attempt with
          | None =>
              (* [populate] left [attempt.quiz] null *)
              throw (TypeError "Cannot read properties of null (reading 'questions')")
          | Some q =>
            let graded := gradedResponses (questions q) responses in
            let pct := submitPercentage q (totalScore (questions q) responses) in
            let time := or_zero (body_timeSpentMinutes (body req)) in
            let* saved :=
              save_attempt env (params_id req)
                (with_submission (totalScore (questions q) responses) pct time
                                 (now env) attempt)
                (Some graded) in
            let* _ :=
              updateAnalytics env (quiz attempt) (inject_Z pct) time true in
            json (ResultBody
                    {| res_id := params_id req;
                       res_score := score saved;
                       res_maxScore := maxScore saved;
                       res_percentage := percentage saved;
                       res_timeSpentMinutes := timeSpentMinutes saved;
                       res_status := status saved;
                       res_responses := graded;
                       res_completedAt := completedAt saved |}) 200
          end
        end
      end
    end
  end.

Definition POST_submit (env : Env) (req : Request) : World -> Response * World :=
  respond (try_catch (POST_submit_try env req)
             (catch_block "Submit quiz attempt error:" "Failed to submit quiz attempt")).

(** *** [PATCH /quiz-attempts/[id]/submit]: update attempt progress *)

Definition PATCH_submit_try (env : Env) (req : Request) : Action Response :=
  match request_token req with
  | None => json (ErrorBody "Authentication required") 401
  | Some token =>
    let* userId := verifyToken token in
    let* d := get_db in
    match users d !! userId with
    | None => json (ErrorBody "User not found") 404
    | Some user =>
      match attempts d !! params_id req with
      | None => json (ErrorBody "Quiz attempt not found") 404
      | Some attempt =>
        if bool_decide (student attempt <> userId) then
          json (ErrorBody "Access denied") 403
        else if bool_decide (status attempt <> in_progress) then
          json (ErrorBody "Quiz attempt is not in progress") 400
        else
        let ungraded :=
          map (fun r =>
                 {| o_questionId := o_questionId r;
                    o_answer := o_answer r;
                    o_isCorrect := Some false;
                    o_pointsEarned := Some 0%Q;
                    o_timeSpentSeconds := Some (or_zero (o_timeSpentSeconds r));
                    o_attempts := Some 1%Q |})
          <$> body_responses (body req) in
        let attempt1 :=
          match body_timeSpentMinutes (body req) with
          | Some t => with_timeSpentMinutes t attempt
          | None => attempt
          end in
        let* _ := save_attempt env (params_id req) attempt1 ungraded in
        json (MessageBody "Progress saved") 200
      end
    end
  end.

Definition PATCH_submit (env : Env) (req : Request) : World -> Response * World :=
  respond (try_catch (PATCH_submit_try env req)
             (catch_block "Update quiz attempt error:" "Failed to update quiz attempt")).

(** *** [DELETE /quizzes/[id]]: delete a quiz *)

Definition DELETE_quiz_try (env : Env) (req : Request) : Action Response :=
  match request_token req with
  | None => json (ErrorBody "Authentication required") 401
  | Some token =>
    let* userId := verifyToken token in
    let* d := get_db in
    if match users d !! userId with
       | None => true
       | Some user => bool_decide (role user <> role_teacher)
       end then
      json (ErrorBody "Only teachers can delete quizzes") 403
    else
    match quizzes d !! params_id req with
    | None => json (ErrorBody "Quiz not found") 404
    | Some q =>
      if bool_decide (author q <> userId) then
        json (ErrorBody "You can only delete your own quizzes") 403
      else
      let attemptCount := countQuizAttempts d (params_id req) in
      if 0 <? attemptCount then
        let* _ := save_quiz env (params_id req) (with_quiz_status archived q) in
        json (MessageBody "Quiz archived due to existing student attempts") 200
      else
        let* _ := put_db (set_quizzes (delete (params_id req) (quizzes d)) d) in
        json (MessageBody "Quiz deleted successfully") 200
    end
  end.

Definition DELETE_quiz (env : Env) (req : Request) : World -> Response * World :=
  respond (try_catch (DELETE_quiz_try env req)
             (catch_block "Delete quiz error:" "Failed to delete quiz")).

(** *** [PATCH /quizzes/[id]]: update a quiz *)

(** The fields of the body applied to the loaded quiz (the text fields
    and the tags, which the model of a quiz leaves out, are updated the
    same way). *)
Definition apply_quiz_update (env : Env) (b : RequestBody) (q : IQuiz) : IQuiz :=
  {| author := author q;
     quiz_status :=
       match body_status b with
       | Some s => s
       | None => quiz_status q
       end;
     questions :=
       match body_questions b with
       | Some qs => ensure_ids (newObjectId env) qs
       | None => questions q
       end;
     settings :=
       match body_settings b with
       | Some p =>
           (* { ...quiz.settings, ...settings } *)
           {| maxAttempts :=
                match patch_maxAttempts p with
                | Some n => n
                | None => maxAttempts (settings q)
                end;
              passingScore :=
                match patch_passingScore p with
                | Some x => Some x
                | None => passingScore (settings q)
                end |}
       | None => settings q
       end;
     totalPoints := totalPoints q;
     publishedAt := publishedAt q;
     dueDate :=
       match body_dueDate b with
       | Some d => d
       | None => dueDate q
       end;
     analytics := analytics q |}.

Definition PATCH_quiz_try (env : Env) (req : Request) : Action Response :=
  match request_token req with
  | None => json (ErrorBody "Authentication required") 401
  | Some token =>
    let* userId := verifyToken token in
    let* d := get_db in
    if match users d !! userId with
       | None => true
       | Some user => bool_decide (role user <> role_teacher)
       end then
      json (ErrorBody "Only teachers can update quizzes") 403
    else
    match quizzes d !! params_id req with
    | None => json (ErrorBody "Quiz not found") 404
    | Some q =>
      if bool_decide (author q <> userId) then
        json (ErrorBody "You can only update your own quizzes") 403
      else
      match body_questions (body req) with
      | Some [] => json (ErrorBody "At least one question is required") 400
      | _ =>
        let* _ := save_quiz env (params_id req)
                    (apply_quiz_update env (body req) q) in
        let* d' := get_db in
        json (QuizBody (quizzes d' !! params_id req)) 200
      end
    end
  end.

(** The [catch] block of the quiz update, which answers a validation
    error with 400 and its messages. *)
Definition catch_update (e : JsError) : Action Response :=
  let* _ := console_error ("Update quiz error:" +:+ " " +:+ err_message e) in
  if String.eqb (err_message e) "Invalid or expired token"
  then json (ErrorBody "Invalid or expired token") 401
  else if String.eqb (err_name e) "ValidationError"
  then json (ErrorBody (err_message e)) 400
  else json (ErrorBody "Failed to update quiz") 500.

Definition PATCH_quiz (env : Env) (req : Request) : World -> Response * World :=
  respond (try_catch (PATCH_quiz_try env req) catch_update).

(** *** The server: one request at a time *)

Inductive Call : Type :=
  | StartAttempt (req : Request)
  | Submit (req : Request)
  | SaveProgress (req : Request)
  | UpdateQuiz (req : Request)
  | DeleteQuiz (req : Request).

Definition serve (env : Env) (c : Call) : World -> Response * World :=
  match c with
  | StartAttempt req => POST_attempt env req
  | Submit req => POST_submit env req
  | SaveProgress req => PATCH_submit env req
  | UpdateQuiz req => PATCH_quiz env req
  | DeleteQuiz req => DELETE_quiz env req
  end.

(** The world after a sequence of requests, each with its environment. *)
Fixpoint serve_all (calls : list (Env * Call)) (w : World) : World :=
  match calls with
  | [] => w
  | (env, c) :: rest => serve_all rest (serve env c w).2
  end.

End Handlers.


(** ** Reading attempts and quizzes *)

(** [.sort({ startedAt: -1 })]: the latest first. *)
Definition later_first (x y : nat * IQuizAttempt) : Prop :=
  startedAt y.2 <= startedAt x.2.

#[global] Instance later_first_dec (x y : nat * IQuizAttempt) :
  Decision (later_first x y).
Proof. unfold later_first. apply _. Defined.

(** [.sort({ percentage: -1 })]: the highest percentage first. *)
Definition higher_first (x y : nat * IQuizAttempt) : Prop :=
  percentage y.2 <= percentage x.2.

#[global] Instance higher_first_dec (x y : nat * IQuizAttempt) :
  Decision (higher_first x y).
Proof. unfold higher_first. apply _. Defined.

(** [.sort({ percentage: -1, score: -1 })]. *)
Definition best_first (x y : nat * IQuizAttempt) : Prop :=
  percentage y.2 < percentage x.2
  \/ (percentage y.2 = percentage x.2 /\ Qle_bool (score y.2) (score x.2) = true).

#[global] Instance best_first_dec (x y : nat * IQuizAttempt) :
  Decision (best_first x y).
Proof. unfold best_first. apply _. Defined.

(** [QuizAttempt.find({ student, quiz }).sort({ startedAt: -1 })]. *)
Definition findAttempts (d : Db) (studentId quizId : nat)
  : list (nat * IQuizAttempt) :=
  merge_sort later_first
    (filter (fun kv : nat * IQuizAttempt =>
               student kv.2 = studentId /\ quiz kv.2 = quizId)
            (map_to_list (attempts d))).

(** [QuizAttempt.find({ quiz, student, status: 'completed' }).sort({ percentage: -1 })]. *)
Definition findCompleted (d : Db) (studentId quizId : nat)
  : list (nat * IQuizAttempt) :=
  merge_sort higher_first
    (filter (fun kv : nat * IQuizAttempt =>
               quiz kv.2 = quizId /\ student kv.2 = studentId
               /\ status kv.2 = completed)
            (map_to_list (attempts d))).

(** [QuizAttempt.getBestAttempt]:
    [findOne({ student, quiz, status: 'completed' }).sort({ percentage: -1, score: -1 })]. *)
Definition getBestAttempt (d : Db) (studentId quizId : nat)
  : option (nat * IQuizAttempt) :=
  head (merge_sort best_first
          (filter (fun kv : nat * IQuizAttempt =>
                     student kv.2 = studentId /\ quiz kv.2 = quizId
                     /\ status kv.2 = completed)
                  (map_to_list (attempts d)))).

(** What [GET /quizzes/[id]/attempt] answers with: an error, the attempt
    in progress with its quiz populated ([title questions settings]; the
    quiz is [null] when it is gone), or the history. *)
Inductive AttemptsBody : Type :=
  | AttemptsError (error : string)
  | CurrentAttempt
      (attempt : option (nat * IQuizAttempt * option (list IQuestion * QuizSettings)))
  | AttemptHistory (found : list (nat * IQuizAttempt)).

Record AttemptsResponse : Type := {
  att_status : Z;
  att_body : AttemptsBody
}.

(** One line of [studentProgress.attempts]. *)
Record AttemptLine : Type := {
  line_id : nat;
  line_score : Q;
  line_percentage : Z;
  line_timeSpentMinutes : Q;
  line_startedAt : Z;
  line_completedAt : option Z
}.

Record StudentProgress : Type := {
  sp_attemptCount : Z;
  sp_maxAttempts : Z;
  sp_bestScore : Q;
  sp_bestPercentage : Z;
  sp_canRetake : bool;
  sp_lastAttemptAt : option Z;
  sp_attempts : list AttemptLine
}.

(** What [GET /quizzes/[id]] answers with: an error, or the quiz with the
    progress of the calling student and, for its author, its statistics. *)
Inductive QuizDetailBody : Type :=
  | DetailError (error : string)
  | QuizDetail (q : IQuiz) (studentProgress : option StudentProgress)
               (statistics : option QuizStatistics).

Record QuizDetailResponse : Type := {
  det_status : Z;
  det_body : QuizDetailBody
}.

(** The [studentProgress] object of the quiz detail. *)
Definition studentProgress_of (d : Db) (userId quizId : nat) (q : IQuiz)
  : StudentProgress :=
  let found := findCompleted d userId quizId in
  let bestAttempt := head found in
  let attemptCount := getStudentAttemptCount d userId quizId in
  {| sp_attemptCount := attemptCount;
     sp_maxAttempts := maxAttempts (settings q);
     sp_bestScore :=
       match bestAttempt with
       | Some b => score b.2
       | None => 0%Q
       end;
     sp_bestPercentage :=
       match bestAttempt with
       | Some b => percentage b.2
       | None => 0
       end;
     sp_canRetake := attemptCount <? maxAttempts (settings q);
     sp_lastAttemptAt := (fun b : nat * IQuizAttempt => startedAt b.2) <$> bestAttempt;
     sp_attempts :=
       map (fun kv : nat * IQuizAttempt =>
              {| line_id := kv.1; line_score := score kv.2;
                 line_percentage := percentage kv.2;
                 line_timeSpentMinutes := timeSpentMinutes kv.2;
                 line_startedAt := startedAt kv.2;
                 line_completedAt := completedAt kv.2 |}) found |}.

(** [QuizAttempt.getQuizStatistics] as a call: the attempts are found
    with their student populated, and [populate] leaves the student of an
    attempt [null] when the account is gone; [a.student.toString()] then
    throws.  When every student was found the result is
    [getQuizStatistics] above. *)
Definition getQuizStatistics_call (d : Db) (quizId : nat) : Action QuizStatistics :=
  if bool_decide
       (Forall (fun kv : nat * IQuizAttempt => is_Some (users d !! student kv.2))
               (filter (fun kv : nat * IQuizAttempt =>
                          quiz kv.2 = quizId /\ status kv.2 = completed)
                       (map_to_list (attempts d))))
  then ret (getQuizStatistics d quizId)
  else throw (TypeError "Cannot read properties of null (reading 'toString')").

Section ReadHandlers.

Variable jwt_verify : string -> option nat.

(** *** [GET /quizzes/[id]/attempt]: the current attempt or the history *)

(** [current] is [url.searchParams.get('current') === 'true']. *)
Definition GET_attempt_try (req : Request) (current : bool)
  : Action AttemptsResponse :=
  match request_token req with
  | None =>
      ret {| att_status := 401; att_body := AttemptsError "Authentication required" |}
  | Some token =>
    let* userId := verifyToken jwt_verify token in
    let* d := get_db in
    match users d !! userId with
    | None => ret {| att_status := 404; att_body := AttemptsError "User not found" |}
    | Some user =>
      if current then
        ret {| att_status := 200;
               att_body :=
                 CurrentAttempt
                   ((fun kv : nat * IQuizAttempt =>
                       (kv, (fun q => (questions q, settings q))
                              <$> quizzes d !! quiz kv.2))
                    <$> findInProgress d userId (params_id req)) |}
      else
        ret {| att_status := 200;
               att_body := AttemptHistory (findAttempts d userId (params_id req)) |}
    end
  end.

Definition GET_attempt (req : Request) (current : bool) (w : World)
  : AttemptsResponse * World :=
  match try_catch (GET_attempt_try req current)
          (fun e =>
             let* _ := console_error ("Get quiz attempts error:" +:+ " " +:+ err_message e) in
             if String.eqb (err_message e) "Invalid or expired token"
             then ret {| att_status := 401;
                         att_body := AttemptsError "Invalid or expired token" |}
             else ret {| att_status := 500;
                         att_body := AttemptsError "Failed to get quiz attempts" |}) w with
  | (Returned r, w') => (r, w')
  | (Thrown _, w') =>
      ({| att_status := 500; att_body := AttemptsError "Internal Server Error" |}, w')
  end.

(** *** [GET /quizzes/[id]]: a quiz *)

Definition GET_quiz_try (req : Request) : Action QuizDetailResponse :=
  match request_token req with
  | None =>
      ret {| det_status := 401; det_body := DetailError "Authentication required" |}
  | Some token =>
    let* userId := verifyToken jwt_verify token in
    let* d := get_db in
    match users d !! userId with
    | None => ret {| det_status := 404; det_body := DetailError "User not found" |}
    | Some user =>
      match quizzes d !! params_id req with
      | None => ret {| det_status := 404; det_body := DetailError "Quiz not found" |}
      | Some q =>
        match users d !! author q with
        | None =>
            (* [populate] left [quiz.author] null *)
            throw (TypeError "Cannot read properties of null (reading '_id')")
        | Some _ =>
          let isAuthor := bool_decide (author q = userId) in
          let isPublished := bool_decide (quiz_status q = published) in
          if negb isAuthor
             && (negb isPublished
                 || (bool_decide (role user <> role_teacher)
                     && bool_decide (role user <> role_student)
                     && bool_decide (role user <> role_parent)))
          then ret {| det_status := 403; det_body := DetailError "Access denied" |}
          else
            let studentProgress :=
              if bool_decide (role user = role_student)
              then Some (studentProgress_of d userId (params_id req) q)
              else None in
            let* statistics :=
              if isAuthor
              then let* s := getQuizStatistics_call d (params_id req) in ret (Some s)
              else ret None in
            ret {| det_status := 200;
                   det_body := QuizDetail q studentProgress statistics |}
        end
      end
    end
  end.

Definition GET_quiz (req : Request) (w : World) : QuizDetailResponse * World :=
  match try_catch (GET_quiz_try req)
          (fun e =>
             let* _ := console_error ("Get quiz error:" +:+ " " +:+ err_message e) in
             if String.eqb (err_message e) "Invalid or expired token"
             then ret {| det_status := 401;
                         det_body := DetailError "Invalid or expired token" |}
             else ret {| det_status := 500;
                         det_body := DetailError "Failed to fetch quiz" |}) w with
  | (Returned r, w') => (r, w')
  | (Thrown _, w') =>
      ({| det_status := 500; det_body := DetailError "Internal Server Error" |}, w')
  end.

End ReadHandlers.

(** ** [QuizAttempt.getStudentProgress] *)

(** An entry of the accumulator of the [reduce]: the keys [quiz] (the
    populated quiz: its [_id] and, of the paths selected, [totalPoints]),
    [bestScore], [bestPercentage], [totalAttempts] and [lastAttempt]. *)
Record ProgressEntry : Type := {
  pe_quiz : nat * Q;
  pe_bestScore : Q;
  pe_bestPercentage : Z;
  pe_totalAttempts : Z;
  pe_lastAttempt : Z
}.

(** [acc[quizId].percentage]: an entry has no key [percentage], the
    property read is [undefined]. *)
Definition entry_percentage (e : ProgressEntry) : option Z := None.

(** [x > y] for a number and a number or [undefined]: a comparison with
    [undefined] is false. *)
Definition js_gt (x : Z) (y : option Z) : bool :=
  match y with
  | Some y => y <? x
  | None => false
  end.

(** [acc[key]] and [acc[key] = e] on an object whose keys are listed in
    the order they were added. *)
Fixpoint entry_get (acc : list (nat * ProgressEntry)) (key : nat)
  : option ProgressEntry :=
  match acc with
  | [] => None
  | (k, e) :: rest => if bool_decide (k = key) then Some e else entry_get rest key
  end.

Fixpoint entry_set (acc : list (nat * ProgressEntry)) (key : nat) (e : ProgressEntry)
  : list (nat * ProgressEntry) :=
  match acc with
  | [] => [(key, e)]
  | (k, e0) :: rest =>
      if bool_decide (k = key) then (k, e) :: rest
      else (k, e0) :: entry_set rest key e
  end.

(** The callback of the [reduce], for an attempt whose quiz was
    populated. *)
Definition progress_step (found : list (nat * IQuizAttempt * IQuiz))
    (acc : list (nat * ProgressEntry)) (x : nat * IQuizAttempt * IQuiz)
  : list (nat * ProgressEntry) :=
  let attempt := x.1.2 in
  let quizId := quiz attempt in
  if match entry_get acc quizId with
     | None => true
     | Some e => js_gt (percentage attempt) (entry_percentage e)
     end
  then
    entry_set acc quizId
      {| pe_quiz := (quizId, totalPoints x.2);
         pe_bestScore := score attempt;
         pe_bestPercentage := percentage attempt;
         pe_totalAttempts :=
           Z.of_nat (length (filter
             (fun y : nat * IQuizAttempt * IQuiz => quiz y.1.2 = quizId) found));
         pe_lastAttempt := startedAt attempt |}
  else acc.

(** The [reduce] and [Object.values]. *)
Definition progress_of (found : list (nat * IQuizAttempt * IQuiz))
  : list ProgressEntry :=
  map snd (fold_left (progress_step found) found []).

(** [getStudentProgress]: the completed attempts of the student, each
    with its quiz populated; [None] when a quiz is gone, where
    [attempt.quiz._id] throws. *)
Definition getStudentProgress (d : Db) (studentId : nat)
  : option (list ProgressEntry) :=
  progress_of <$>
    mapM (fun kv : nat * IQuizAttempt =>
            (fun q => (kv, q)) <$> quizzes d !! quiz kv.2)
         (filter (fun kv : nat * IQuizAttempt =>
                    student kv.2 = studentId /\ status kv.2 = completed)
                 (map_to_list (attempts d))).

(** ** The quiz taker page *)

(** Whether a value is truthy. *)
Definition js_truthy (v : JsValue) : bool :=
  match v with
  | JUndefined | JNull => false
  | JBool b => b
  | JNum n => negb (n =? 0)
  | JStr s => truthy_string s
  end.

(** [handleResponseChange]: [{ ...prev, [questionId]: answer }]. *)
Definition handleResponseChange (questionId : string) (answer : JsValue)
    (responses : gmap string JsValue) : gmap string JsValue :=
  <[questionId := answer]> responses.

(** One entry of [submissionData.responses] in [submitQuiz]:
    [{ questionId: q.id, answer: responses[q.id] || "",
       timeSpentSeconds: Math.floor(timeSpent / quiz.questions.length) }],
    for [count] questions and [timeSpent] seconds on the clock. *)
Definition submissionEntry (responses : gmap string JsValue) (timeSpent : Z)
    (count : nat) (q : IQuestion) : ResponseObject :=
  {| o_questionId := q_id q;
     o_answer :=
       match responses !! q_id q with
       | Some v => if js_truthy v then v else JStr EmptyString
       | None => JStr EmptyString
       end;
     o_isCorrect := None;
     o_pointsEarned := None;
     o_timeSpentSeconds := Some (inject_Z (timeSpent / Z.of_nat count));
     o_attempts := None |}.

(** * Specification-side definitions *)

(** ** Strings and the short-answer policy *)

(** [sub] occurs in [s], said without an algorithm. *)
Definition is_substring (sub s : string) : Prop :=
  exists pre post : string, s = pre +:+ sub +:+ post.

(** The short-answer policy in the words of the specification: after
    trimming and case folding, the two strings are equal or one occurs in
    the other. *)
Definition short_answer_matches (submitted correct : string) : Prop :=
  let a := toLowerCase (trim submitted) in
  let c := toLowerCase (trim correct) in
  a = c \/ is_substring c a \/ is_substring a c.

(** ** Submitting an attempt *)

Section SubmitSpec.

Variable jwt_verify : string -> option nat.

(** The request passes every check of the submit handler up to grading:
    it carries a token of the student who owns the attempt [a], which is in
    progress, responses [rs], and the quiz [q] of the attempt is there. *)
Definition submit_admitted (req : Request) (w : World)
    (a : IQuizAttempt) (q : IQuiz) (rs : list ResponseObject) : Prop :=
  exists (tok : string) (u : IUser),
    request_token req = Some tok
    /\ jwt_verify tok = Some (student a)
    /\ users (db w) !! student a = Some u
    /\ role u = role_student
    /\ attempts (db w) !! params_id req = Some a
    /\ status a = in_progress
    /\ body_responses (body req) = Some rs
    /\ quizzes (db w) !! quiz a = Some q.

(** The attempt as the handler hands it to [save()]. *)
Definition finalized (env : Env) (req : Request) (a : IQuizAttempt) (q : IQuiz)
    (rs : list ResponseObject) (ps : list IQuestionResponse) : IQuizAttempt :=
  with_responses ps
    (with_submission (totalScore (questions q) rs)
       (submitPercentage q (totalScore (questions q) rs))
       (or_zero (body_timeSpentMinutes (body req))) (now env) a).

(** The save goes through: the graded responses are cast to [ps] and the
    document validates. *)
Definition submit_saves (env : Env) (req : Request) (a : IQuizAttempt) (q : IQuiz)
    (rs : list ResponseObject) (ps : list IQuestionResponse) : Prop :=
  cast_responses (gradedResponses (questions q) rs) = Some ps
  /\ validate_attempt (finalized env req a q rs ps) = true.

Definition graded_result (env : Env) (req : Request) (a : IQuizAttempt) (q : IQuiz)
    (rs : list ResponseObject) (ps : list IQuestionResponse) : SubmitResult :=
  let saved := attempt_pre_save (now env) (finalized env req a q rs ps) in
  {| res_id := params_id req;
     res_score := score saved;
     res_maxScore := maxScore saved;
     res_percentage := percentage saved;
     res_timeSpentMinutes := timeSpentMinutes saved;
     res_status := status saved;
     res_responses := gradedResponses (questions q) rs;
     res_completedAt := completedAt saved |}.

End SubmitSpec.

(** ** Starting an attempt *)

Section StartSpec.

Variable jwt_verify : string -> option nat.

(** The request passes every check of the start handler: it carries the
    token of the student [uid], the quiz [q] it names is published and
    not past its due date, and the student is below the attempt limit. *)
Definition start_admitted (env : Env) (req : Request) (w : World)
    (uid : nat) (q : IQuiz) : Prop :=
  exists (tok : string) (u : IUser),
    request_token req = Some tok
    /\ jwt_verify tok = Some uid
    /\ users (db w) !! uid = Some u
    /\ role u = role_student
    /\ quizzes (db w) !! params_id req = Some q
    /\ quiz_status q = published
    /\ (forall due, dueDate q = Some due -> now env <= due)
    /\ getStudentAttemptCount (db w) uid (params_id req) < maxAttempts (settings q).

End StartSpec.

(** ** Deleting a quiz *)

Section DeleteSpec.

Variable jwt_verify : string -> option nat.

(** The request carries the token of a teacher and names a quiz [q] that
    this teacher wrote. *)
Definition delete_admitted (req : Request) (w : World) (q : IQuiz) : Prop :=
  exists (tok : string) (u : IUser),
    request_token req = Some tok
    /\ jwt_verify tok = Some (author q)
    /\ users (db w) !! author q = Some u
    /\ role u = role_teacher
    /\ quizzes (db w) !! params_id req = Some q.

End DeleteSpec.

(** ** Analytics *)


(** The analytics a new quiz document starts with (the schema defaults). *)
Definition no_analytics : QuizAnalytics :=
  {| totalAttempts := 0; averageScore := 0%Q; completionRate := 0%Q;
     averageTimeMinutes := 0%Q |}.




Section AnalyticsSpec.

Variable jwt_verify : string -> option nat.



End AnalyticsSpec.




(** An attempt of student [uid] on quiz [qid]. *)
Definition attempt_of (uid qid : nat) (a : IQuizAttempt) : Prop :=
  student a = uid /\ quiz a = qid.

(** Numbering invariant of the attempts collection: an attempt that has
    left [in_progress] is numbered at most the count of such attempts of
    its student on its quiz, and one in progress at most that count plus
    one. *)
Definition numbering_ok (d : Db) : Prop :=
  forall (i : nat) (a : IQuizAttempt),
    attempts d !! i = Some a ->
    attemptNumber a
    <= getStudentAttemptCount d (student a) (quiz a)
       + (if bool_decide (status a = in_progress) then 1 else 0).

(** What a request can do to the attempts collection: nothing, insert an
    attempt in progress numbered one more than the count of terminal
    attempts of its student on its quiz, or rewrite an attempt in progress
    keeping its student, quiz and number. *)
Definition attempts_step (d : Db) (m' : gmap nat IQuizAttempt) : Prop :=
  m' = attempts d
  \/ (exists i a,
        attempts d !! i = None /\ status a = in_progress
        /\ attemptNumber a = getStudentAttemptCount d (student a) (quiz a) + 1
        /\ m' = <[i := a]> (attempts d))
  \/ (exists i a a',
        attempts d !! i = Some a /\ status a = in_progress
        /\ student a' = student a /\ quiz a' = quiz a
        /\ attemptNumber a' = attemptNumber a
        /\ m' = <[i := a']> (attempts d)).

(** Every stored quiz passes the validators of its schema (as every
    document that [save()] wrote does). *)
Definition quizzes_valid (d : Db) : Prop :=
  forall (i : nat) (q : IQuiz), quizzes d !! i = Some q -> validate_quiz q = true.

(** ** Concrete questions, quizzes and requests *)

Definition paris : IQuestion :=
  {| q_id := "capital"; q_type := short_answer; options := [];
     correctAnswer := JStr "Paris"; points := 2%Q |}.

Definition paris_france : ResponseObject :=
  {| o_questionId := "capital"; o_answer := JStr "Paris, France";
     o_isCorrect := None; o_pointsEarned := None;
     o_timeSpentSeconds := None; o_attempts := None |}.

Definition pick_third : IQuestion :=
  {| q_id := "mc"; q_type := multiple_choice; options := ["A"; "B"; "C"; "D"];
     correctAnswer := JNum 2; points := 1%Q |}.


(** A school with one student (user 1), one teacher (user 2) and the
    teacher's published two-question quiz (quiz 10, 3 points). *)
Definition demo_jwt (token : string) : option nat :=
  if String.eqb token "student-token" then Some 1%nat
  else if String.eqb token "teacher-token" then Some 2%nat
  else None.

Definition capital_quiz : IQuiz :=
  {| author := 2%nat; quiz_status := published;
     questions := [pick_third; paris];
     settings := {| maxAttempts := 3; passingScore := None |};
     totalPoints := 3%Q; publishedAt := Some 50; dueDate := None;
     analytics := no_analytics |}.

Definition school : World :=
  {| db := {| users := {[ 1%nat := {| role := role_student |};
                          2%nat := {| role := role_teacher |} ]};
              quizzes := {[ 10%nat := capital_quiz ]};
              attempts := ∅ |};
     console := [] |}.

Definition at_time (t : Z) : Env :=
  {| now := t; newObjectId := fun i => pretty (Z.of_nat i);
     findByIdAndUpdate_rejects := false |}.

(** The same clock, with the database rejecting [findByIdAndUpdate]. *)
Definition outage_at (t : Z) : Env :=
  {| now := t; newObjectId := fun i => pretty (Z.of_nat i);
     findByIdAndUpdate_rejects := true |}.

Definition request (token : string) (id : nat) (b : RequestBody) : Request :=
  {| authorization := Some ("Bearer " +:+ token); auth_token_cookie := None;
     params_id := id; ip := Some "10.0.0.7"; x_forwarded_for := None;
     user_agent := Some "Mozilla/5.0"; body := b |}.

Definition no_body : RequestBody :=
  {| body_responses := None; body_timeSpentMinutes := None;
     body_questions := None; body_status := None; body_settings := None;
     body_dueDate := None |}.

Definition answers (rs : list ResponseObject) (minutes : Q) : RequestBody :=
  {| body_responses := Some rs; body_timeSpentMinutes := Some minutes;
     body_questions := None; body_status := None; body_settings := None;
     body_dueDate := None |}.

Definition new_questions (qs : list IQuestion) : RequestBody :=
  {| body_responses := None; body_timeSpentMinutes := None;
     body_questions := Some qs; body_status := None; body_settings := None;
     body_dueDate := None |}.

Definition answer_to (id : string) (v : JsValue) : ResponseObject :=
  {| o_questionId := id; o_answer := v; o_isCorrect := None;
     o_pointsEarned := None; o_timeSpentSeconds := Some 30%Q;
     o_attempts := None |}.

(** The student has started the quiz: attempt 0 is in progress. *)
Definition started : World :=
  (POST_attempt demo_jwt (at_time 100) (request "student-token" 10 no_body) school).2.

Definition both_right : RequestBody :=
  answers [answer_to "mc" (JNum 2); answer_to "capital" (JStr "paris")] 4%Q.

(** The student has submitted both answers, right: attempt 0 is completed. *)
Definition submitted : World :=
  (POST_submit demo_jwt (at_time 200) (request "student-token" 0 both_right) started).2.

(** The teacher adds a 3-point question after the student has started:
    the quiz is then worth 6 points, the attempt still has
    [maxScore = 3]. *)
Definition bonus : IQuestion :=
  {| q_id := "bonus"; q_type := true_false; options := [];
     correctAnswer := JBool true; points := 3%Q |}.

Definition started_then_edited : World :=
  (PATCH_quiz demo_jwt (at_time 150)
     (request "teacher-token" 10 (new_questions [pick_third; paris; bonus]))
     started).2.

Definition all_right : RequestBody :=
  answers [answer_to "mc" (JNum 2); answer_to "capital" (JStr "paris");
           answer_to "bonus" (JBool true)] 4%Q.

Definition both_wrong : RequestBody :=
  answers [answer_to "mc" (JNum 1); answer_to "capital" (JStr "London")] 6%Q.

(** Two more rounds after [submitted], both with wrong answers: the
    student has used the three attempts the quiz allows. *)
Definition three_attempts : World :=
  serve_all demo_jwt
    [(at_time 300, StartAttempt (request "student-token" 10 no_body));
     (at_time 400, Submit (request "student-token" 1 both_wrong));
     (at_time 500, StartAttempt (request "student-token" 10 no_body));
     (at_time 600, Submit (request "student-token" 2 both_wrong))]
    submitted.

(** A start request whose User-Agent header has 501 characters. *)
Definition long_agent : string :=
  string_of_list_ascii (repeat "a"%char 501).

Definition verbose_request : Request :=
  {| authorization := Some "Bearer student-token"; auth_token_cookie := None;
     params_id := 10%nat; ip := Some "10.0.0.7"; x_forwarded_for := None;
     user_agent := Some long_agent; body := no_body |}.

Definition delete_request : Request := request "teacher-token" 10 no_body.

(** A completed attempt of student 1 on quiz 10 with the given percentage
    of 10 points and minutes. *)
Definition completed_with (n pct : Z) (minutes : Q) : IQuizAttempt :=
  {| quiz := 10%nat; student := 1%nat; attemptNumber := n; status := completed;
     responses := []; score := (inject_Z pct / 10)%Q; maxScore := 10%Q;
     percentage := pct; timeSpentMinutes := minutes; startedAt := 0;
     completedAt := Some 1000; submittedAt := Some 1000;
     ipAddress := "10.0.0.7"; userAgent := "Mozilla/5.0" |}.



(** * More specification-side definitions *)

(** The request a call carries. *)
Definition request_of (c : Call) : Request :=
  match c with
  | StartAttempt req | Submit req | SaveProgress req
  | UpdateQuiz req | DeleteQuiz req => req
  end.

(** The points of a list of questions added up, as the pre-save hook of
    the quiz schema computes [totalPoints]. *)
Definition pointsTotal (qs : list IQuestion) : Q :=
  fold_left (fun total question => (total + points question)%Q) qs 0%Q.

(** The points of the questions are whole numbers.  Additions of whole
    numbers of this size are exact in the floating-point numbers of the
    handlers, as they are in the rationals of the model. *)
Definition whole_points (qs : list IQuestion) : Prop :=
  Forall (fun q => exists z : Z, (points q == inject_Z z)%Q) qs.

(** What a response adds to the score. *)
Definition earned (qs : list IQuestion) (r : ResponseObject) : Q :=
  match pointsFor qs r with
  | Some p => p
  | None => 0%Q
  end.

(** What the analytics of a quiz satisfy: the attempts counted are not
    negative, the average score is a percentage, and the completion rate
    is 100 once an attempt is counted. *)
Definition analytics_ok (an : QuizAnalytics) : Prop :=
  0 <= totalAttempts an
  /\ (0 < totalAttempts an -> (completionRate an == 100)%Q)
  /\ (0 <= averageScore an <= 100)%Q
  /\ (0 <= averageTimeMinutes an)%Q.

Definition analytics_valid (d : Db) : Prop :=
  forall (i : nat) (q : IQuiz), quizzes d !! i = Some q -> analytics_ok (analytics q).

(** The total of every stored quiz is the sum of the points of its
    questions. *)
Definition totals_ok (d : Db) : Prop :=
  forall (i : nat) (q : IQuiz),
    quizzes d !! i = Some q -> totalPoints q = pointsTotal (questions q).

(** What a request can do to the quizzes collection: nothing; count one
    more submission, with a percentage and a time that passed the
    validators of the attempt, in the analytics of a quiz; save a valid
    document over a quiz, with the same author, date of publication and
    analytics; or remove a quiz. *)
Definition quizzes_step (env : Env) (d : Db) (m' : gmap nat IQuiz) : Prop :=
  m' = quizzes d
  \/ (exists i q pct t,
        quizzes d !! i = Some q /\ 0 <= pct <= 100 /\ (0 <= t)%Q
        /\ m' = <[i := with_analytics
                          (next_analytics (analytics q) (inject_Z pct) t true) q]>
                  (quizzes d))
  \/ (exists i q q1,
        quizzes d !! i = Some q /\ validate_quiz q1 = true
        /\ author q1 = author q /\ publishedAt q1 = publishedAt q
        /\ analytics q1 = analytics q
        /\ m' = <[i := quiz_pre_save (now env) (newObjectId env) q1]> (quizzes d))
  \/ (exists i, m' = delete i (quizzes d)).

(** ** The life of an attempt *)

(** What an attempt keeps from the request that started it. *)
Definition same_origin (a a' : IQuizAttempt) : Prop :=
  student a' = student a /\ quiz a' = quiz a
  /\ attemptNumber a' = attemptNumber a
  /\ startedAt a' = startedAt a /\ maxScore a' = maxScore a
  /\ ipAddress a' = ipAddress a /\ userAgent a' = userAgent a.

(** What a request can do to the attempts collection, in full: nothing;
    insert a new attempt in progress, with no score and no response,
    when its student has no attempt in progress on its quiz and its
    index key is free; save the progress of an attempt in progress; or
    complete an attempt in progress at the time of the request. *)
Definition attempts_change (env : Env) (d : Db) (m' : gmap nat IQuizAttempt) : Prop :=
  m' = attempts d
  \/ (exists i a,
        attempts d !! i = None
        /\ status a = in_progress /\ score a = 0%Q /\ percentage a = 0
        /\ responses a = []
        /\ completedAt a = None /\ submittedAt a = None
        /\ findInProgress d (student a) (quiz a) = None
        /\ index_taken d a = false
        /\ m' = <[i := a]> (attempts d))
  \/ (exists i a a',
        attempts d !! i = Some a /\ status a = in_progress
        /\ same_origin a a'
        /\ status a' = in_progress /\ score a' = score a
        /\ percentage a'
           = (if Qlt_bool 0 (maxScore a)
              then Math_round ((score a / maxScore a) * 100)%Q
              else percentage a)
        /\ completedAt a' = completedAt a /\ submittedAt a' = submittedAt a
        /\ m' = <[i := a']> (attempts d))
  \/ (exists i a a',
        attempts d !! i = Some a /\ status a = in_progress
        /\ same_origin a a'
        /\ status a' = completed
        /\ completedAt a' = Some (now env) /\ submittedAt a' = Some (now env)
        /\ m' = <[i := a']> (attempts d)).

(** A student has at most one attempt in progress on a quiz. *)
Definition single_open (d : Db) : Prop :=
  forall (i j : nat) (a b : IQuizAttempt),
    attempts d !! i = Some a -> attempts d !! j = Some b ->
    status a = in_progress -> status b = in_progress ->
    student a = student b -> quiz a = quiz b -> i = j.

(** The unique index [{student, quiz, attemptNumber}] holds. *)
Definition index_unique (d : Db) : Prop :=
  forall (i j : nat) (a b : IQuizAttempt),
    attempts d !! i = Some a -> attempts d !! j = Some b ->
    student a = student b -> quiz a = quiz b ->
    attemptNumber a = attemptNumber b -> i = j.

(** An attempt is in progress, with no score and no date of completion,
    or completed, with the dates of completion and submission. *)
Definition attempt_wellformed (a : IQuizAttempt) : Prop :=
  (status a = in_progress /\ score a = 0%Q /\ percentage a = 0
   /\ completedAt a = None /\ submittedAt a = None)
  \/ (status a = completed /\ is_Some (completedAt a) /\ is_Some (submittedAt a)).

Definition attempts_wellformed (d : Db) : Prop :=
  forall (i : nat) (a : IQuizAttempt),
    attempts d !! i = Some a -> attempt_wellformed a.

(** The attempt that the first start request of student 1 on quiz 10
    creates at time 100. *)
Definition first_attempt : IQuizAttempt :=
  {| quiz := 10%nat; student := 1%nat; attemptNumber := 1;
     status := in_progress; responses := []; score := 0%Q;
     maxScore := 3%Q; percentage := 0; timeSpentMinutes := 0%Q;
     startedAt := 100; completedAt := None; submittedAt := None;
     ipAddress := "10.0.0.7"; userAgent := "Mozilla/5.0" |}.

(** The student starts, submits, and starts again. *)
Definition two_rounds : list (Env * Call) :=
  [(at_time 100, StartAttempt (request "student-token" 10 no_body));
   (at_time 200, Submit (request "student-token" 0 both_right));
   (at_time 300, StartAttempt (request "student-token" 10 no_body))].

(** A multiple-choice question whose first option is the right one. *)
Definition pick_first : IQuestion :=
  {| q_id := "first"; q_type := multiple_choice;
     options := ["Paris"; "Lyon"; "Nice"]; correctAnswer := JNum 0;
     points := 2%Q |}.

(** The entry [getStudentProgress] writes for an attempt. *)
Definition entry_of (found : list (nat * IQuizAttempt * IQuiz))
    (x : nat * IQuizAttempt * IQuiz) : ProgressEntry :=
  {| pe_quiz := (quiz x.1.2, totalPoints x.2);
     pe_bestScore := score x.1.2;
     pe_bestPercentage := percentage x.1.2;
     pe_totalAttempts :=
       Z.of_nat (length (filter
         (fun y : nat * IQuizAttempt * IQuiz => quiz y.1.2 = quiz x.1.2) found));
     pe_lastAttempt := startedAt x.1.2 |}.

(** Two completed attempts on the same quiz, as a query returns them:
    60 percent first, then 80. *)
Definition sixty_then_eighty : list (nat * IQuizAttempt * IQuiz) :=
  [(0%nat, completed_with 1 60 5%Q, capital_quiz);
   (1%nat, completed_with 2 80 7%Q, capital_quiz)].

(** Every attempt refers to a stored quiz. *)
Definition attempts_refer (d : Db) : Prop :=
  forall (i : nat) (a : IQuizAttempt),
    attempts d !! i = Some a -> is_Some (quizzes d !! quiz a).
(** * Properties *)

(** ** Strings *)

Lemma app_String (c : ascii) (a b : string) : String c a +:+ b = String c (a +:+ b).
Proof. reflexivity. Qed.

Lemma prefix_app (a s : string) :
  String.prefix a s = true <-> exists post, s = a +:+ post.
Proof.
  revert s. induction a as [|c a IH]; intros s.
  - split; [intros _; by exists s | intros _; by destruct s].
  - destruct s as [|c' s].
    + split; [done | intros [post H]; rewrite app_String in H; discriminate].
    + cbn. destruct (Ascii.ascii_dec c c') as [->|Hne].
      * rewrite IH. split; intros [post H]; exists post; rewrite app_String in *; congruence.
      * split; [done | intros [post H]; rewrite app_String in H; congruence].
Qed.

Lemma includes_is_substring (s sub : string) :
  includes s sub = true <-> is_substring sub s.
Proof.
  split.
  - induction s as [|c s IH]; cbn [includes]; rewrite orb_true_iff.
    + intros [H|H]; [|done].
      apply prefix_app in H as [post ->]. by exists EmptyString, post.
    + intros [H|H].
      * apply prefix_app in H as [post H]. by exists EmptyString, post.
      * destruct (IH H) as (pre & post & ->). by exists (String c pre), post.
  - intros (pre & post & ->).
    induction pre as [|c pre IH].
    + change (EmptyString +:+ sub +:+ post) with (sub +:+ post).
      assert (String.prefix sub (sub +:+ post) = true) as Hp
        by (apply prefix_app; by exists post).
      destruct (sub +:+ post); cbn [includes]; by rewrite Hp.
    + rewrite app_String. cbn [includes]. rewrite IH. apply orb_true_r.
Qed.

(** ** Grading one response *)

Lemma checkAnswer_short_answer (q : IQuestion) (ans : JsValue) :
  q_type q = short_answer ->
  checkAnswer q ans = true <->
  short_answer_matches (js_String ans) (js_String (correctAnswer q)).
Proof.
  intros Hq. unfold checkAnswer, short_answer_matches. rewrite Hq. simpl.
  rewrite !orb_true_iff, String.eqb_eq, !includes_is_substring. tauto.
Qed.

(** C6.  For a short-answer question, the graded response is correct
    exactly when the trimmed, case-folded submitted string equals the
    trimmed, case-folded correct answer or one of the two occurs in the
    other; the points earned are the question's points when correct and 0
    otherwise.  For the correct answer "Paris": "  paris  " and
    "Paris, France" are correct, "London" is not. *)
Theorem short_answer_grading (qs : list IQuestion) (r : ResponseObject) (q : IQuestion) :
  findQuestion qs (o_questionId r) = Some q ->
  q_type q = short_answer ->
  (exists b : bool,
      o_isCorrect (gradeResponse qs r) = Some b
      /\ o_pointsEarned (gradeResponse qs r) = Some (if b then points q else 0%Q)
      /\ pointsFor qs r = Some (if b then points q else 0%Q)
      /\ (b = true <->
          short_answer_matches (js_String (o_answer r)) (js_String (correctAnswer q))))
  /\ checkAnswer paris (JStr "  paris  ") = true
  /\ checkAnswer paris (JStr "Paris, France") = true
  /\ checkAnswer paris (JStr "London") = false.
Proof.
  intros Hfind Hq. split; [|by vm_compute].
  exists (checkAnswer q (o_answer r)).
  unfold gradeResponse, pointsFor. rewrite Hfind. simpl.
  repeat split; try apply checkAnswer_short_answer; try done;
    by apply checkAnswer_short_answer.
Qed.

Lemma short_answer_grading_witness :
  (exists b : bool,
      o_isCorrect (gradeResponse [paris] paris_france) = Some b
      /\ o_pointsEarned (gradeResponse [paris] paris_france)
         = Some (if b then points paris else 0%Q)
      /\ pointsFor [paris] paris_france = Some (if b then points paris else 0%Q)
      /\ (b = true <->
          short_answer_matches (js_String (o_answer paris_france))
                               (js_String (correctAnswer paris))))
  /\ checkAnswer paris (JStr "  paris  ") = true
  /\ checkAnswer paris (JStr "Paris, France") = true
  /\ checkAnswer paris (JStr "London") = false.
Proof.
  apply (short_answer_grading [paris] paris_france paris); reflexivity.
Defined.

(** C10.  Multiple-choice and true/false answers are compared with [===]:
    a string never equals a numeric or boolean correct answer, so the
    response is graded incorrect with 0 points, whatever the string
    denotes. *)
Theorem string_answer_never_matches (qs : list IQuestion) (r : ResponseObject)
    (q : IQuestion) (s : string) :
  findQuestion qs (o_questionId r) = Some q ->
  o_answer r = JStr s ->
  (q_type q = multiple_choice /\ exists k : Z, correctAnswer q = JNum k)
  \/ (q_type q = true_false /\ exists b : bool, correctAnswer q = JBool b) ->
  checkAnswer q (o_answer r) = false
  /\ o_isCorrect (gradeResponse qs r) = Some false
  /\ o_pointsEarned (gradeResponse qs r) = Some 0%Q
  /\ pointsFor qs r = Some 0%Q.
Proof.
  intros Hfind Hans Hq.
  assert (checkAnswer q (o_answer r) = false) as Hc.
  { unfold checkAnswer. rewrite Hans.
    destruct Hq as [[-> [k ->]]|[-> [b ->]]]; reflexivity. }
  unfold gradeResponse, pointsFor. rewrite Hfind, Hc. done.
Qed.

Lemma string_answer_never_matches_witness :
  o_isCorrect
    (gradeResponse [pick_third]
       {| o_questionId := "mc"; o_answer := JStr "2";
          o_isCorrect := None; o_pointsEarned := None;
          o_timeSpentSeconds := None; o_attempts := None |}) = Some false.
Proof.
  apply (string_answer_never_matches [pick_third]
       {| o_questionId := "mc"; o_answer := JStr "2";
          o_isCorrect := None; o_pointsEarned := None;
          o_timeSpentSeconds := None; o_attempts := None |} pick_third "2").
  - reflexivity.
  - reflexivity.
  - left. split; [reflexivity | exists 2; reflexivity].
Defined.

(** ** The pre-save hook of an attempt *)

Lemma attempt_pre_save_fields (t : Z) (a : IQuizAttempt) :
  quiz (attempt_pre_save t a) = quiz a
  /\ student (attempt_pre_save t a) = student a
  /\ attemptNumber (attempt_pre_save t a) = attemptNumber a
  /\ status (attempt_pre_save t a) = status a
  /\ responses (attempt_pre_save t a) = responses a
  /\ score (attempt_pre_save t a) = score a
  /\ maxScore (attempt_pre_save t a) = maxScore a
  /\ submittedAt (attempt_pre_save t a) = submittedAt a.
Proof.
  unfold attempt_pre_save.
  destruct (Qlt_bool 0 (maxScore a)); simpl;
    repeat case_match; simpl; done.
Qed.

Lemma attempt_pre_save_percentage (t : Z) (a : IQuizAttempt) :
  Qlt_bool 0 (maxScore a) = true ->
  percentage (attempt_pre_save t a)
  = Math_round ((score a / maxScore a) * 100)%Q.
Proof.
  intros H. unfold attempt_pre_save. rewrite H. simpl.
  repeat case_match; simpl; done.
Qed.

Lemma attempt_pre_save_completedAt (t : Z) (a : IQuizAttempt) :
  completedAt (attempt_pre_save t a)
  = match completedAt a with
    | Some t0 => Some t0
    | None => if bool_decide (status a = completed) then Some t else None
    end.
Proof.
  unfold attempt_pre_save.
  destruct (Qlt_bool 0 (maxScore a)); simpl;
    destruct (completedAt a) eqn:E; repeat case_bool_decide; simpl;
    rewrite ?E; done.
Qed.

(** The handlers, run symbolically. *)
Ltac run_handler :=
  cbv beta iota zeta delta
    [bind ret throw get_db put_db json verifyToken respond try_catch catch_block
     console_error save_attempt insert_attempt save_quiz updateAnalytics];
  cbn [db console set_attempts set_quizzes attempts quizzes users fst snd].

(** ** Submitting an attempt *)

Section Submit.

Variable jwt_verify : string -> option nat.

Lemma POST_submit_saved env req w a q rs ps :
  submit_admitted jwt_verify req w a q rs ->
  submit_saves env req a q rs ps ->
  POST_submit jwt_verify env req w =
    let saved := attempt_pre_save (now env) (finalized env req a q rs ps) in
    let d1 := set_attempts (<[params_id req := saved]> (attempts (db w))) (db w) in
    if findByIdAndUpdate_rejects env then
      ({| resp_status := 500; resp_body := ErrorBody "Failed to submit quiz attempt" |},
       {| db := d1;
          console := console w ++
            ["Submit quiz attempt error: findByIdAndUpdate rejected"] |})
    else
      ({| resp_status := 200; resp_body := ResultBody (graded_result env req a q rs ps) |},
       {| db := set_quizzes
                  (<[quiz a := with_analytics
                      (next_analytics (analytics q)
                         (inject_Z (submitPercentage q (totalScore (questions q) rs)))
                         (or_zero (body_timeSpentMinutes (body req))) true) q]>
                     (quizzes (db w))) d1;
          console := console w |}).
Proof.
  intros (tok & u & Htok & Hjwt & Hu & Hrole & Ha & Hst & Hrs & Hq) [Hcast Hval].
  unfold POST_submit, POST_submit_try. rewrite Htok.
  cbv beta iota zeta delta [bind ret throw get_db json verifyToken respond try_catch].
  rewrite Hjwt, Hu, Hrole, Ha, Hst, Hrs, Hq.
  rewrite !bool_decide_eq_false_2 by (intro; congruence).
  unfold save_attempt. rewrite Hcast. cbn [fmap option_fmap option_map].
  fold (finalized env req a q rs ps). rewrite Hval.
  cbv beta iota zeta delta [bind ret throw get_db put_db json].
  cbn [db console]. unfold updateAnalytics.
  cbv beta iota zeta delta [bind ret throw get_db put_db json].
  cbn [db console set_attempts quizzes]. rewrite Hq.
  destruct (findByIdAndUpdate_rejects env).
  - cbv beta iota zeta delta [bind ret throw get_db put_db json catch_block console_error].
    cbn [db console err_message MongoServerError]. reflexivity.
  - cbv beta iota zeta delta [bind ret throw get_db put_db json catch_block console_error].
    cbn [db console]. reflexivity.
Qed.

(** A graded answer is only sent when the whole handler went through. *)
Lemma POST_submit_200_inv env req w resp w' :
  POST_submit jwt_verify env req w = (resp, w') ->
  resp_status resp = 200 ->
  exists a q rs ps,
    submit_admitted jwt_verify req w a q rs
    /\ submit_saves env req a q rs ps
    /\ findByIdAndUpdate_rejects env = false.
Proof.
  unfold POST_submit, POST_submit_try.
  cbv beta iota zeta delta [bind ret throw get_db json verifyToken respond try_catch
                            catch_block console_error].
  intros H Hs.
  destruct (request_token req) as [tok|] eqn:Htok; [|by simplify_eq/=].
  destruct (jwt_verify tok) as [uid|] eqn:Hjwt; [|by simplify_eq/=].
  destruct (users (db w) !! uid) as [u|] eqn:Hu; [|by simplify_eq/=].
  case_bool_decide as Hrole; [by simplify_eq/=|].
  destruct (attempts (db w) !! params_id req) as [a|] eqn:Ha; [|by simplify_eq/=].
  case_bool_decide as Hown; [by simplify_eq/=|].
  case_bool_decide as Hst; [by simplify_eq/=|].
  destruct (body_responses (body req)) as [rs|] eqn:Hrs; [|by simplify_eq/=].
  destruct (quizzes (db w) !! quiz a) as [q|] eqn:Hq; [|by simplify_eq/=].
  subst uid.
  unfold save_attempt, updateAnalytics in H.
  destruct (cast_responses (gradedResponses (questions q) rs)) as [ps|] eqn:Hcast;
    cbn [fmap option_fmap option_map] in H.
  2:{ revert H. cbv beta iota zeta delta [throw]. cbn [err_message ValidationError].
      case_match; intros; by simplify_eq/=. }
  fold (finalized env req a q rs ps) in H.
  destruct (validate_attempt (finalized env req a q rs ps)) eqn:Hval.
  2:{ revert H. cbv beta iota zeta delta [throw]. cbn [err_message ValidationError].
      case_match; intros; by simplify_eq/=. }
  revert H. cbv beta iota zeta delta [bind ret throw get_db put_db].
  cbn [db console set_attempts quizzes]. rewrite Hq.
  destruct (findByIdAndUpdate_rejects env) eqn:Hrej.
  { cbn [err_message MongoServerError]. case_match; intros; by simplify_eq/=. }
  intros _. exists a, q, rs, ps. repeat split; try done.
  by exists tok, u.
Qed.


Lemma cast_response_Some (o : ResponseObject) (p : IQuestionResponse) :
  cast_response o = Some p ->
  questionId p = o_questionId o
  /\ answer p = o_answer o
  /\ o_isCorrect o = Some (isCorrect p)
  /\ o_pointsEarned o = Some (pointsEarned p).
Proof.
  unfold cast_response. intros H.
  repeat (case_match; simplify_eq/=); done.
Qed.

Lemma finalized_saved_fields env req a q rs ps :
  let a' := attempt_pre_save (now env) (finalized env req a q rs ps) in
  responses a' = ps
  /\ score a' = totalScore (questions q) rs
  /\ maxScore a' = maxScore a
  /\ status a' = completed
  /\ completedAt a' = Some (now env)
  /\ submittedAt a' = Some (now env)
  /\ quiz a' = quiz a /\ student a' = student a
  /\ attemptNumber a' = attemptNumber a.
Proof.
  intros a'. subst a'.
  destruct (attempt_pre_save_fields (now env) (finalized env req a q rs ps))
    as (-> & -> & -> & -> & -> & -> & -> & ->).
  rewrite attempt_pre_save_completedAt. done.
Qed.

(** What a submit answered with 200 left in the database: the attempt,
    finalised, under its id; nothing else moved in the attempts. *)
Lemma POST_submit_200_attempt env req w resp w' :
  POST_submit jwt_verify env req w = (resp, w') ->
  resp_status resp = 200 ->
  exists a q rs ps,
    submit_admitted jwt_verify req w a q rs
    /\ submit_saves env req a q rs ps
    /\ attempts (db w')
       = <[params_id req := attempt_pre_save (now env) (finalized env req a q rs ps)]>
           (attempts (db w))
    /\ resp_body resp = ResultBody (graded_result env req a q rs ps).
Proof.
  intros H Hs.
  destruct (POST_submit_200_inv _ _ _ _ _ H Hs) as (a & q & rs & ps & Hadm & Hsav & Hrej).
  rewrite (POST_submit_saved _ _ _ _ _ _ _ Hadm Hsav), Hrej in H.
  cbv zeta in H. simplify_eq/=. by exists a, q, rs, ps.
Qed.

(** C1 (as the code has it).  After a submit answered with 200, the
    responses persisted on the attempt are the client's responses, graded,
    one for one and in order: as many entries as the client sent, not as
    many as the quiz has questions.  An entry whose [questionId] names no
    question of the quiz is incorrect with 0 points; an entry for a known
    question is graded against it; the score is the sum over the submitted
    responses only, so a question without a response earns nothing. *)
Theorem submit_grades_submitted_responses env req w resp w' :
  POST_submit jwt_verify env req w = (resp, w') ->
  resp_status resp = 200 ->
  exists a q rs a',
    submit_admitted jwt_verify req w a q rs
    /\ attempts (db w') !! params_id req = Some a'
    /\ length (responses a') = length rs
    /\ Forall2
         (fun (r : ResponseObject) (p : IQuestionResponse) =>
            questionId p = o_questionId r
            /\ answer p = o_answer r
            /\ match findQuestion (questions q) (o_questionId r) with
               | None => isCorrect p = false /\ pointsEarned p = 0%Q
               | Some question =>
                   isCorrect p = checkAnswer question (o_answer r)
                   /\ pointsEarned p
                      = (if checkAnswer question (o_answer r)
                         then points question else 0%Q)
               end)
         rs (responses a')
    /\ score a' = totalScore (questions q) rs.
Proof.
  intros H Hs.
  destruct (POST_submit_200_attempt _ _ _ _ _ H Hs)
    as (a & q & rs & ps & Hadm & [Hcast Hval] & Hatt & _).
  destruct (finalized_saved_fields env req a q rs ps) as (Hr & Hsc & _).
  exists a, q, rs, (attempt_pre_save (now env) (finalized env req a q rs ps)).
  rewrite Hatt, lookup_insert_eq, Hr, Hsc.
  apply mapM_Some in Hcast. unfold gradedResponses in Hcast.
  apply Forall2_fmap_l in Hcast.
  repeat split; try done.
  - symmetry. by eapply Forall2_length.
  - eapply Forall2_impl; [exact Hcast|]. intros r p Hp. cbv beta in Hp.
    apply cast_response_Some in Hp as (-> & -> & Hc & Hpts).
    unfold gradeResponse in *.
    destruct (findQuestion (questions q) (o_questionId r)); simplify_eq/=; done.
Qed.

(** The percentage a successful submit persists is the one the pre-save
    hook computes from the score and the [maxScore] kept on the attempt,
    whatever the quiz's [totalPoints] is by then. *)
Lemma submit_percentage_formula env req w resp w' :
  POST_submit jwt_verify env req w = (resp, w') ->
  resp_status resp = 200 ->
  exists a a',
    attempts (db w) !! params_id req = Some a
    /\ attempts (db w') !! params_id req = Some a'
    /\ maxScore a' = maxScore a
    /\ Qlt_bool 0 (maxScore a') = true
    /\ percentage a' = Math_round ((score a' / maxScore a') * 100)%Q.
Proof.
  intros H Hs.
  destruct (POST_submit_200_attempt _ _ _ _ _ H Hs)
    as (a & q & rs & ps & Hadm & [Hcast Hval] & Hatt & _).
  destruct Hadm as (tok & u & _ & _ & _ & _ & Ha & _).
  destruct (finalized_saved_fields env req a q rs ps) as (_ & Hsc & Hmax & _).
  exists a, (attempt_pre_save (now env) (finalized env req a q rs ps)).
  rewrite Hatt, lookup_insert_eq.
  assert (Qlt_bool 0 (maxScore (finalized env req a q rs ps)) = true) as Hpos.
  { unfold validate_attempt in Hval. rewrite !andb_true_iff in Hval.
    destruct Hval as [[[[[[[_ _] Hm] _] _] _] _] _].
    unfold Qlt_bool. apply Qle_bool_iff in Hm. apply negb_true_iff.
    destruct (Qle_bool (maxScore (finalized env req a q rs ps)) 0) eqn:E; [|done].
    apply Qle_bool_iff in E. exfalso.
    apply (Qlt_irrefl 0). eapply Qlt_le_trans; [|exact E].
    eapply Qlt_le_trans; [|exact Hm]. reflexivity. }
  repeat split; try done.
  - rewrite Hmax. exact Hpos.
  - rewrite (attempt_pre_save_percentage _ _ Hpos).
    destruct (attempt_pre_save_fields (now env) (finalized env req a q rs ps))
      as (_ & _ & _ & _ & _ & -> & -> & _). done.
Qed.

(** C7 (as the code has it).  When grading and the save of the attempt go
    through and the analytics update then throws, the handler's [catch]
    block logs the error and answers 500 "Failed to submit quiz attempt"
    instead of the graded result; the attempt stays as it was saved
    (completed and graded, the same document a successful submit leaves)
    and the quiz's analytics stay as they were. *)
Theorem analytics_failure_fails_submit env req w a q rs ps :
  submit_admitted jwt_verify req w a q rs ->
  submit_saves env req a q rs ps ->
  findByIdAndUpdate_rejects env = true ->
  let out := POST_submit jwt_verify env req w in
  out.1 = {| resp_status := 500;
             resp_body := ErrorBody "Failed to submit quiz attempt" |}
  /\ console out.2
     = console w ++ ["Submit quiz attempt error: findByIdAndUpdate rejected"]
  /\ attempts (db out.2) !! params_id req
     = Some (attempt_pre_save (now env) (finalized env req a q rs ps))
  /\ status (attempt_pre_save (now env) (finalized env req a q rs ps)) = completed
  /\ quizzes (db out.2) = quizzes (db w).
Proof.
  intros Hadm Hsav Hrej out. subst out.
  rewrite (POST_submit_saved _ _ _ _ _ _ _ Hadm Hsav), Hrej. cbv zeta.
  cbn [fst snd db console attempts quizzes set_attempts].
  rewrite lookup_insert_eq.
  destruct (finalized_saved_fields env req a q rs ps) as (_ & _ & _ & -> & _).
  done.
Qed.

End Submit.

(** ** Submitting: concrete runs *)

Lemma submit_grades_submitted_responses_witness :
  exists a',
    attempts (db submitted) !! 0%nat = Some a'
    /\ length (responses a') = 2%nat
    /\ score a' = (0 + 1 + 2)%Q.
Proof.
  destruct (submit_grades_submitted_responses demo_jwt (at_time 200)
              (request "student-token" 0 both_right) started
              (POST_submit demo_jwt (at_time 200)
                 (request "student-token" 0 both_right) started).1
              submitted)
    as (a & q & rs & a' & Hadm & Hlook & Hlen & _ & Hscore).
  - apply surjective_pairing.
  - vm_compute. reflexivity.
  - destruct Hadm as (tok & u & _ & _ & _ & _ & Ha & _ & Hrs & Hq).
    vm_compute in Ha, Hrs. simplify_eq. vm_compute in Hq. simplify_eq.
    exists a'. split; [exact Hlook|]. split; [exact Hlen|]. exact Hscore.
Defined.

(** C1, counterexample.  The student submits an empty response list for
    the two-question quiz: the submit succeeds and the persisted attempt
    has no graded response at all, not two. *)
Lemma submit_empty_list_counterexample :
  let out := POST_submit demo_jwt (at_time 200)
               (request "student-token" 0 (answers [] 4%Q)) started in
  resp_status out.1 = 200
  /\ (exists a', attempts (db out.2) !! 0%nat = Some a'
                 /\ status a' = completed /\ responses a' = [])
  /\ length (questions capital_quiz) = 2%nat
  /\ ~ (exists a', attempts (db out.2) !! 0%nat = Some a'
                   /\ length (responses a') = length (questions capital_quiz)).
Proof.
  cbv zeta. split; [by vm_compute|]. split.
  - eexists. split; [vm_compute; reflexivity|]. by vm_compute.
  - split; [reflexivity|]. intros (a' & Ha & Hlen).
    vm_compute in Ha. by simplify_eq.
Qed.

(** C5, at the failing input.  The student starts the two-question quiz
    (3 points), the teacher then adds a 3-point question with
    [PATCH /quizzes/10], and the student submits all three answers,
    right.  The handler's own percentage (6 of the quiz's 6 points) is 100
    and passes validation; the pre-save hook then recomputes it against
    the attempt's [maxScore = 3], and 200 is persisted and returned. *)
Theorem submit_percentage_exceeds_100 :
  let out := POST_submit demo_jwt (at_time 200)
               (request "student-token" 0 all_right) started_then_edited in
  resp_status
    (POST_attempt demo_jwt (at_time 100) (request "student-token" 10 no_body)
       school).1 = 201
  /\ resp_status
       (PATCH_quiz demo_jwt (at_time 150)
          (request "teacher-token" 10 (new_questions [pick_third; paris; bonus]))
          started).1 = 200
  /\ (exists q, quizzes (db started_then_edited) !! 10%nat = Some q
                 /\ questions q = [pick_third; paris; bonus]
                 /\ (totalPoints q == 6)%Q)
  /\ resp_status out.1 = 200
  /\ (exists r, resp_body out.1 = ResultBody r /\ res_percentage r = 200)
  /\ exists a', attempts (db out.2) !! 0%nat = Some a'
       /\ status a' = completed
       /\ (score a' == 6)%Q
       /\ maxScore a' = 3%Q
       /\ percentage a' = Math_round ((score a' / maxScore a') * 100)%Q
       /\ percentage a' = 200
       /\ ~ percentage a' <= 100.
Proof.
  cbv zeta. split; [by vm_compute|]. split; [by vm_compute|]. split.
  { eexists. split; [vm_compute; reflexivity|]. by vm_compute. }
  split; [by vm_compute|]. split.
  { eexists. split; [vm_compute; reflexivity|]. by vm_compute. }
  eexists. split; [vm_compute; reflexivity|]. by vm_compute.
Qed.

Lemma analytics_failure_fails_submit_witness :
  (POST_submit demo_jwt (outage_at 200)
     (request "student-token" 0 both_right) started).1
  = {| resp_status := 500; resp_body := ErrorBody "Failed to submit quiz attempt" |}.
Proof.
  destruct (attempts (db started) !! 0%nat) as [a|] eqn:Ha; [|by vm_compute in Ha].
  destruct (cast_responses (gradedResponses (questions capital_quiz)
              [answer_to "mc" (JNum 2); answer_to "capital" (JStr "paris")]))
    as [ps|] eqn:Hps; [|by vm_compute in Hps].
  refine (proj1 (analytics_failure_fails_submit demo_jwt (outage_at 200)
           (request "student-token" 0 both_right) started a capital_quiz
           [answer_to "mc" (JNum 2); answer_to "capital" (JStr "paris")] ps _ _ _)).
  - exists "student-token", {| role := role_student |}.
    vm_compute in Ha. simplify_eq. by vm_compute.
  - split; [exact Hps|]. vm_compute in Ha, Hps. simplify_eq. by vm_compute.
  - reflexivity.
Defined.

(** C7, counterexample.  Grading and the save succeed, the analytics
    update throws: the response is the 500 error, not the 200 graded
    result (the attempt is saved as completed all the same). *)
Lemma analytics_failure_counterexample :
  let out := POST_submit demo_jwt (outage_at 200)
               (request "student-token" 0 both_right) started in
  resp_status out.1 = 500
  /\ resp_status out.1 <> 200
  /\ resp_body out.1 = ErrorBody "Failed to submit quiz attempt"
  /\ status <$> attempts (db out.2) !! 0%nat = Some completed.
Proof. cbv zeta. by vm_compute. Qed.

(** ** The attempt life cycle *)

(** A gate of a handler was passed although its condition is known to
    fail. *)
Ltac contradict_gate :=
  match goal with
  | H : bool_decide (?P) = false, Hn : ?P |- _ =>
      apply bool_decide_eq_false in H; by destruct H
  end.

Section Lifecycle.

Variable jwt_verify : string -> option nat.

Lemma fresh_attempt_id (m : gmap nat IQuizAttempt) (i : nat) (a : IQuizAttempt) :
  m !! i = Some a -> fresh (dom m) <> i.
Proof.
  intros Hi Heq. apply (is_fresh (dom m)). rewrite Heq.
  apply elem_of_dom. by exists a.
Qed.

(** Starting an attempt never touches an attempt that is already there. *)
Lemma POST_attempt_keeps env req w i a :
  attempts (db w) !! i = Some a ->
  attempts (db (POST_attempt jwt_verify env req w).2) !! i = Some a.
Proof.
  intros Hi. unfold POST_attempt, POST_attempt_try. run_handler.
  repeat (case_match; simplify_eq/=; try done).
  all: rewrite lookup_insert_ne; [done|]; by eapply fresh_attempt_id.
Qed.

(** A submit only ever writes the attempt it names, and only when that
    attempt is in progress. *)
Lemma POST_submit_keeps env req w i a :
  attempts (db w) !! i = Some a ->
  status a <> in_progress ->
  attempts (db (POST_submit jwt_verify env req w).2) !! i = Some a.
Proof.
  intros Hi Hst. unfold POST_submit, POST_submit_try. run_handler.
  repeat (case_match; simplify_eq/=; try done).
  all: rewrite lookup_insert_ne; [done|]; intros <-; simplify_eq;
    contradict_gate.
Qed.

Lemma PATCH_submit_keeps env req w i a :
  attempts (db w) !! i = Some a ->
  status a <> in_progress ->
  attempts (db (PATCH_submit jwt_verify env req w).2) !! i = Some a.
Proof.
  intros Hi Hst. unfold PATCH_submit, PATCH_submit_try. run_handler.
  repeat (case_match; simplify_eq/=; try done).
  all: rewrite lookup_insert_ne; [done|]; intros <-; simplify_eq;
    contradict_gate.
Qed.

(** Deleting a quiz never touches the attempts. *)
Lemma DELETE_quiz_attempts env req w :
  attempts (db (DELETE_quiz jwt_verify env req w).2) = attempts (db w).
Proof.
  unfold DELETE_quiz, DELETE_quiz_try. run_handler.
  repeat (case_match; simplify_eq/=; try done).
Qed.

(** Updating a quiz never touches the attempts. *)
Lemma PATCH_quiz_attempts env req w :
  attempts (db (PATCH_quiz jwt_verify env req w).2) = attempts (db w).
Proof.
  unfold PATCH_quiz, PATCH_quiz_try, catch_update. run_handler.
  repeat (case_match; simplify_eq/=; try done).
Qed.

(** No request changes an attempt that has left [in_progress]. *)
Lemma serve_keeps_terminal env c w i a :
  attempts (db w) !! i = Some a ->
  status a <> in_progress ->
  attempts (db (serve jwt_verify env c w).2) !! i = Some a.
Proof.
  intros Hi Hst. destruct c as [req|req|req|req|req]; simpl.
  - by apply POST_attempt_keeps.
  - by apply POST_submit_keeps.
  - by apply PATCH_submit_keeps.
  - by rewrite PATCH_quiz_attempts.
  - by rewrite DELETE_quiz_attempts.
Qed.

Lemma serve_all_keeps_terminal calls w i a :
  attempts (db w) !! i = Some a ->
  status a <> in_progress ->
  attempts (db (serve_all jwt_verify calls w)) !! i = Some a.
Proof.
  revert w. induction calls as [|[env c] calls IH]; intros w Hi Hst; simpl.
  - done.
  - apply IH; [|done]. by apply serve_keeps_terminal.
Qed.

(** A submit on an attempt that is not in progress changes nothing in the
    database and never answers 200. *)
Lemma POST_submit_not_in_progress env req w a :
  attempts (db w) !! params_id req = Some a ->
  status a <> in_progress ->
  db (POST_submit jwt_verify env req w).2 = db w
  /\ resp_status (POST_submit jwt_verify env req w).1 <> 200.
Proof.
  intros Ha Hst. unfold POST_submit, POST_submit_try. run_handler.
  repeat (case_match; simplify_eq/=; try done).
  all: contradict_gate.
Qed.

(** C4.  A submit on an attempt that is not in progress (a completed one
    in particular) is refused: nothing in the database changes, the answer
    is never the 200 result, and for the attempt's own student it is 400
    "Quiz attempt is not in progress".  [completedAt] is set once: a
    successful submit takes the attempt from [in_progress] to
    [completed] with [completedAt] and [submittedAt]
    at the time of that submit, and no later sequence of requests changes
    the attempt again. *)
Theorem submit_only_once :
  (forall env req w a,
      attempts (db w) !! params_id req = Some a ->
      status a <> in_progress ->
      db (POST_submit jwt_verify env req w).2 = db w
      /\ resp_status (POST_submit jwt_verify env req w).1 <> 200
      /\ (forall tok u,
             request_token req = Some tok ->
             jwt_verify tok = Some (student a) ->
             users (db w) !! student a = Some u ->
             role u = role_student ->
             POST_submit jwt_verify env req w
             = ({| resp_status := 400;
                   resp_body := ErrorBody "Quiz attempt is not in progress" |}, w))
      /\ (forall calls,
             attempts (db (serve_all jwt_verify calls w)) !! params_id req = Some a))
  /\ (forall env req w resp w',
         POST_submit jwt_verify env req w = (resp, w') ->
         resp_status resp = 200 ->
         exists a a',
           attempts (db w) !! params_id req = Some a
           /\ status a = in_progress
           /\ attempts (db w') !! params_id req = Some a'
           /\ status a' = completed
           /\ completedAt a' = Some (now env)
           /\ submittedAt a' = Some (now env)
           /\ (forall calls,
                  attempts (db (serve_all jwt_verify calls w')) !! params_id req
                  = Some a')).
Proof.
  split.
  - intros env req w a Ha Hst.
    destruct (POST_submit_not_in_progress env req w a Ha Hst) as [Hdb Hresp].
    split; [done|]. split; [done|]. split.
    + intros tok u Htok Hjwt Hu Hrole.
      unfold POST_submit, POST_submit_try. rewrite Htok. run_handler.
      rewrite Hjwt, Hu, Hrole, Ha.
      rewrite bool_decide_eq_false_2 by (intro; congruence).
      rewrite bool_decide_eq_false_2 by (intro; congruence).
      rewrite bool_decide_eq_true_2 by done. done.
    + intros calls. by apply serve_all_keeps_terminal.
  - intros env req w resp w' H Hs.
    destruct (POST_submit_200_attempt _ _ _ _ _ _ H Hs)
      as (a & q & rs & ps & Hadm & _ & Hatt & _).
    destruct (finalized_saved_fields env req a q rs ps)
      as (_ & _ & _ & Hst & Hc & Hsub & _).
    destruct Hadm as (tok & u & _ & _ & _ & _ & Ha & Hin & _).
    exists a, (attempt_pre_save (now env) (finalized env req a q rs ps)).
    rewrite Hatt, lookup_insert_eq. repeat split; try done.
    intros calls. apply serve_all_keeps_terminal.
    + by rewrite Hatt, lookup_insert_eq.
    + by rewrite Hst.
Qed.

End Lifecycle.

Lemma submit_only_once_witness :
  POST_submit demo_jwt (at_time 300)
    (request "student-token" 0 both_right) submitted
  = ({| resp_status := 400;
        resp_body := ErrorBody "Quiz attempt is not in progress" |}, submitted).
Proof.
  destruct (attempts (db submitted) !! 0%nat) as [a|] eqn:Ha; [|by vm_compute in Ha].
  refine (proj1 (proj2 (proj2 (proj1 (submit_only_once demo_jwt) (at_time 300)
            (request "student-token" 0 both_right) submitted a Ha _)))
            "student-token" {| role := role_student |} _ _ _ _).
  - vm_compute in Ha. simplify_eq. by vm_compute.
  - reflexivity.
  - vm_compute in Ha. simplify_eq. by vm_compute.
  - vm_compute in Ha. simplify_eq. by vm_compute.
  - reflexivity.
Defined.

(** ** Queries on the attempts collection *)

Lemma findInProgress_Some (d : Db) (uid qid : nat) (kv : nat * IQuizAttempt) :
  findInProgress d uid qid = Some kv ->
  attempts d !! kv.1 = Some kv.2
  /\ attempt_of uid qid kv.2 /\ status kv.2 = in_progress.
Proof.
  unfold findInProgress, attempt_of. intros H.
  apply head_Some_elem_of, list_elem_of_filter in H.
  destruct H as [(? & ? & ?) Hin]. destruct kv as [i a].
  apply elem_of_map_to_list in Hin. done.
Qed.

Lemma findInProgress_None (d : Db) (uid qid : nat) :
  findInProgress d uid qid = None <->
  forall i a, attempts d !! i = Some a -> attempt_of uid qid a ->
              status a <> in_progress.
Proof.
  unfold findInProgress, attempt_of. rewrite head_None. split.
  - intros H i a Hi [Hs Hq] Hst.
    assert ((i, a) ∈ filter
              (fun kv : nat * IQuizAttempt =>
                 student kv.2 = uid /\ quiz kv.2 = qid /\ status kv.2 = in_progress)
              (map_to_list (attempts d))) as Hin.
    { apply list_elem_of_filter. split; [done|]. by apply elem_of_map_to_list. }
    rewrite H in Hin. by apply not_elem_of_nil in Hin.
  - intros H. apply elem_of_nil_inv. intros [i a] Hin.
    apply list_elem_of_filter in Hin as [(Hs & Hq & Hst) Hin].
    apply elem_of_map_to_list in Hin. by eapply (H i a).
Qed.

Lemma terminal_iff (s : AttemptStatus) :
  s ∈ [completed; abandoned; time_expired] <-> s <> in_progress.
Proof.
  rewrite !elem_of_cons, elem_of_nil. destruct s; split; intros H;
    try done; try (by intuition); try (by left);
    try (by right; left); try (by right; right; left).
Qed.

(** ** Starting an attempt *)

Lemma Math_round_zero_of (m : Q) : Math_round ((0 / m) * 100)%Q = 0.
Proof.
  unfold Math_round. rewrite (Qfloor_comp _ (1 # 2)); [reflexivity|].
  unfold Qdiv. ring.
Qed.

Lemma index_free (d : Db) (a : IQuizAttempt) :
  numbering_ok d ->
  (forall i b, attempts d !! i = Some b -> attempt_of (student a) (quiz a) b ->
               status b <> in_progress) ->
  attemptNumber a = getStudentAttemptCount d (student a) (quiz a) + 1 ->
  index_taken d a = false.
Proof.
  intros Hok Hnone Hnum. unfold index_taken. apply bool_decide_eq_false.
  rewrite Exists_exists. intros ([i b] & Hin & Hs & Hq & Hn).
  apply elem_of_map_to_list in Hin. simpl in *.
  specialize (Hok i b Hin). specialize (Hnone i b Hin (conj Hs Hq)).
  rewrite bool_decide_eq_false_2 in Hok by done.
  rewrite Hs, Hq in Hok. lia.
Qed.

Lemma new_attempt_pre_save (t : Z) (a : IQuizAttempt) :
  status a = in_progress -> score a = 0%Q -> percentage a = 0 ->
  attempt_pre_save t a = a.
Proof.
  destruct a as [? ? ? ? ? ? m ? ? ? ? ? ? ?]; simpl; intros -> -> ->.
  unfold attempt_pre_save; simpl.
  destruct (Qlt_bool 0 m); simpl; rewrite ?Math_round_zero_of; reflexivity.
Qed.

Lemma count_nonneg (d : Db) (uid qid : nat) : 0 <= getStudentAttemptCount d uid qid.
Proof. unfold getStudentAttemptCount. lia. Qed.

Section Start.

Variable jwt_verify : string -> option nat.

(** C3.  A student who already has as many terminal attempts on the quiz
    as the quiz allows cannot start another: the request changes nothing
    and is answered 403; on a published quiz within its due date the
    error is "Maximum N attempts reached". *)
Theorem start_refused_at_limit env req w tok uid u q :
  request_token req = Some tok ->
  jwt_verify tok = Some uid ->
  users (db w) !! uid = Some u ->
  role u = role_student ->
  quizzes (db w) !! params_id req = Some q ->
  maxAttempts (settings q) <= getStudentAttemptCount (db w) uid (params_id req) ->
  let out := POST_attempt jwt_verify env req w in
  out.2 = w
  /\ resp_status out.1 = 403
  /\ (quiz_status q = published ->
      (forall due, dueDate q = Some due -> now env <= due) ->
      resp_body out.1
      = ErrorBody ("Maximum " +:+ pretty (maxAttempts (settings q))
                     +:+ " attempts reached")).
Proof.
  intros Htok Hjwt Hu Hrole Hq Hmax out. subst out.
  unfold POST_attempt, POST_attempt_try. rewrite Htok. run_handler.
  rewrite Hjwt, Hu, Hrole, Hq.
  rewrite bool_decide_eq_false_2 by (intro; congruence).
  apply Z.leb_le in Hmax.
  case_bool_decide as Hpub.
  { repeat split; try done. }
  destruct (dueDate q) as [due|] eqn:Hdue.
  - destruct (due <? now env) eqn:Hlate.
    + repeat split; try done. intros _ Hd. specialize (Hd due eq_refl).
      apply Z.ltb_lt in Hlate. lia.
    + rewrite Hmax. done.
  - rewrite Hmax. done.
Qed.


(** C2 (as the code has it).  For a student admitted to a published quiz
    (within its due date, below the attempt limit): when one of the
    student's attempts on the quiz is in progress, such an attempt is
    returned as it is, with status 200, and nothing changes; otherwise,
    provided the client address and the user agent of the request fit the
    schema (45 and 500 characters), exactly one attempt is inserted, under
    a new id, with [attemptNumber] the count of terminal attempts plus 1,
    [maxScore] the quiz's [totalPoints], status [in_progress], no
    responses and score 0, and it is returned with status 201. *)
Theorem start_or_resume env req w uid q :
  start_admitted jwt_verify env req w uid q ->
  let out := POST_attempt jwt_verify env req w in
  ((exists i a, attempts (db w) !! i = Some a
                /\ attempt_of uid (params_id req) a /\ status a = in_progress) ->
   exists i a, attempts (db w) !! i = Some a
               /\ attempt_of uid (params_id req) a /\ status a = in_progress
               /\ out = ({| resp_status := 200;
                            resp_body := AttemptBody (Some (i, a)) |}, w))
  /\ ((forall i a, attempts (db w) !! i = Some a ->
                   attempt_of uid (params_id req) a -> status a <> in_progress) ->
      numbering_ok (db w) ->
      validate_quiz q = true ->
      (String.length (clientAddress req) <= 45)%nat ->
      (String.length (clientAgent req) <= 500)%nat ->
      exists id a,
        attempts (db w) !! id = None
        /\ out.2 = {| db := set_attempts (<[id := a]> (attempts (db w))) (db w);
                      console := console w |}
        /\ out.1 = {| resp_status := 201; resp_body := AttemptBody (Some (id, a)) |}
        /\ attempt_of uid (params_id req) a
        /\ attemptNumber a = getStudentAttemptCount (db w) uid (params_id req) + 1
        /\ maxScore a = totalPoints q
        /\ status a = in_progress
        /\ responses a = []
        /\ score a = 0%Q
        /\ percentage a = 0
        /\ completedAt a = None).
Proof.
  intros (tok & u & Htok & Hjwt & Hu & Hrole & Hq & Hpub & Hdue & Hlim) out.
  assert (POST_attempt jwt_verify env req w
          = respond (try_catch
              (match findInProgress (db w) uid (params_id req) with
               | Some existingAttempt => json (AttemptBody (Some existingAttempt)) 200
               | None =>
                   let attempt :=
                     {| quiz := params_id req; student := uid;
                        attemptNumber :=
                          getStudentAttemptCount (db w) uid (params_id req) + 1;
                        status := in_progress; responses := []; score := 0%Q;
                        maxScore := totalPoints q; percentage := 0;
                        timeSpentMinutes := 0%Q; startedAt := now env;
                        completedAt := None; submittedAt := None;
                        ipAddress := clientAddress req;
                        userAgent := clientAgent req |} in
                   bind (insert_attempt env attempt) (fun id =>
                   bind get_db (fun d' =>
                   json (AttemptBody ((fun a => (id, a)) <$> attempts d' !! id)) 201))
               end)
              (catch_block "Start quiz attempt error:" "Failed to start quiz attempt")) w)
    as Hrun.
  { unfold POST_attempt, POST_attempt_try. rewrite Htok.
    cbv beta iota zeta delta [respond try_catch bind verifyToken ret get_db].
    rewrite Hjwt, Hu, Hrole, Hq, Hpub.
    rewrite !bool_decide_eq_false_2 by (intro; congruence).
    replace (match dueDate q with Some due => due <? now env | None => false end)
      with false.
    2:{ destruct (dueDate q) as [due|] eqn:E; [|done].
        symmetry. apply Z.ltb_ge. by apply Hdue. }
    replace (maxAttempts (settings q) <=? getStudentAttemptCount (db w) uid (params_id req))
      with false by (symmetry; apply Z.leb_gt; lia).
    reflexivity. }
  subst out. rewrite Hrun. clear Hrun. split.
  - intros (i & a & Hi & Hof & Hst).
    destruct (findInProgress (db w) uid (params_id req)) as [[j b]|] eqn:Hfind.
    + apply findInProgress_Some in Hfind as (Hj & Hjof & Hjst).
      exists j, b. done.
    + exfalso. eapply findInProgress_None; eauto.
  - intros Hnone Hok Hvalid Hip Hua.
    apply findInProgress_None in Hnone as Hfind. rewrite Hfind. cbv zeta.
    set (a0 := {| quiz := params_id req; student := uid;
                  attemptNumber := getStudentAttemptCount (db w) uid (params_id req) + 1;
                  status := in_progress; responses := []; score := 0%Q;
                  maxScore := totalPoints q; percentage := 0;
                  timeSpentMinutes := 0%Q; startedAt := now env;
                  completedAt := None; submittedAt := None;
                  ipAddress := clientAddress req; userAgent := clientAgent req |}).
    assert (validate_attempt a0 = true) as Hval.
    { unfold validate_attempt, validate_quiz in *. simpl.
      rewrite !andb_true_iff in *.
      pose proof (count_nonneg (db w) uid (params_id req)).
      repeat split; try done; try (apply Z.leb_le; lia);
        try (by apply Nat.leb_le); by intuition. }
    assert (index_taken (db w) a0 = false) as Hidx.
    { apply index_free; [done| |done]. intros i b Hi Hof. by eapply Hnone. }
    exists (fresh (dom (attempts (db w)))), a0.
    unfold insert_attempt. rewrite Hval, new_attempt_pre_save by done.
    cbv beta iota zeta delta [respond try_catch bind ret get_db put_db json].
    rewrite Hidx. cbn [db console set_attempts attempts fst snd].
    rewrite lookup_insert_eq. cbn [fmap option_fmap option_map].
    repeat split; try done.
    apply not_elem_of_dom, is_fresh.
Qed.

End Start.

(** ** Starting: concrete runs *)

Lemma start_refused_at_limit_witness :
  (POST_attempt demo_jwt (at_time 700) (request "student-token" 10 no_body)
     three_attempts).2 = three_attempts
  /\ resp_status
       (POST_attempt demo_jwt (at_time 700) (request "student-token" 10 no_body)
          three_attempts).1 = 403.
Proof.
  destruct (quizzes (db three_attempts) !! 10%nat) as [q|] eqn:Hq;
    [|by vm_compute in Hq].
  destruct (start_refused_at_limit demo_jwt (at_time 700)
              (request "student-token" 10 no_body) three_attempts
              "student-token" 1%nat {| role := role_student |} q)
    as (Hw & Hs & _).
  - by vm_compute.
  - by vm_compute.
  - by vm_compute.
  - by vm_compute.
  - exact Hq.
  - vm_compute in Hq. injection Hq as <-. by vm_compute.
  - split; assumption.
Defined.

Lemma school_admits_student :
  start_admitted demo_jwt (at_time 100) (request "student-token" 10 no_body)
    school 1%nat capital_quiz.
Proof.
  exists "student-token", {| role := role_student |}.
  repeat split; by vm_compute.
Qed.

Lemma start_or_resume_witness :
  resp_status
    (POST_attempt demo_jwt (at_time 100) (request "student-token" 10 no_body) school).1
  = 201.
Proof.
  destruct (proj2 (start_or_resume demo_jwt (at_time 100)
                     (request "student-token" 10 no_body) school 1%nat capital_quiz
                     school_admits_student))
    as (id & a & _ & _ & -> & _).
  - intros i a Hi. vm_compute in Hi. discriminate Hi.
  - intros i a Hi. vm_compute in Hi. discriminate Hi.
  - reflexivity.
  - vm_compute. lia.
  - vm_compute. lia.
  - reflexivity.
Defined.

(** C2, counterexample.  The student is admitted and has no attempt in
    progress, but the request's User-Agent has 501 characters: the new
    document fails the schema's [maxlength: 500], the handler answers 500
    and no attempt is created. *)
Lemma start_long_agent_counterexample :
  let out := POST_attempt demo_jwt (at_time 100) verbose_request school in
  start_admitted demo_jwt (at_time 100) verbose_request school 1%nat capital_quiz
  /\ attempts (db school) = ∅
  /\ String.length (clientAgent verbose_request) = 501%nat
  /\ out.1 = {| resp_status := 500;
                resp_body := ErrorBody "Failed to start quiz attempt" |}
  /\ attempts (db out.2) = ∅.
Proof.
  cbv zeta. split.
  { exists "student-token", {| role := role_student |}.
    repeat split; by vm_compute. }
  split; [reflexivity|]. split; [by vm_compute|].
  split; by vm_compute.
Qed.

(** ** Deleting a quiz *)

Lemma countQuizAttempts_zero (d : Db) (qid : nat) :
  countQuizAttempts d qid = 0 <->
  forall i a, attempts d !! i = Some a -> quiz a <> qid.
Proof.
  unfold countQuizAttempts. split.
  - intros H i a Hi Hq.
    assert (filter (fun kv : nat * IQuizAttempt => quiz kv.2 = qid)
              (map_to_list (attempts d)) = []) as Hnil
      by (apply length_zero_iff_nil; lia).
    eapply (filter_nil_not_elem_of _ _ (i, a)); [exact Hnil|done|].
    by apply elem_of_map_to_list.
  - intros H. rewrite (elem_of_nil_inv (filter _ _)); [done|].
    intros [i a] Hin. apply list_elem_of_filter in Hin as [Hq Hin].
    apply elem_of_map_to_list in Hin. by eapply H.
Qed.

Lemma countQuizAttempts_pos (d : Db) (qid : nat) :
  0 < countQuizAttempts d qid <->
  exists i a, attempts d !! i = Some a /\ quiz a = qid.
Proof.
  split.
  - intros H.
    destruct (filter (fun kv : nat * IQuizAttempt => quiz kv.2 = qid)
                (map_to_list (attempts d))) as [|[i a] l] eqn:E.
    + unfold countQuizAttempts in H. rewrite E in H. simpl in H. lia.
    + assert ((i, a) ∈ filter (fun kv : nat * IQuizAttempt => quiz kv.2 = qid)
                (map_to_list (attempts d))) as Hin by (rewrite E; left).
      apply list_elem_of_filter in Hin as [Hq Hin].
      apply elem_of_map_to_list in Hin. by exists i, a.
  - intros (i & a & Hi & Hq).
    destruct (Z.eq_dec (countQuizAttempts d qid) 0) as [H0|H0].
    + exfalso. by eapply countQuizAttempts_zero.
    + unfold countQuizAttempts in *. lia.
Qed.

Section Delete.

Variable jwt_verify : string -> option nat.

(** C9.  For a quiz of the requesting teacher: when no attempt refers to
    it, DELETE removes the quiz document (and nothing else); when an
    attempt refers to it, whatever its status, DELETE sets the quiz's
    status to [archived] and saves it: the quiz is still there under its
    id, with its questions, and no quiz and no attempt is deleted. *)
Theorem delete_or_archive env req w q :
  delete_admitted jwt_verify req w q ->
  let out := DELETE_quiz jwt_verify env req w in
  ((forall i a, attempts (db w) !! i = Some a -> quiz a <> params_id req) ->
   out.1 = {| resp_status := 200; resp_body := MessageBody "Quiz deleted successfully" |}
   /\ quizzes (db out.2) = delete (params_id req) (quizzes (db w))
   /\ quizzes (db out.2) !! params_id req = None
   /\ attempts (db out.2) = attempts (db w)
   /\ users (db out.2) = users (db w))
  /\ ((exists i a, attempts (db w) !! i = Some a /\ quiz a = params_id req) ->
      validate_quiz q = true ->
      out.1 = {| resp_status := 200;
                 resp_body := MessageBody "Quiz archived due to existing student attempts" |}
      /\ (exists q', quizzes (db out.2) !! params_id req = Some q'
                     /\ quiz_status q' = archived
                     /\ author q' = author q
                     /\ length (questions q') = length (questions q)
                     /\ settings q' = settings q
                     /\ analytics q' = analytics q)
      /\ dom (quizzes (db out.2)) = dom (quizzes (db w))
      /\ attempts (db out.2) = attempts (db w)
      /\ users (db out.2) = users (db w)).
Proof.
  intros (tok & u & Htok & Hjwt & Hu & Hrole & Hq) out. subst out.
  unfold DELETE_quiz, DELETE_quiz_try. rewrite Htok. run_handler.
  rewrite Hjwt, Hu, Hrole, Hq.
  rewrite !bool_decide_eq_false_2 by (intro; congruence).
  split.
  - intros Hnone. apply countQuizAttempts_zero in Hnone. rewrite Hnone.
    cbn [Z.ltb Z.compare fst snd db quizzes attempts users set_quizzes].
    rewrite lookup_delete_eq. done.
  - intros Hsome Hvalid. apply countQuizAttempts_pos, Z.ltb_lt in Hsome.
    rewrite Hsome.
    replace (validate_quiz (with_quiz_status archived q)) with true
      by (symmetry; exact Hvalid).
    cbn [fst snd db quizzes attempts users set_quizzes].
    rewrite lookup_insert_eq. repeat split; try done.
    + eexists. split; [reflexivity|]. cbn. unfold ensure_ids.
      rewrite length_imap. done.
    + rewrite dom_insert_L. apply elem_of_dom_2 in Hq.
      by apply subseteq_union_1_L, singleton_subseteq_l.
Qed.

End Delete.

Lemma delete_or_archive_witness :
  (DELETE_quiz demo_jwt (at_time 800) delete_request school).1
  = {| resp_status := 200; resp_body := MessageBody "Quiz deleted successfully" |}
  /\ (DELETE_quiz demo_jwt (at_time 800) delete_request submitted).1
     = {| resp_status := 200;
          resp_body := MessageBody "Quiz archived due to existing student attempts" |}.
Proof.
  split.
  - refine (proj1 (proj1 (delete_or_archive demo_jwt (at_time 800) delete_request
                            school capital_quiz _) _)).
    + exists "teacher-token", {| role := role_teacher |}. repeat split; by vm_compute.
    + intros i a Hi. vm_compute in Hi. discriminate Hi.
  - destruct (quizzes (db submitted) !! 10%nat) as [q|] eqn:Hq; [|by vm_compute in Hq].
    refine (proj1 (proj2 (delete_or_archive demo_jwt (at_time 800) delete_request
                            submitted q _) _ _)).
    + exists "teacher-token", {| role := role_teacher |}.
      vm_compute in Hq. injection Hq as <-. repeat split; by vm_compute.
    + destruct (attempts (db submitted) !! 0%nat) as [a|] eqn:Ha;
        [|by vm_compute in Ha].
      exists 0%nat, a. split; [exact Ha|].
      vm_compute in Ha. injection Ha as <-. reflexivity.
    + vm_compute in Hq. injection Hq as <-. by vm_compute.
Defined.

(** ** Analytics: the two modes *)

#[local] Instance Math_round_proper : Proper (Qeq ==> eq) Math_round.
Proof. intros x y H. unfold Math_round. apply Qfloor_comp. by rewrite H. Qed.

#[local] Instance round2_proper : Proper (Qeq ==> Qeq) round2.
Proof. intros x y H. unfold round2. by rewrite H. Qed.






Lemma Math_round_inject_Z (z : Z) : Math_round (inject_Z z) = z.
Proof.
  unfold Math_round, Qplus, inject_Z, Qfloor. simpl.
  symmetry. apply (Z.div_unique _ 2 z 1); lia.
Qed.



(** ** The numbering invariant *)

Section Counting.

Context {A : Type} (P : nat * A -> Prop) `{!forall x, Decision (P x)}.

Lemma count_insert_new (m : gmap nat A) (i : nat) (x : A) :
  m !! i = None ->
  length (filter P (map_to_list (<[i := x]> m)))
  = ((if decide (P (i, x)) then 1 else 0) + length (filter P (map_to_list m)))%nat.
Proof.
  intros Hi.
  rewrite (map_to_list_insert m i x Hi), filter_cons.
  by destruct (decide (P (i, x))).
Qed.

Lemma count_insert_old (m : gmap nat A) (i : nat) (x y : A) :
  m !! i = Some y ->
  (length (filter P (map_to_list (<[i := x]> m)))
   + (if decide (P (i, y)) then 1 else 0)
   = length (filter P (map_to_list m)) + (if decide (P (i, x)) then 1 else 0))%nat.
Proof.
  intros Hi.
  rewrite <- (insert_delete_eq m i x).
  rewrite <- (insert_delete_id m i y Hi) at 2.
  rewrite !count_insert_new by apply lookup_delete_eq. lia.
Qed.

End Counting.

Lemma numbering_ok_empty (d : Db) : attempts d = ∅ -> numbering_ok d.
Proof. intros H i a Hi. by rewrite H, lookup_empty in Hi. Qed.

(** Inserting an attempt in progress, numbered one more than the count. *)
Lemma numbering_ok_insert_new (d : Db) (i : nat) (a : IQuizAttempt) :
  attempts d !! i = None ->
  status a = in_progress ->
  attemptNumber a <= getStudentAttemptCount d (student a) (quiz a) + 1 ->
  numbering_ok d ->
  numbering_ok (set_attempts (<[i := a]> (attempts d)) d).
Proof.
  intros Hi Hst Hnum Hok.
  assert (forall s q, getStudentAttemptCount (set_attempts (<[i := a]> (attempts d)) d) s q
                      = getStudentAttemptCount d s q) as Hcount.
  { intros s q. unfold getStudentAttemptCount. cbn [attempts set_attempts].
    rewrite (count_insert_new _ _ _ _ Hi).
    rewrite decide_False; [done|]. cbn. intros (_ & _ & Ht).
    rewrite Hst in Ht. by apply terminal_iff in Ht. }
  intros j b Hj. rewrite Hcount. cbn [attempts set_attempts] in Hj.
  destruct (decide (i = j)) as [->|Hne].
  - rewrite lookup_insert_eq in Hj. simplify_eq.
    rewrite bool_decide_eq_true_2 by done. done.
  - rewrite lookup_insert_ne in Hj by done. exact (Hok j b Hj).
Qed.

(** Rewriting an attempt in progress, keeping its student, quiz and
    number. *)
Lemma numbering_ok_update (d : Db) (i : nat) (a a' : IQuizAttempt) :
  attempts d !! i = Some a ->
  status a = in_progress ->
  student a' = student a -> quiz a' = quiz a ->
  attemptNumber a' = attemptNumber a ->
  numbering_ok d ->
  numbering_ok (set_attempts (<[i := a']> (attempts d)) d).
Proof.
  intros Hi Hst Hs Hq Hn Hok.
  assert (forall s q,
            getStudentAttemptCount (set_attempts (<[i := a']> (attempts d)) d) s q
            = getStudentAttemptCount d s q
              + (if decide (student a' = s /\ quiz a' = q /\
                            status a' ∈ [completed; abandoned; time_expired])
                 then 1 else 0)) as Hcount.
  { intros s q. unfold getStudentAttemptCount. cbn [attempts set_attempts].
    pose proof (count_insert_old
      (fun kv : nat * IQuizAttempt =>
         student kv.2 = s /\ quiz kv.2 = q /\
         status kv.2 ∈ [completed; abandoned; time_expired])
      (attempts d) i a' a Hi) as H.
    cbn [snd] in H.
    rewrite (decide_False (P := student a = s /\ _)) in H.
    2:{ intros (_ & _ & Ht). rewrite Hst in Ht. by apply terminal_iff in Ht. }
    destruct (decide (student a' = s /\ quiz a' = q /\
                      status a' ∈ [completed; abandoned; time_expired])); lia. }
  intros j b Hj. rewrite Hcount. cbn [attempts set_attempts] in Hj.
  destruct (decide (i = j)) as [->|Hne].
  - rewrite lookup_insert_eq in Hj. simplify_eq.
    specialize (Hok j a Hi). rewrite Hst, bool_decide_eq_true_2 in Hok by done.
    rewrite Hs, Hq, Hn.
    destruct (decide (status b = in_progress)) as [Hb|Hb].
    + rewrite bool_decide_eq_true_2 by done. clear Hcount. case_decide; lia.
    + rewrite bool_decide_eq_false_2 by done.
      rewrite decide_True; [lia|]. rewrite <- Hs, <- Hq. repeat split.
      by apply terminal_iff.
  - rewrite lookup_insert_ne in Hj by done. specialize (Hok j b Hj).
    clear Hcount.
    destruct (decide (student a' = student b /\ quiz a' = quiz b /\
                      status a' ∈ [completed; abandoned; time_expired])); lia.
Qed.

Lemma numbering_ok_attempts (d d' : Db) :
  attempts d' = attempts d -> numbering_ok d -> numbering_ok d'.
Proof.
  intros H Hok i a Hi. unfold getStudentAttemptCount. rewrite H in *.
  exact (Hok i a Hi).
Qed.

Lemma attempt_pre_save_quiz t a : quiz (attempt_pre_save t a) = quiz a.
Proof. apply attempt_pre_save_fields. Qed.
Lemma attempt_pre_save_student t a : student (attempt_pre_save t a) = student a.
Proof. apply attempt_pre_save_fields. Qed.
Lemma attempt_pre_save_attemptNumber t a :
  attemptNumber (attempt_pre_save t a) = attemptNumber a.
Proof. apply attempt_pre_save_fields. Qed.
Lemma attempt_pre_save_status t a : status (attempt_pre_save t a) = status a.
Proof. apply attempt_pre_save_fields. Qed.

(** The gates a run has passed, as equations. *)
Ltac gate_facts :=
  repeat match goal with
         | H : bool_decide (_ <> _) = false |- _ =>
             apply bool_decide_eq_false, dec_stable in H
         end.

Section Invariant.

Variable jwt_verify : string -> option nat.

Lemma POST_attempt_step env req w :
  attempts_step (db w) (attempts (db (POST_attempt jwt_verify env req w).2)).
Proof.
  unfold POST_attempt, POST_attempt_try. run_handler.
  repeat (case_match; simplify_eq/=; try (by left)).
  all: right; left; eexists _, _; split; [apply not_elem_of_dom, is_fresh|];
    split; [|split; [|reflexivity]];
    rewrite ?attempt_pre_save_status, ?attempt_pre_save_attemptNumber,
      ?attempt_pre_save_student, ?attempt_pre_save_quiz; done.
Qed.

Lemma POST_submit_step env req w :
  attempts_step (db w) (attempts (db (POST_submit jwt_verify env req w).2)).
Proof.
  unfold POST_submit, POST_submit_try. run_handler.
  repeat (case_match; simplify_eq/=; try (by left)).
  all: gate_facts; right; right; eexists _, _, _; split; [eassumption|];
    split; [done|]; split; [|split; [|split; [|reflexivity]]];
    rewrite ?attempt_pre_save_attemptNumber,
      ?attempt_pre_save_student, ?attempt_pre_save_quiz;
    match goal with
    | H : _ <$> _ = Some _ |- _ => apply fmap_Some in H as (? & ? & ->)
    end; done.
Qed.

Lemma PATCH_submit_step env req w :
  attempts_step (db w) (attempts (db (PATCH_submit jwt_verify env req w).2)).
Proof.
  unfold PATCH_submit, PATCH_submit_try. run_handler.
  repeat (case_match; simplify_eq/=; try (by left)).
  all: gate_facts; right; right; eexists _, _, _; split; [eassumption|];
    split; [done|]; split; [|split; [|split; [|reflexivity]]];
    rewrite ?attempt_pre_save_attemptNumber,
      ?attempt_pre_save_student, ?attempt_pre_save_quiz;
    repeat match goal with
    | H : _ <$> _ = Some _ |- _ => apply fmap_Some in H as (? & ? & ->)
    end; done.
Qed.

Lemma serve_step env c w :
  attempts_step (db w) (attempts (db (serve jwt_verify env c w).2)).
Proof.
  destruct c as [req|req|req|req|req]; simpl.
  - apply POST_attempt_step.
  - apply POST_submit_step.
  - apply PATCH_submit_step.
  - left. apply PATCH_quiz_attempts.
  - left. apply DELETE_quiz_attempts.
Qed.

(** Every request keeps the numbering invariant. *)
Lemma serve_numbering env c w :
  numbering_ok (db w) -> numbering_ok (db (serve jwt_verify env c w).2).
Proof.
  intros Hok.
  destruct (serve_step env c w)
    as [H|[(i & a & Hi & Hst & Hn & H)|(i & a & a' & Hi & Hst & Hs & Hq & Hn & H)]].
  - by eapply numbering_ok_attempts.
  - eapply (numbering_ok_attempts (set_attempts (<[i := a]> (attempts (db w))) (db w)));
      [exact H|].
    apply numbering_ok_insert_new; try done. lia.
  - eapply (numbering_ok_attempts (set_attempts (<[i := a']> (attempts (db w))) (db w)));
      [exact H|].
    by eapply numbering_ok_update.
Qed.

Lemma serve_all_numbering calls w :
  numbering_ok (db w) -> numbering_ok (db (serve_all jwt_verify calls w)).
Proof.
  revert w. induction calls as [|[env c] calls IH]; intros w Hok; simpl; [done|].
  by apply IH, serve_numbering.
Qed.

End Invariant.

(** ** Stored quizzes satisfy their schema *)

Lemma sum_points_le (qs : list IQuestion) (acc : Q) :
  Forall (fun q => Qle_bool 1 (points q) = true) qs ->
  (acc + inject_Z (Z.of_nat (length qs))
   <= fold_left (fun total question => total + points question) qs acc)%Q.
Proof.
  revert acc. induction qs as [|q qs IH]; intros acc Hall.
  - simpl. change (inject_Z 0) with 0%Q. rewrite Qplus_0_r. apply Qle_refl.
  - apply Forall_cons in Hall as [Hq Hall]. apply Qle_bool_iff in Hq.
    cbn [fold_left length]. eapply Qle_trans; [|apply IH; exact Hall].
    rewrite Nat2Z.inj_succ, <- Z.add_1_l, inject_Z_plus.
    change (inject_Z 1) with 1%Q.
    rewrite Qplus_assoc. apply Qplus_le_l. by apply Qplus_le_r.
Qed.

Lemma imap_keeps_ids (newId : nat -> string) (qs : list IQuestion) :
  Forall (fun q => truthy_string (q_id q) = true) qs ->
  ensure_ids newId qs = qs.
Proof.
  unfold ensure_ids.
  revert newId. induction qs as [|q qs IH]; intros newId Hall; [done|].
  apply Forall_cons in Hall as [Hq Hall]. cbn [imap]. rewrite Hq. f_equal.
  apply (IH (newId ∘ S) Hall).
Qed.

Lemma validate_quiz_questions (q : IQuiz) :
  validate_quiz q = true ->
  questions q <> []
  /\ Forall (fun qu => truthy_string (q_id qu) = true) (questions q)
  /\ Forall (fun qu => Qle_bool 1 (points qu) = true) (questions q).
Proof.
  unfold validate_quiz. rewrite !andb_true_iff.
  intros [[[[[[Hlen _] Hall] _] _] _] _].
  assert (Forall (fun qu => validate_question qu = true) (questions q)) as Hq.
  { apply Forall_forall. intros x Hx. apply list_elem_of_In in Hx.
    exact (proj1 (forallb_forall _ _) Hall x Hx). }
  split; [|split].
  - apply Nat.leb_le in Hlen. destruct (questions q); simpl in *; [lia|done].
  - eapply Forall_impl; [exact Hq|]. intros qu Hqu.
    unfold validate_question in Hqu. rewrite !andb_true_iff in Hqu. tauto.
  - eapply Forall_impl; [exact Hq|]. intros qu Hqu.
    unfold validate_question in Hqu. rewrite !andb_true_iff in Hqu. tauto.
Qed.

(** The pre-save hook of a quiz keeps a valid quiz valid, and keeps its
    questions. *)
Lemma quiz_pre_save_valid (t : Z) (newId : nat -> string) (q : IQuiz) :
  validate_quiz q = true ->
  questions (quiz_pre_save t newId q) = questions q
  /\ validate_quiz (quiz_pre_save t newId q) = true.
Proof.
  intros Hv. destruct (validate_quiz_questions q Hv) as (Hne & Hids & Hpts).
  assert (questions (quiz_pre_save t newId q) = questions q) as Hqs
    by (cbn [quiz_pre_save questions]; by apply imap_keeps_ids).
  split; [exact Hqs|].
  unfold validate_quiz in *. rewrite Hqs. cbn [quiz_pre_save settings totalPoints].
  rewrite !andb_true_iff in *. destruct Hv as [[[[[[H1 H2] H3] H4] H5] H6] _].
  repeat split; try done.
  apply Qle_bool_iff. eapply Qle_trans; [|apply (sum_points_le _ 0 Hpts)].
  rewrite Qplus_0_l. change 1%Q with (inject_Z 1). rewrite <- Zle_Qle.
  destruct (questions q); simpl in *; [done|lia].
Qed.

Lemma quizzes_valid_insert (d : Db) (m : gmap nat IQuiz) (i : nat) (q : IQuiz) :
  quizzes_valid d -> validate_quiz q = true ->
  m = <[i := q]> (quizzes d) ->
  forall (j : nat) (q' : IQuiz), m !! j = Some q' -> validate_quiz q' = true.
Proof.
  intros Hok Hq -> j q' Hj. destruct (decide (i = j)) as [->|Hne].
  - rewrite lookup_insert_eq in Hj. by simplify_eq.
  - rewrite lookup_insert_ne in Hj by done. by eapply Hok.
Qed.

Section QuizInvariant.

Variable jwt_verify : string -> option nat.

Lemma POST_attempt_quizzes env req w :
  quizzes (db (POST_attempt jwt_verify env req w).2) = quizzes (db w).
Proof.
  unfold POST_attempt, POST_attempt_try. run_handler.
  repeat (case_match; simplify_eq/=; try done).
Qed.

Lemma PATCH_submit_quizzes env req w :
  quizzes (db (PATCH_submit jwt_verify env req w).2) = quizzes (db w).
Proof.
  unfold PATCH_submit, PATCH_submit_try. run_handler.
  repeat (case_match; simplify_eq/=; try done).
Qed.

Lemma POST_submit_quizzes_valid env req w :
  quizzes_valid (db w) ->
  quizzes_valid (db (POST_submit jwt_verify env req w).2).
Proof.
  intros Hok. unfold POST_submit, POST_submit_try. run_handler.
  repeat (case_match; simplify_eq/=; try done).
  all: unfold quizzes_valid; cbn [quizzes]; try done.
  all: eapply quizzes_valid_insert; [exact Hok| |reflexivity].
  all: match goal with
       | H : quizzes _ !! _ = Some ?q |- validate_quiz (with_analytics _ ?q) = true =>
           exact (Hok _ _ H)
       end.
Qed.

Lemma DELETE_quiz_quizzes_valid env req w :
  quizzes_valid (db w) ->
  quizzes_valid (db (DELETE_quiz jwt_verify env req w).2).
Proof.
  intros Hok. unfold DELETE_quiz, DELETE_quiz_try. run_handler.
  repeat (case_match; simplify_eq/=; try done).
  all: unfold quizzes_valid; cbn [quizzes]; try done.
  - eapply quizzes_valid_insert; [exact Hok| |reflexivity].
    by apply quiz_pre_save_valid.
  - intros j q' Hj. cbn [quizzes set_quizzes] in Hj.
    apply lookup_delete_Some in Hj as [_ Hj]. by eapply Hok.
Qed.

Lemma PATCH_quiz_quizzes_valid env req w :
  quizzes_valid (db w) ->
  quizzes_valid (db (PATCH_quiz jwt_verify env req w).2).
Proof.
  intros Hok. unfold PATCH_quiz, PATCH_quiz_try, catch_update. run_handler.
  repeat (case_match; simplify_eq/=; try done).
  all: unfold quizzes_valid; cbn [quizzes]; try done.
  all: eapply quizzes_valid_insert; [exact Hok| |reflexivity].
  all: by apply quiz_pre_save_valid.
Qed.

(** Every request keeps the stored quizzes valid. *)
Lemma serve_quizzes_valid env c w :
  quizzes_valid (db w) -> quizzes_valid (db (serve jwt_verify env c w).2).
Proof.
  intros Hok. destruct c as [req|req|req|req|req]; simpl.
  - unfold quizzes_valid. by rewrite POST_attempt_quizzes.
  - by apply POST_submit_quizzes_valid.
  - unfold quizzes_valid. by rewrite PATCH_submit_quizzes.
  - by apply PATCH_quiz_quizzes_valid.
  - by apply DELETE_quiz_quizzes_valid.
Qed.

Lemma serve_all_quizzes_valid calls w :
  quizzes_valid (db w) -> quizzes_valid (db (serve_all jwt_verify calls w)).
Proof.
  revert w. induction calls as [|[env c] calls IH]; intros w Hok; simpl; [done|].
  by apply IH, serve_quizzes_valid.
Qed.

End QuizInvariant.
(** * Further properties of the handlers *)

(** ** Authentication and ownership *)

Section Gates.

Variable jwt_verify : string -> option nat.

(** X1.  A request that carries no token, or a token that does not
    verify, is answered 401 by every route and changes nothing in the
    database; without a token nothing is logged either. *)
Theorem unauthenticated_request_refused env c w :
  (forall tok, request_token (request_of c) = Some tok -> jwt_verify tok = None) ->
  resp_status (serve jwt_verify env c w).1 = 401
  /\ db (serve jwt_verify env c w).2 = db w
  /\ (request_token (request_of c) = None ->
      serve jwt_verify env c w
      = ({| resp_status := 401; resp_body := ErrorBody "Authentication required" |}, w))
  /\ (is_Some (request_token (request_of c)) ->
      resp_body (serve jwt_verify env c w).1 = ErrorBody "Invalid or expired token"
      /\ length (console (serve jwt_verify env c w).2) = S (length (console w))).
Proof.
  intros Hbad.
  destruct c as [req|req|req|req|req]; cbn [serve request_of] in *;
    unfold POST_attempt, POST_attempt_try, POST_submit, POST_submit_try,
      PATCH_submit, PATCH_submit_try, PATCH_quiz, PATCH_quiz_try, catch_update,
      DELETE_quiz, DELETE_quiz_try;
    run_handler;
    destruct (request_token req) as [tok|] eqn:Htok.
  all: try (rewrite (Hbad tok eq_refl); cbn).
  all: cbn.
  all: repeat split; try done.
  all: by rewrite length_app, Nat.add_1_r.
Qed.

(** X2.  A request on an attempt of another student, whether a submit or
    a progress save, leaves the world as it is and is answered 403, or
    404 when the caller's account is gone. *)
Theorem foreign_attempt_untouched env req w tok uid a :
  request_token req = Some tok ->
  jwt_verify tok = Some uid ->
  attempts (db w) !! params_id req = Some a ->
  student a <> uid ->
  let submit := POST_submit jwt_verify env req w in
  let save := PATCH_submit jwt_verify env req w in
  submit.2 = w /\ save.2 = w
  /\ resp_status submit.1 = match users (db w) !! uid with
                            | Some _ => 403
                            | None => 404
                            end
  /\ save.1 = match users (db w) !! uid with
              | Some _ =>
                  {| resp_status := 403; resp_body := ErrorBody "Access denied" |}
              | None =>
                  {| resp_status := 404; resp_body := ErrorBody "User not found" |}
              end.
Proof.
  intros Htok Hjwt Ha Hne. cbv zeta.
  unfold POST_submit, POST_submit_try, PATCH_submit, PATCH_submit_try.
  run_handler. rewrite Htok, Hjwt. cbn. rewrite Ha.
  destruct (users (db w) !! uid) as [u|]; cbn; [|done].
  rewrite (bool_decide_eq_true_2 _ Hne).
  by destruct (bool_decide (role u <> role_student)).
Qed.

(** X3.  A quiz is updated or deleted by its author alone: the same
    requests by anyone else are answered 403 and change nothing. *)
Theorem foreign_quiz_untouched env req w tok uid q :
  request_token req = Some tok ->
  jwt_verify tok = Some uid ->
  quizzes (db w) !! params_id req = Some q ->
  author q <> uid ->
  let update := PATCH_quiz jwt_verify env req w in
  let remove := DELETE_quiz jwt_verify env req w in
  update.2 = w /\ remove.2 = w
  /\ resp_status update.1 = 403 /\ resp_status remove.1 = 403.
Proof.
  intros Htok Hjwt Hq Hne. cbv zeta.
  unfold PATCH_quiz, PATCH_quiz_try, catch_update, DELETE_quiz, DELETE_quiz_try.
  run_handler. rewrite Htok, Hjwt. cbn. rewrite Hq.
  rewrite (bool_decide_eq_true_2 _ Hne).
  by destruct (users (db w) !! uid) as [u|];
    [destruct (bool_decide (role u <> role_teacher))|].
Qed.

End Gates.

Lemma unauthenticated_request_refused_witness :
  resp_status
    (serve demo_jwt (at_time 100)
       (Submit (request "forged-token" 0 both_right)) started).1 = 401.
Proof.
  apply (unauthenticated_request_refused demo_jwt (at_time 100)
           (Submit (request "forged-token" 0 both_right)) started).
  intros tok Htok. vm_compute in Htok. by injection Htok as <-.
Defined.

Lemma foreign_attempt_untouched_witness :
  (PATCH_submit demo_jwt (at_time 150)
     (request "teacher-token" 0 both_right) started).2 = started.
Proof.
  apply (foreign_attempt_untouched demo_jwt (at_time 150)
           (request "teacher-token" 0 both_right) started "teacher-token" 2%nat
           (attempt_pre_save 100
              {| quiz := 10%nat; student := 1%nat; attemptNumber := 1;
                 status := in_progress; responses := []; score := 0%Q;
                 maxScore := 3%Q; percentage := 0; timeSpentMinutes := 0%Q;
                 startedAt := 100; completedAt := None; submittedAt := None;
                 ipAddress := "10.0.0.7"; userAgent := "Mozilla/5.0" |}));
    by vm_compute.
Defined.

Lemma foreign_quiz_untouched_witness :
  (DELETE_quiz demo_jwt (at_time 150)
     (request "student-token" 10 no_body) started).2 = started.
Proof.
  apply (foreign_quiz_untouched demo_jwt (at_time 150)
           (request "student-token" 10 no_body) started "student-token" 1%nat
           capital_quiz); by vm_compute.
Defined.

(** ** Grading *)

Lemma includes_empty (s : string) : includes s EmptyString = true.
Proof. by destruct s. Qed.

Lemma checkAnswer_blank (q : IQuestion) (ans : JsValue) :
  q_type q = short_answer ->
  trim (js_String ans) = EmptyString ->
  checkAnswer q ans = true.
Proof.
  intros Htype Hblank. unfold checkAnswer. rewrite Htype, Hblank.
  change (toLowerCase EmptyString) with EmptyString.
  rewrite includes_empty. by rewrite orb_true_r.
Qed.

(** X4.  An answer that is blank once trimmed is counted correct for
    every short-answer question, and earns its points: the empty string
    is contained in every correct answer. *)
Theorem blank_short_answer_correct (qs : list IQuestion) (r : ResponseObject)
    (q : IQuestion) :
  findQuestion qs (o_questionId r) = Some q ->
  q_type q = short_answer ->
  trim (js_String (o_answer r)) = EmptyString ->
  checkAnswer q (o_answer r) = true
  /\ pointsFor qs r = Some (points q)
  /\ o_isCorrect (gradeResponse qs r) = Some true
  /\ o_pointsEarned (gradeResponse qs r) = Some (points q).
Proof.
  intros Hfind Htype Hblank.
  assert (Hc : checkAnswer q (o_answer r) = true)
    by by apply checkAnswer_blank.
  unfold pointsFor, gradeResponse. rewrite Hfind. cbn. by rewrite Hc.
Qed.

Lemma blank_short_answer_correct_witness :
  pointsFor [pick_third; paris] (answer_to "capital" (JStr "   "))
  = Some (points paris).
Proof.
  apply (blank_short_answer_correct [pick_third; paris]
           (answer_to "capital" (JStr "   ")) paris); reflexivity.
Defined.
Lemma totalScore_from (qs : list IQuestion) (rs : list ResponseObject) (acc : Q) :
  (fold_left (fun total r =>
                match pointsFor qs r with
                | Some p => total + p
                | None => total
                end) rs acc
   == acc + totalScore qs rs)%Q.
Proof.
  unfold totalScore. revert acc.
  induction rs as [|r rs IH]; intros acc; cbn [fold_left]; [ring|].
  rewrite IH, (IH (match pointsFor qs r with Some p => 0 + p | None => 0 end)%Q).
  destruct (pointsFor qs r); ring.
Qed.

Lemma totalScore_cons (qs : list IQuestion) (r : ResponseObject)
    (rs : list ResponseObject) :
  (totalScore qs (r :: rs) == earned qs r + totalScore qs rs)%Q.
Proof.
  unfold totalScore at 1. cbn [fold_left]. rewrite totalScore_from.
  unfold earned. destruct (pointsFor qs r); ring.
Qed.

(** X5.  A response sent twice is paid twice: the handler does not
    look for a question answered before, so the score of a response
    followed by itself is twice what the response earns, twice the points
    of its question when the answer is right.  (Doubling is exact in the
    floating-point numbers of the handler as well.) *)
Theorem duplicate_response_paid_twice (qs : list IQuestion) (r : ResponseObject) :
  (totalScore qs [r; r] == 2 * earned qs r)%Q
  /\ (forall q, findQuestion qs (o_questionId r) = Some q ->
                checkAnswer q (o_answer r) = true ->
                (totalScore qs [r; r] == 2 * points q)%Q).
Proof.
  assert (Htwice : (totalScore qs [r; r] == 2 * earned qs r)%Q).
  { rewrite !totalScore_cons. change (totalScore qs []) with 0%Q. ring. }
  split; [exact Htwice|].
  intros q Hfind Hright. rewrite Htwice.
  unfold earned, pointsFor. rewrite Hfind, Hright. reflexivity.
Qed.

Lemma duplicate_response_paid_twice_witness :
  (totalScore [pick_third; paris]
     [answer_to "capital" (JStr "paris"); answer_to "capital" (JStr "paris")]
   == 2 * points paris)%Q.
Proof.
  apply (proj2 (duplicate_response_paid_twice [pick_third; paris]
                  (answer_to "capital" (JStr "paris"))) paris); reflexivity.
Defined.

Lemma pointsTotal_from (qs : list IQuestion) (acc : Q) :
  (fold_left (fun total question => total + points question) qs acc
   == acc + pointsTotal qs)%Q.
Proof.
  unfold pointsTotal. revert acc.
  induction qs as [|q qs IH]; intros acc; cbn [fold_left]; [ring|].
  rewrite IH, (IH (0 + points q)%Q). ring.
Qed.

Lemma pointsTotal_cons (q : IQuestion) (qs : list IQuestion) :
  (pointsTotal (q :: qs) == points q + pointsTotal qs)%Q.
Proof.
  unfold pointsTotal at 1. cbn [fold_left]. rewrite pointsTotal_from. ring.
Qed.

Lemma earned_other (q0 : IQuestion) (qs : list IQuestion) (r : ResponseObject) :
  o_questionId r <> q_id q0 -> earned (q0 :: qs) r = earned qs r.
Proof.
  intros Hne. unfold earned, pointsFor, findQuestion. cbn [find].
  destruct (String.eqb (q_id q0) (o_questionId r)) eqn:E; [|done].
  apply String.eqb_eq in E. congruence.
Qed.

Lemma earned_first (q0 : IQuestion) (qs : list IQuestion) (r : ResponseObject) :
  o_questionId r = q_id q0 ->
  earned (q0 :: qs) r = if checkAnswer q0 (o_answer r) then points q0 else 0%Q.
Proof.
  intros He. unfold earned, pointsFor, findQuestion. cbn [find].
  by rewrite He, String.eqb_refl.
Qed.

Lemma totalScore_split (qs : list IQuestion) (rs : list ResponseObject)
    (P : ResponseObject -> Prop) `{!forall r, Decision (P r)} :
  (totalScore qs rs
   == totalScore qs (filter P rs) + totalScore qs (filter (fun r => ~ P r) rs))%Q.
Proof.
  induction rs as [|r rs IH].
  - rewrite !filter_nil. change (totalScore qs []) with 0%Q. ring.
  - rewrite !filter_cons. destruct (decide (P r)) as [Hp|Hp].
    + rewrite decide_False by tauto. rewrite !totalScore_cons, IH. ring.
    + rewrite decide_True by done. rewrite !totalScore_cons, IH. ring.
Qed.

Lemma totalScore_others (q0 : IQuestion) (qs : list IQuestion)
    (rs : list ResponseObject) :
  Forall (fun r => o_questionId r <> q_id q0) rs ->
  (totalScore (q0 :: qs) rs == totalScore qs rs)%Q.
Proof.
  induction 1 as [|r rs Hr _ IH]; [reflexivity|].
  by rewrite !totalScore_cons, IH, earned_other.
Qed.

Lemma totalScore_same (q0 : IQuestion) (qs : list IQuestion)
    (rs : list ResponseObject) :
  NoDup (map o_questionId rs) ->
  Forall (fun r => o_questionId r = q_id q0) rs ->
  (0 <= points q0)%Q ->
  (0 <= totalScore (q0 :: qs) rs <= points q0)%Q.
Proof.
  intros Hnd Hall Hpos.
  destruct rs as [|r [|r' rs]].
  - change (totalScore (q0 :: qs) []) with 0%Q. split; [apply Qle_refl|done].
  - apply Forall_cons in Hall as [Hr _].
    rewrite totalScore_cons, (earned_first _ _ _ Hr).
    change (totalScore (q0 :: qs) []) with 0%Q.
    destruct (checkAnswer q0 (o_answer r)); split;
      rewrite ?Qplus_0_r; try apply Qle_refl; done.
  - apply Forall_cons in Hall as [Hr Hall]. apply Forall_cons in Hall as [Hr' _].
    cbn [map] in Hnd. apply NoDup_cons in Hnd as [Hnot _].
    destruct Hnot. rewrite Hr, Hr'. left.
Qed.

Lemma NoDup_ids_filter (rs : list ResponseObject) (P : ResponseObject -> Prop)
    `{!forall r, Decision (P r)} :
  NoDup (map o_questionId rs) -> NoDup (map o_questionId (filter P rs)).
Proof.
  intros Hnd. eapply sublist_NoDup; [exact Hnd|].
  apply (fmap_sublist o_questionId), sublist_filter.
Qed.

Lemma totalScore_bounds (qs : list IQuestion) (rs : list ResponseObject) :
  NoDup (map o_questionId rs) ->
  Forall (fun q => (0 <= points q)%Q) qs ->
  (0 <= totalScore qs rs <= pointsTotal qs)%Q.
Proof.
  intros Hnd Hpos. revert rs Hnd.
  induction Hpos as [|q0 qs Hq0 _ IH]; intros rs Hnd.
  - assert (H0 : (totalScore [] rs == 0)%Q).
    { clear Hnd. induction rs as [|r rs IHr]; [reflexivity|].
      rewrite totalScore_cons, IHr. unfold earned, pointsFor. cbn. ring. }
    rewrite H0. change (pointsTotal []) with 0%Q. split; apply Qle_refl.
  - rewrite (totalScore_split _ rs (fun r => o_questionId r = q_id q0)).
    rewrite pointsTotal_cons.
    assert (Hall : Forall (fun r => o_questionId r = q_id q0)
                     (filter (fun r => o_questionId r = q_id q0) rs)).
    { apply Forall_forall. intros r Hr.
      by apply list_elem_of_filter in Hr as [Hr _]. }
    pose proof (totalScore_same q0 qs _ (NoDup_ids_filter _ _ Hnd) Hall Hq0)
      as [Hs0 Hs1].
    rewrite (totalScore_others q0 qs
               (filter (fun r => ~ o_questionId r = q_id q0) rs)).
    2:{ apply Forall_forall. intros r Hr.
        by apply list_elem_of_filter in Hr as [Hr _]. }
    destruct (IH _ (NoDup_ids_filter rs (fun r => ~ o_questionId r = q_id q0) Hnd))
      as [Ht0 Ht1].
    split.
    + rewrite <- (Qplus_0_r 0). by apply Qplus_le_compat.
    + by apply Qplus_le_compat.
Qed.

(** X6.  For a quiz that passes its schema and whose points are whole
    numbers, when no two responses name the same question the score lies
    between 0 and the sum of the points of the questions.  (With whole
    points between 1 and 10 on at most 50 questions every sum of the
    handler is exact; with fractional points the order of the additions
    matters to the last digit and the bound is not claimed.) *)
Theorem score_within_total (q : IQuiz) (rs : list ResponseObject) :
  validate_quiz q = true ->
  whole_points (questions q) ->
  NoDup (map o_questionId rs) ->
  (0 <= totalScore (questions q) rs <= pointsTotal (questions q))%Q.
Proof.
  intros Hvalid _ Hnd. apply totalScore_bounds; [done|].
  destruct (validate_quiz_questions q Hvalid) as (_ & _ & Hpts).
  eapply Forall_impl; [exact Hpts|]. intros qu Hqu. cbn in Hqu.
  apply Qle_bool_imp_le in Hqu. eapply Qle_trans; [|exact Hqu]. done.
Qed.

Lemma capital_quiz_whole : whole_points (questions capital_quiz).
Proof. repeat constructor; [by exists 1|by exists 2]. Qed.

Lemma score_within_total_witness :
  (0 <= totalScore (questions capital_quiz)
          [answer_to "capital" (JStr "paris"); answer_to "mc" (JNum 2)]
     <= pointsTotal (questions capital_quiz))%Q.
Proof.
  apply (score_within_total capital_quiz
           [answer_to "capital" (JStr "paris"); answer_to "mc" (JNum 2)]).
  - by vm_compute.
  - exact capital_quiz_whole.
  - cbn. apply NoDup_cons. split; [|apply NoDup_singleton].
    intros H. apply list_elem_of_singleton in H. discriminate H.
Defined.

Lemma Math_round_percent (s m : Q) :
  (0 < m)%Q -> (0 <= s <= m)%Q -> 0 <= Math_round ((s / m) * 100)%Q <= 100.
Proof.
  intros Hm [H0 H1]. unfold Math_round.
  assert (Hlo : (0 <= s / m * 100)%Q).
  { apply Qmult_le_0_compat; [|done].
    apply Qle_shift_div_l; [done|]. by rewrite Qmult_0_l. }
  assert (Hhi : (s / m * 100 <= 100)%Q).
  { rewrite <- (Qmult_1_l 100) at 2. apply Qmult_le_compat_r; [|done].
    apply Qle_shift_div_r; [done|]. by rewrite Qmult_1_l. }
  split.
  - change 0 with (Qfloor (0 + (1 # 2))). apply Qfloor_resp_le.
    by apply Qplus_le_compat.
  - change 100 with (Qfloor (100 + (1 # 2))). apply Qfloor_resp_le.
    by apply Qplus_le_compat.
Qed.

Section Scores.

Variable jwt_verify : string -> option nat.

(** X7.  A submit answered 200 whose responses name distinct questions,
    on a quiz that passes its schema and whose questions add up to the
    maximum the attempt recorded when it started, persists a completed
    attempt with a percentage within 0 and 100; when the points of the
    quiz are whole numbers, so that the sums of the handler are exact,
    the score persisted is within 0 and that maximum. *)
Theorem submit_percentage_within_100 env req w resp w' :
  POST_submit jwt_verify env req w = (resp, w') ->
  resp_status resp = 200 ->
  (forall rs, body_responses (body req) = Some rs -> NoDup (map o_questionId rs)) ->
  (forall a q, attempts (db w) !! params_id req = Some a ->
               quizzes (db w) !! quiz a = Some q ->
               validate_quiz q = true
               /\ (maxScore a == pointsTotal (questions q))%Q) ->
  exists a', attempts (db w') !! params_id req = Some a'
             /\ status a' = completed
             /\ 0 <= percentage a' <= 100
             /\ ((forall a q, attempts (db w) !! params_id req = Some a ->
                              quizzes (db w) !! quiz a = Some q ->
                              whole_points (questions q)) ->
                 (0 <= score a' <= maxScore a')%Q).
Proof.
  intros Hrun H200 Hnd Hquiz.
  destruct (POST_submit_200_attempt jwt_verify env req w resp w' Hrun H200)
    as (a & q & rs & ps & Hadm & [Hcast Hval] & Hatt & _).
  destruct Hadm as (tok & u & _ & _ & _ & _ & Ha & _ & Hrs & Hq).
  destruct (Hquiz a q Ha Hq) as [Hvq Hmax].
  destruct (finalized_saved_fields env req a q rs ps)
    as (_ & Hscore & Hms & Hst & _).
  cbv zeta in Hscore, Hms, Hst.
  assert (Hbound : (0 <= totalScore (questions q) rs <= maxScore a)%Q).
  { rewrite Hmax. apply totalScore_bounds; [by apply Hnd|].
    destruct (validate_quiz_questions q Hvq) as (_ & _ & Hpts).
    eapply Forall_impl; [exact Hpts|]. intros qu Hqu. cbn in Hqu.
    apply Qle_bool_imp_le in Hqu. eapply Qle_trans; [|exact Hqu]. done. }
  assert (Hpos : (0 < maxScore (finalized env req a q rs ps))%Q).
  { unfold validate_attempt in Hval. repeat (apply andb_prop in Hval as [Hval ?]).
    eapply Qlt_le_trans; [|by apply Qle_bool_imp_le]. done. }
  exists (attempt_pre_save (now env) (finalized env req a q rs ps)).
  rewrite Hatt, lookup_insert_eq. split; [done|]. split; [done|].
  rewrite Hscore, Hms. split; [|done].
  rewrite attempt_pre_save_percentage.
  2:{ unfold Qlt_bool. destruct (Qle_bool _ 0) eqn:E; [|done].
      apply Qle_bool_imp_le in E. by apply Qlt_not_le in Hpos. }
  apply Math_round_percent; [done|]. by cbn.
Qed.

End Scores.

Lemma submit_percentage_within_100_witness :
  exists a', attempts (db submitted) !! 0%nat = Some a'
             /\ status a' = completed
             /\ 0 <= percentage a' <= 100
             /\ (0 <= score a' <= maxScore a')%Q.
Proof.
  destruct (submit_percentage_within_100 demo_jwt (at_time 200)
              (request "student-token" 0 both_right) started
              (POST_submit demo_jwt (at_time 200)
                 (request "student-token" 0 both_right) started).1
              submitted)
    as (a' & Ha' & Hst & Hpct & Hscore).
  - by vm_compute.
  - by vm_compute.
  - intros rs Hrs. vm_compute in Hrs. injection Hrs as <-.
    cbn. apply NoDup_cons. split; [|apply NoDup_singleton].
    intros H. apply list_elem_of_singleton in H. discriminate H.
  - intros a q Ha Hq. vm_compute in Ha. injection Ha as <-.
    vm_compute in Hq. injection Hq as <-. by vm_compute.
  - exists a'. do 3 (split; [done|]). apply Hscore.
    intros a q Ha Hq. vm_compute in Ha. injection Ha as <-.
    vm_compute in Hq. injection Hq as <-. exact capital_quiz_whole.
Defined.

(** ** Statistics and analytics *)

Lemma Math_round_mono (x y : Q) : (x <= y)%Q -> Math_round x <= Math_round y.
Proof.
  intros H. unfold Math_round. apply Qfloor_resp_le.
  apply Qplus_le_compat; [done|apply Qle_refl].
Qed.

Lemma sumZ_from (l : list Z) (acc : Z) : fold_left Z.add l acc = acc + sumZ l.
Proof.
  unfold sumZ. revert acc. induction l as [|x l IH]; intros acc; cbn [fold_left]; [lia|].
  rewrite (IH (acc + x)), (IH (0 + x)). lia.
Qed.

Lemma sumZ_bounds (l : list Z) (lo hi : Z) :
  Forall (fun x => lo <= x <= hi) l ->
  Z.of_nat (length l) * lo <= sumZ l <= Z.of_nat (length l) * hi.
Proof.
  induction 1 as [|x l Hx _ IH]; [by cbn|].
  unfold sumZ. cbn [fold_left length]. rewrite sumZ_from. lia.
Qed.

Lemma fold_max_ge (l : list Z) (x : Z) :
  x <= fold_left Z.max l x /\ Forall (fun y => y <= fold_left Z.max l x) l.
Proof.
  revert x. induction l as [|y l IH]; intros x; cbn [fold_left].
  - split; [lia|constructor].
  - destruct (IH (Z.max x y)) as [H1 H2]. split; [lia|].
    constructor; [lia|done].
Qed.

Lemma fold_min_le (l : list Z) (x : Z) :
  fold_left Z.min l x <= x /\ Forall (fun y => fold_left Z.min l x <= y) l.
Proof.
  revert x. induction l as [|y l IH]; intros x; cbn [fold_left].
  - split; [lia|constructor].
  - destruct (IH (Z.min x y)) as [H1 H2]. split; [lia|].
    constructor; [lia|done].
Qed.

Lemma minZ_maxZ (l : list Z) : Forall (fun x => minZ l <= x <= maxZ l) l.
Proof.
  destruct l as [|x l]; [constructor|]. unfold minZ, maxZ.
  destruct (fold_max_ge l x) as [M1 M2], (fold_min_le l x) as [m1 m2].
  constructor; [lia|].
  apply Forall_forall. intros y Hy.
  rewrite Forall_forall in M2, m2. split; auto.
Qed.

Lemma Math_round_mean_bounds (l : list Z) (lo hi : Z) :
  l <> [] ->
  Forall (fun x => lo <= x <= hi) l ->
  lo <= Math_round (inject_Z (sumZ l) / inject_Z (Z.of_nat (length l)))%Q <= hi.
Proof.
  intros Hne Hall. destruct (sumZ_bounds l lo hi Hall) as [H1 H2].
  assert (Hn : (0 < inject_Z (Z.of_nat (length l)))%Q).
  { change 0%Q with (inject_Z 0). rewrite <- Zlt_Qlt. destruct l; [done|cbn; lia]. }
  split.
  - rewrite <- (Math_round_inject_Z lo). apply Math_round_mono.
    apply Qle_shift_div_l; [done|].
    rewrite <- inject_Z_mult, <- Zle_Qle. lia.
  - rewrite <- (Math_round_inject_Z hi). apply Math_round_mono.
    apply Qle_shift_div_r; [done|].
    rewrite <- inject_Z_mult, <- Zle_Qle. lia.
Qed.

Lemma size_list_to_set_le (l : list nat) :
  (size (list_to_set l : gset nat) <= length l)%nat.
Proof.
  induction l as [|x l IH]; cbn [list_to_set length]; [by rewrite size_empty|].
  rewrite size_union_alt, size_singleton.
  assert (Hsub : (list_to_set l : gset nat) ∖ {[x]} ⊆ list_to_set l)
    by by apply subseteq_difference_l.
  apply subseteq_size in Hsub. lia.
Qed.

(** X8.  The statistics of a quiz count its completed attempts alone;
    the students counted are at most the attempts and at least one when
    there is an attempt; the average lies between the lowest and the
    highest percentage, the pass rate between 0 and 100; there is one
    summary per attempt counted. *)
Theorem statistics_bounds (d : Db) (qid : nat) :
  let s := getQuizStatistics d qid in
  (st_totalAttempts s = 0 <->
   forall i a, attempts d !! i = Some a -> quiz a = qid -> status a <> completed)
  /\ 0 <= st_totalAttempts s
  /\ 0 <= st_uniqueStudents s <= st_totalAttempts s
  /\ (0 < st_totalAttempts s -> 0 < st_uniqueStudents s)
  /\ st_lowestScore s <= st_averageScore s <= st_highestScore s
  /\ 0 <= st_passRate s <= 100
  /\ Z.of_nat (length (st_attempts s)) = st_totalAttempts s.
Proof.
  cbv zeta. unfold getQuizStatistics.
  set (passing := passing_score _).
  set (found := filter _ _).
  assert (Hfound : found = [] <->
            forall i a, attempts d !! i = Some a -> quiz a = qid ->
                        status a <> completed).
  { split.
    - intros Hnil i a Ha Hq Hst.
      assert (Hin : (i, a) ∈ found).
      { apply list_elem_of_filter. split; [done|]. by apply elem_of_map_to_list. }
      rewrite Hnil in Hin. by apply elem_of_nil in Hin.
    - intros Hno. destruct found as [|[i a] rest] eqn:E; [done|].
      assert (Hin : (i, a) ∈ found) by (rewrite E; left).
      apply list_elem_of_filter in Hin as [[Hq Hst] Hin].
      apply elem_of_map_to_list in Hin. by destruct (Hno i a Hin Hq). }
  clearbody found passing.
  destruct found as [|kv rest].
  { cbn. rewrite <- Hfound. repeat split; try done; lia. }
  unfold statistics_of. cbn [st_totalAttempts st_uniqueStudents st_averageScore
    st_highestScore st_lowestScore st_passRate st_attempts].
  assert (Hfirst : size (list_to_set
            (map (fun kv : nat * IQuizAttempt => student kv.2) (kv :: rest))
            : gset nat) <> 0%nat).
  { cbn [map list_to_set]. rewrite size_union_alt, size_singleton. lia. }
  remember (kv :: rest) as found eqn:E.
  assert (Hne : found <> []) by (by rewrite E).
  assert (Hlen : 0 < Z.of_nat (length found)) by (rewrite E; cbn; lia).
  split; [split; [lia|]; intros Hno; by apply Hfound in Hno|].
  split; [lia|].
  pose proof (size_list_to_set_le
                (map (fun kv : nat * IQuizAttempt => student kv.2) found)) as Hsz.
  rewrite length_map in Hsz.
  split; [lia|]. split.
  { lia. }
  split.
  { pose proof (Math_round_mean_bounds
                  (map (fun kv : nat * IQuizAttempt => percentage kv.2) found)
                  _ _ ltac:(by rewrite E) (minZ_maxZ _)) as H.
    by rewrite length_map in H. }
  split; [|by rewrite length_map].
  set (passed := filter _ found).
  assert (Hp : (length passed <= length found)%nat) by apply length_filter.
  apply (Math_round_percent (inject_Z (Z.of_nat (length passed)))
           (inject_Z (Z.of_nat (length found)))).
  - change 0%Q with (inject_Z 0). by rewrite <- Zlt_Qlt.
  - change 0%Q with (inject_Z 0). rewrite <- !Zle_Qle. lia.
Qed.

Section QuizSteps.

Variable jwt_verify : string -> option nat.

Lemma validate_attempt_percentage (a : IQuizAttempt) :
  validate_attempt a = true ->
  0 <= percentage a <= 100 /\ (0 <= timeSpentMinutes a)%Q.
Proof.
  unfold validate_attempt. intros H.
  repeat (apply andb_prop in H as [H ?]).
  split; [lia|]. by apply Qle_bool_imp_le.
Qed.

Lemma POST_submit_quiz_step env req w :
  quizzes_step env (db w) (quizzes (db (POST_submit jwt_verify env req w).2)).
Proof.
  unfold POST_submit, POST_submit_try. run_handler.
  repeat (case_match; simplify_eq/=; try (by left)).
  right; left.
  match goal with
  | H : _ <$> cast_responses _ = Some _ |- _ =>
      apply fmap_Some in H as (ps & _ & ->)
  end.
  match goal with
  | H : validate_attempt _ = true |- _ =>
      apply validate_attempt_percentage in H as [Hp Ht]
  end.
  eexists _, _, _, _. split; [eassumption|]. split; [|split; [|reflexivity]].
  - exact Hp.
  - exact Ht.
Qed.

Lemma PATCH_quiz_quiz_step env req w :
  quizzes_step env (db w) (quizzes (db (PATCH_quiz jwt_verify env req w).2)).
Proof.
  unfold PATCH_quiz, PATCH_quiz_try, catch_update. run_handler.
  repeat (case_match; simplify_eq/=; try (by left)).
  all: right; right; left.
  all: eexists _, _, _; split; [eassumption|]; split; [eassumption|];
    by repeat split.
Qed.

Lemma DELETE_quiz_quiz_step env req w :
  quizzes_step env (db w) (quizzes (db (DELETE_quiz jwt_verify env req w).2)).
Proof.
  unfold DELETE_quiz, DELETE_quiz_try. run_handler.
  repeat (case_match; simplify_eq/=; try (by left)).
  - right; right; left.
    eexists _, _, _; split; [eassumption|]; split; [eassumption|];
      by repeat split.
  - right; right; right. by eexists.
Qed.

Lemma serve_quiz_step env c w :
  quizzes_step env (db w) (quizzes (db (serve jwt_verify env c w).2)).
Proof.
  destruct c as [req|req|req|req|req]; cbn [serve].
  - left. apply POST_attempt_quizzes.
  - apply POST_submit_quiz_step.
  - left. apply PATCH_submit_quizzes.
  - apply PATCH_quiz_quiz_step.
  - apply DELETE_quiz_quiz_step.
Qed.

End QuizSteps.

Lemma round2_inject_Z (z : Z) : (round2 (inject_Z z) == inject_Z z)%Q.
Proof.
  unfold round2. change 100%Q with (inject_Z 100).
  rewrite <- inject_Z_mult, Math_round_inject_Z, inject_Z_mult.
  change (inject_Z 100) with 100%Q. field.
Qed.

Lemma round2_mono (x y : Q) : (x <= y)%Q -> (round2 x <= round2 y)%Q.
Proof.
  intros H. unfold round2.
  apply Qmult_le_compat_r; [|done].
  rewrite <- Zle_Qle. apply Math_round_mono. lra.
Qed.

Lemma round2_bounds (x : Q) (lo hi : Z) :
  (inject_Z lo <= x <= inject_Z hi)%Q ->
  (inject_Z lo <= round2 x <= inject_Z hi)%Q.
Proof.
  intros [H1 H2]. split.
  - rewrite <- (round2_inject_Z lo). by apply round2_mono.
  - rewrite <- (round2_inject_Z hi). by apply round2_mono.
Qed.

Lemma next_analytics_ok (an : QuizAnalytics) (s t : Q) :
  analytics_ok an -> (0 <= s <= 100)%Q -> (0 <= t)%Q ->
  analytics_ok (next_analytics an s t true)
  /\ totalAttempts (next_analytics an s t true) = totalAttempts an + 1.
Proof.
  intros (Hn & Hrate & [Ha0 Ha1] & Ht0) [Hs0 Hs1] Ht.
  split; [|reflexivity].
  unfold analytics_ok, next_analytics.
  cbn [totalAttempts averageScore completionRate averageTimeMinutes].
  set (n := totalAttempts an) in *.
  assert (Hn0 : (0 <= inject_Z n)%Q).
  { change 0%Q with (inject_Z 0). by rewrite <- Zle_Qle. }
  assert (Hn1 : (inject_Z (n + 1) == inject_Z n + 1)%Q).
  { rewrite inject_Z_plus. reflexivity. }
  assert (Hpos : (0 < inject_Z (n + 1))%Q) by lra.
  split; [lia|]. split; [|split].
  - intros _.
    assert (Hdone : Math_round (completionRate an * inject_Z n / 100) = n).
    { rewrite <- (Math_round_inject_Z n) at 2. apply Math_round_proper.
      destruct (decide (n = 0)) as [->|Hne].
      - change (inject_Z 0) with 0%Q. field.
      - rewrite Hrate by lia. field. }
    rewrite Hdone.
    change 100%Q with (inject_Z 100) at 2. rewrite <- (round2_inject_Z 100).
    apply round2_proper. change (inject_Z 100) with 100%Q.
    change (n + (if true then 1 else 0)) with (n + 1). field. lra.
  - change 0%Q with (inject_Z 0). change 100%Q with (inject_Z 100).
    apply round2_bounds. change (inject_Z 0) with 0%Q.
    change (inject_Z 100) with 100%Q.
    assert (H1 : (0 <= averageScore an * inject_Z n)%Q)
      by (by apply Qmult_le_0_compat).
    assert (H2 : (averageScore an * inject_Z n <= 100 * inject_Z n)%Q)
      by (by apply Qmult_le_compat_r).
    split.
    + apply Qle_shift_div_l; [done|]. lra.
    + apply Qle_shift_div_r; [done|]. lra.
  - change 0%Q with (inject_Z 0). rewrite <- (round2_inject_Z 0).
    apply round2_mono. change (inject_Z 0) with 0%Q.
    assert (H1 : (0 <= averageTimeMinutes an * inject_Z n)%Q)
      by (by apply Qmult_le_0_compat).
    apply Qle_shift_div_l; [done|]. lra.
Qed.

Section QuizInvariants.

Variable jwt_verify : string -> option nat.

Lemma quizzes_step_analytics env d m' :
  quizzes_step env d m' -> analytics_valid d ->
  forall i q, m' !! i = Some q -> analytics_ok (analytics q).
Proof.
  intros Hstep Hok j q' Hj.
  destruct Hstep as [->|[(i & q & pct & t & Hq & Hp & Ht & ->)
                        |[(i & q & q1 & Hq & _ & _ & _ & Han & ->)|[i ->]]]].
  - by eapply Hok.
  - destruct (decide (i = j)) as [->|Hne].
    + rewrite lookup_insert_eq in Hj. injection Hj as <-. cbn [analytics with_analytics].
      apply next_analytics_ok; [by eapply Hok| |done].
      change 0%Q with (inject_Z 0). change 100%Q with (inject_Z 100).
      rewrite <- !Zle_Qle. lia.
    + rewrite lookup_insert_ne in Hj by done. by eapply Hok.
  - destruct (decide (i = j)) as [->|Hne].
    + rewrite lookup_insert_eq in Hj. injection Hj as <-.
      cbn [analytics quiz_pre_save]. rewrite Han. by eapply Hok.
    + rewrite lookup_insert_ne in Hj by done. by eapply Hok.
  - apply lookup_delete_Some in Hj as [_ Hj]. by eapply Hok.
Qed.

Lemma quizzes_step_totals env d m' :
  quizzes_step env d m' -> totals_ok d ->
  forall i q, m' !! i = Some q -> totalPoints q = pointsTotal (questions q).
Proof.
  intros Hstep Hok j q' Hj.
  destruct Hstep as [->|[(i & q & pct & t & Hq & Hp & Ht & ->)
                        |[(i & q & q1 & Hq & Hv & _ & _ & _ & ->)|[i ->]]]].
  - by eapply Hok.
  - destruct (decide (i = j)) as [->|Hne].
    + rewrite lookup_insert_eq in Hj. injection Hj as <-.
      cbn [totalPoints questions with_analytics]. by eapply Hok.
    + rewrite lookup_insert_ne in Hj by done. by eapply Hok.
  - destruct (decide (i = j)) as [->|Hne].
    + rewrite lookup_insert_eq in Hj. injection Hj as <-.
      destruct (quiz_pre_save_valid (now env) (newObjectId env) q1 Hv) as [-> _].
      reflexivity.
    + rewrite lookup_insert_ne in Hj by done. by eapply Hok.
  - apply lookup_delete_Some in Hj as [_ Hj]. by eapply Hok.
Qed.

(** X9.  Whatever requests are served, the analytics of every stored
    quiz keep an average score between 0 and 100, times and counts that
    are not negative, and a completion rate of 100 once a submission is
    counted: only completed submissions are ever counted. *)
Theorem analytics_stay_valid calls w :
  analytics_valid (db w) ->
  analytics_valid (db (serve_all jwt_verify calls w)).
Proof.
  revert w. induction calls as [|[env c] calls IH]; intros w Hok; [done|].
  cbn [serve_all]. apply IH. unfold analytics_valid.
  exact (quizzes_step_analytics env (db w) _ (serve_quiz_step jwt_verify env c w) Hok).
Qed.

(** X10.  Whatever requests are served, every stored quiz passes the
    validators of its schema and its total is the sum of the points of
    its questions. *)
Theorem totals_stay_consistent calls w :
  quizzes_valid (db w) -> totals_ok (db w) ->
  quizzes_valid (db (serve_all jwt_verify calls w))
  /\ totals_ok (db (serve_all jwt_verify calls w)).
Proof.
  intros Hv Ht. split; [by apply serve_all_quizzes_valid|]. clear Hv.
  revert w Ht. induction calls as [|[env c] calls IH]; intros w Hok; [done|].
  cbn [serve_all]. apply IH. unfold totals_ok.
  exact (quizzes_step_totals env (db w) _ (serve_quiz_step jwt_verify env c w) Hok).
Qed.

Lemma quizzes_step_kept env d m' i q' :
  quizzes_step env d m' -> m' !! i = Some q' ->
  exists q, quizzes d !! i = Some q
            /\ author q' = author q
            /\ (forall t, publishedAt q = Some t -> publishedAt q' = Some t)
            /\ totalAttempts (analytics q) <= totalAttempts (analytics q').
Proof.
  intros Hstep Hj.
  destruct Hstep as [->|[(k & q & pct & t & Hq & Hp & Ht & ->)
                        |[(k & q & q1 & Hq & _ & Hau & Hpub & Han & ->)|[k ->]]]].
  - exists q'. repeat split; [done..|lia].
  - destruct (decide (k = i)) as [->|Hne].
    + rewrite lookup_insert_eq in Hj. injection Hj as <-. exists q.
      repeat split; [done..|]. cbn. lia.
    + rewrite lookup_insert_ne in Hj by done. exists q'.
      repeat split; [done..|lia].
  - destruct (decide (k = i)) as [->|Hne].
    + rewrite lookup_insert_eq in Hj. injection Hj as <-. exists q.
      split; [done|]. split; [done|]. split.
      * intros t Ht. cbn [publishedAt quiz_pre_save]. rewrite Hpub, Ht.
        by destruct (quiz_status q1).
      * cbn [analytics quiz_pre_save]. rewrite Han. lia.
    + rewrite lookup_insert_ne in Hj by done. exists q'.
      repeat split; [done..|lia].
  - apply lookup_delete_Some in Hj as [_ Hj]. exists q'.
    repeat split; [done..|lia].
Qed.

(** X11.  A quiz that is still stored after a sequence of requests was
    stored before it, has the author it had, has the date of publication
    it had if it had one, and counts at least as many attempts in its
    analytics: no request creates a quiz, hands it to another author,
    moves its publication or forgets a submission. *)
Theorem quiz_identity_kept calls w i q' :
  quizzes (db (serve_all jwt_verify calls w)) !! i = Some q' ->
  exists q, quizzes (db w) !! i = Some q
            /\ author q' = author q
            /\ (forall t, publishedAt q = Some t -> publishedAt q' = Some t)
            /\ totalAttempts (analytics q) <= totalAttempts (analytics q').
Proof.
  revert w. induction calls as [|[env c] calls IH]; intros w Hj.
  - exists q'. repeat split; [done..|lia].
  - cbn [serve_all] in Hj. destruct (IH _ Hj) as (q1 & Hq1 & Ha1 & Hp1 & Hn1).
    destruct (quizzes_step_kept env (db w) _ i q1
                (serve_quiz_step jwt_verify env c w) Hq1)
      as (q & Hq & Ha & Hp & Hn).
    exists q. split; [done|]. split; [congruence|]. split; [|lia].
    intros t Ht. by apply Hp1, Hp.
Qed.

End QuizInvariants.

Lemma school_sound :
  quizzes_valid (db school) /\ totals_ok (db school) /\ analytics_valid (db school).
Proof.
  split; [|split]; intros i q Hq; cbn [school db quizzes] in Hq;
    apply lookup_singleton_Some in Hq as [_ <-].
  - by vm_compute.
  - by vm_compute.
  - repeat split; cbn; try lia; done.
Qed.

Lemma analytics_stay_valid_witness :
  analytics_valid
    (db (serve_all demo_jwt
           [(at_time 100, StartAttempt (request "student-token" 10 no_body));
            (at_time 200, Submit (request "student-token" 0 both_right))]
           school)).
Proof.
  apply (analytics_stay_valid demo_jwt
           [(at_time 100, StartAttempt (request "student-token" 10 no_body));
            (at_time 200, Submit (request "student-token" 0 both_right))]
           school).
  apply school_sound.
Defined.

Lemma totals_stay_consistent_witness :
  totals_ok
    (db (serve_all demo_jwt
           [(at_time 100, StartAttempt (request "student-token" 10 no_body));
            (at_time 150,
             UpdateQuiz (request "teacher-token" 10
                           (new_questions [pick_third; paris; bonus])))]
           school)).
Proof.
  apply (totals_stay_consistent demo_jwt
           [(at_time 100, StartAttempt (request "student-token" 10 no_body));
            (at_time 150,
             UpdateQuiz (request "teacher-token" 10
                           (new_questions [pick_third; paris; bonus])))]
           school); apply school_sound.
Defined.

Lemma quiz_identity_kept_witness :
  exists q, quizzes (db started) !! 10%nat = Some q
            /\ author q = 2%nat
            /\ totalAttempts (analytics q) <= 1.
Proof.
  destruct (quiz_identity_kept demo_jwt
              [(at_time 200, Submit (request "student-token" 0 both_right))]
              started 10%nat
              (with_analytics (next_analytics no_analytics (inject_Z 100) 4%Q true)
                 capital_quiz))
    as (q & Hq & Ha & _ & Hn); [by vm_compute|].
  exists q. split; [done|]. split; [by rewrite <- Ha|exact Hn].
Defined.

(** ** The life of an attempt *)

Ltac exists_written :=
  match goal with
  | |- context [ <[?k := ?x]> (attempts (db ?w)) ] => exists k, x
  end.

Lemma attempt_pre_save_origin (t : Z) (a : IQuizAttempt) :
  same_origin a (attempt_pre_save t a).
Proof.
  unfold same_origin, attempt_pre_save.
  repeat case_match; by repeat split.
Qed.

Lemma attempt_pre_save_open (t : Z) (a : IQuizAttempt) :
  status a = in_progress ->
  status (attempt_pre_save t a) = in_progress
  /\ score (attempt_pre_save t a) = score a
  /\ percentage (attempt_pre_save t a)
     = (if Qlt_bool 0 (maxScore a)
        then Math_round ((score a / maxScore a) * 100)%Q
        else percentage a)
  /\ completedAt (attempt_pre_save t a) = completedAt a
  /\ submittedAt (attempt_pre_save t a) = submittedAt a.
Proof.
  intros Hst. unfold attempt_pre_save.
  destruct (Qlt_bool 0 (maxScore a)); cbn; rewrite Hst; by cbn.
Qed.

Section AttemptSteps.

Variable jwt_verify : string -> option nat.

Lemma POST_attempt_change env req w :
  attempts_change env (db w) (attempts (db (POST_attempt jwt_verify env req w).2)).
Proof.
  unfold POST_attempt, POST_attempt_try. run_handler.
  repeat (case_match; simplify_eq/=; try (by left)).
  all: right; left.
  all: rewrite new_attempt_pre_save in * by done.
  all: exists_written.
  all: repeat split; try done; apply not_elem_of_dom, is_fresh.
Qed.

Lemma PATCH_submit_change env req w :
  attempts_change env (db w) (attempts (db (PATCH_submit jwt_verify env req w).2)).
Proof.
  unfold PATCH_submit, PATCH_submit_try. run_handler.
  repeat (case_match; simplify_eq/=; try (by left)).
  all: gate_facts; right; right; left.
  all: repeat match goal with
       | H : _ <$> _ = Some _ |- _ => apply fmap_Some in H as (? & ? & ->)
       end.
  all: eexists _, _, _; split; [eassumption|]; split; [done|].
  all: split; [|split; [|split; [|split; [|split; [|split; [|reflexivity]]]]]].
  all: try match goal with
       | |- same_origin _ (attempt_pre_save ?t ?a) =>
           pose proof (attempt_pre_save_origin t a) as Ho;
           unfold same_origin in *; cbn in Ho; by rewrite ?Ho
       end.
  all: match goal with
       | |- context [attempt_pre_save ?t ?a] =>
           destruct (attempt_pre_save_open t a) as (E1 & E2 & E3 & E4 & E5);
           [done|]; rewrite ?E1, ?E2, ?E3, ?E4, ?E5; done
       end.
Qed.

Lemma POST_submit_change env req w :
  attempts_change env (db w) (attempts (db (POST_submit jwt_verify env req w).2)).
Proof.
  unfold POST_submit, POST_submit_try. run_handler.
  repeat (case_match; simplify_eq/=; try (by left)).
  all: gate_facts; right; right; right.
  all: repeat match goal with
       | H : _ <$> _ = Some _ |- _ => apply fmap_Some in H as (? & ? & ->)
       end.
  all: eexists _, _, _; split; [eassumption|]; split; [done|].
  all: split; [|split; [|split; [|split; [|reflexivity]]]].
  all: try match goal with
       | |- same_origin _ (attempt_pre_save ?t ?a) =>
           pose proof (attempt_pre_save_origin t a) as Ho;
           unfold same_origin in *; cbn in Ho; by rewrite ?Ho
       end.
  all: rewrite ?attempt_pre_save_status, ?attempt_pre_save_completedAt; try done.
  all: match goal with
       | |- submittedAt (attempt_pre_save ?t ?a) = _ =>
           by destruct (attempt_pre_save_fields t a)
             as (_ & _ & _ & _ & _ & _ & _ & ->)
       end.
Qed.

Lemma serve_change env c w :
  attempts_change env (db w) (attempts (db (serve jwt_verify env c w).2)).
Proof.
  destruct c as [req|req|req|req|req]; cbn [serve].
  - apply POST_attempt_change.
  - apply POST_submit_change.
  - apply PATCH_submit_change.
  - left. apply PATCH_quiz_attempts.
  - left. apply DELETE_quiz_attempts.
Qed.

End AttemptSteps.

Lemma index_taken_false (d : Db) (a b : IQuizAttempt) (j : nat) :
  index_taken d a = false -> attempts d !! j = Some b ->
  student b = student a -> quiz b = quiz a -> attemptNumber b <> attemptNumber a.
Proof.
  unfold index_taken. intros Hfree Hb Hs Hq Hn.
  apply bool_decide_eq_false in Hfree. destruct Hfree.
  apply Exists_exists. exists (j, b). split; [|done].
  by apply elem_of_map_to_list.
Qed.

Lemma same_origin_trans (a b c : IQuizAttempt) :
  same_origin a b -> same_origin b c -> same_origin a c.
Proof.
  unfold same_origin. intros (?&?&?&?&?&?&?) (?&?&?&?&?&?&?).
  repeat split; congruence.
Qed.

Lemma same_origin_refl (a : IQuizAttempt) : same_origin a a.
Proof. by repeat split. Qed.

Section AttemptInvariants.

Variable jwt_verify : string -> option nat.

Lemma change_kept env d m' i a :
  attempts_change env d m' -> attempts d !! i = Some a ->
  exists a', m' !! i = Some a' /\ same_origin a a'.
Proof.
  intros Hch Ha.
  destruct Hch as [->|[(k & b & Hk & _ & _ & _ & _ & _ & _ & _ & _ & ->)
    |[(k & b & b' & Hk & _ & Ho & _ & _ & _ & _ & _ & ->)
     |(k & b & b' & Hk & _ & Ho & _ & _ & _ & ->)]]].
  - exists a. split; [done|apply same_origin_refl].
  - exists a. split; [|apply same_origin_refl].
    rewrite lookup_insert_ne; [done|]. intros ->. congruence.
  - destruct (decide (k = i)) as [->|Hne].
    + exists b'. rewrite lookup_insert_eq. split; [done|]. congruence.
    + exists a. rewrite lookup_insert_ne by done. split; [done|apply same_origin_refl].
  - destruct (decide (k = i)) as [->|Hne].
    + exists b'. rewrite lookup_insert_eq. split; [done|]. congruence.
    + exists a. rewrite lookup_insert_ne by done. split; [done|apply same_origin_refl].
Qed.

(** X12.  No request deletes an attempt or moves it: an attempt stored
    before a sequence of requests is stored under the same id after it,
    for the same student and quiz, with the same number, start date,
    maximum score, client address and user agent. *)
Theorem attempt_identity_kept calls w i a :
  attempts (db w) !! i = Some a ->
  exists a', attempts (db (serve_all jwt_verify calls w)) !! i = Some a'
             /\ same_origin a a'.
Proof.
  revert w a. induction calls as [|[env c] calls IH]; intros w a Ha.
  - exists a. split; [done|apply same_origin_refl].
  - cbn [serve_all].
    destruct (change_kept env (db w) _ i a (serve_change jwt_verify env c w) Ha)
      as (a1 & Ha1 & Ho1).
    destruct (IH _ a1 Ha1) as (a' & Ha' & Ho').
    exists a'. split; [done|]. by eapply same_origin_trans.
Qed.

Lemma change_single_open env d m' :
  attempts_change env d m' -> single_open d ->
  forall i j a b, m' !! i = Some a -> m' !! j = Some b ->
    status a = in_progress -> status b = in_progress ->
    student a = student b -> quiz a = quiz b -> i = j.
Proof.
  intros Hch Hok i j a b Ha Hb Hsa Hsb Hst Hq.
  destruct Hch as [->|[(k & n & Hk & _ & _ & _ & _ & _ & _ & Hnone & _ & ->)
    |[(k & o & o' & Hk & Hso & Ho & _ & _ & _ & _ & _ & ->)
     |(k & o & o' & Hk & Hso & Ho & Hdone & _ & _ & ->)]]].
  - by eapply Hok.
  - rewrite findInProgress_None in Hnone.
    destruct (decide (k = i)) as [Hi|Hi], (decide (k = j)) as [Hj|Hj];
      [congruence|try subst k..].
    + rewrite lookup_insert_eq in Ha. injection Ha as <-.
      rewrite lookup_insert_ne in Hb by done.
      destruct (Hnone j b Hb); [by split|done].
    + rewrite lookup_insert_eq in Hb. injection Hb as <-.
      rewrite lookup_insert_ne in Ha by done.
      destruct (Hnone i a Ha); [by split|done].
    + rewrite lookup_insert_ne in Ha, Hb by done. by eapply Hok.
  - destruct Ho as (Ho1 & Ho2 & _).
    destruct (decide (k = i)) as [Hi|Hi], (decide (k = j)) as [Hj|Hj];
      [congruence|try subst k..].
    + rewrite lookup_insert_eq in Ha. injection Ha as <-.
      rewrite lookup_insert_ne in Hb by done.
      apply (Hok i j o b); congruence.
    + rewrite lookup_insert_eq in Hb. injection Hb as <-.
      rewrite lookup_insert_ne in Ha by done.
      apply (Hok i j a o); congruence.
    + rewrite lookup_insert_ne in Ha, Hb by done. by eapply Hok.
  - destruct (decide (k = i)) as [Hi|Hi], (decide (k = j)) as [Hj|Hj];
      [congruence|try subst k..].
    + rewrite lookup_insert_eq in Ha. injection Ha as <-. congruence.
    + rewrite lookup_insert_eq in Hb. injection Hb as <-. congruence.
    + rewrite lookup_insert_ne in Ha, Hb by done. by eapply Hok.
Qed.

Lemma change_index_unique env d m' :
  attempts_change env d m' -> index_unique d ->
  forall i j a b, m' !! i = Some a -> m' !! j = Some b ->
    student a = student b -> quiz a = quiz b ->
    attemptNumber a = attemptNumber b -> i = j.
Proof.
  intros Hch Hok i j a b Ha Hb Hst Hq Hn.
  assert (Hupd : forall k o o', attempts d !! k = Some o -> same_origin o o' ->
            <[k := o']> (attempts d) !! i = Some a ->
            <[k := o']> (attempts d) !! j = Some b -> i = j).
  { intros k o o' Hk (Ho1 & Ho2 & Ho3 & _) Ha' Hb'.
    destruct (decide (k = i)) as [Hi|Hi], (decide (k = j)) as [Hj|Hj];
      [congruence|try subst k..].
    - rewrite lookup_insert_eq in Ha'. injection Ha' as <-.
      rewrite lookup_insert_ne in Hb' by done.
      apply (Hok i j o b); congruence.
    - rewrite lookup_insert_eq in Hb'. injection Hb' as <-.
      rewrite lookup_insert_ne in Ha' by done.
      apply (Hok i j a o); congruence.
    - rewrite lookup_insert_ne in Ha', Hb' by done. by eapply Hok. }
  destruct Hch as [->|[(k & n & Hk & _ & _ & _ & _ & _ & _ & _ & Hfree & ->)
    |[(k & o & o' & Hk & _ & Ho & _ & _ & _ & _ & _ & ->)
     |(k & o & o' & Hk & _ & Ho & _ & _ & _ & ->)]]].
  - by eapply Hok.
  - destruct (decide (k = i)) as [Hi|Hi], (decide (k = j)) as [Hj|Hj];
      [congruence|try subst k..].
    + rewrite lookup_insert_eq in Ha. injection Ha as ->.
      rewrite lookup_insert_ne in Hb by done.
      by destruct (index_taken_false d a b j Hfree Hb).
    + rewrite lookup_insert_eq in Hb. injection Hb as ->.
      rewrite lookup_insert_ne in Ha by done.
      by destruct (index_taken_false d b a i Hfree Ha).
    + rewrite lookup_insert_ne in Ha, Hb by done. by eapply Hok.
  - by eapply Hupd.
  - by eapply Hupd.
Qed.

(** X13.  Whatever requests are served, a student has at most one
    attempt in progress on a quiz, and no two attempts of a student on a
    quiz have the same number. *)
Theorem attempts_stay_unique calls w :
  single_open (db w) -> index_unique (db w) ->
  single_open (db (serve_all jwt_verify calls w))
  /\ index_unique (db (serve_all jwt_verify calls w)).
Proof.
  revert w. induction calls as [|[env c] calls IH]; intros w H1 H2; [done|].
  cbn [serve_all]. apply IH.
  - exact (change_single_open env (db w) _ (serve_change jwt_verify env c w) H1).
  - exact (change_index_unique env (db w) _ (serve_change jwt_verify env c w) H2).
Qed.

Lemma change_wellformed env d m' :
  attempts_change env d m' -> attempts_wellformed d ->
  forall i a, m' !! i = Some a -> attempt_wellformed a.
Proof.
  intros Hch Hok i a Ha.
  destruct Hch as [->|[(k & n & Hk & Hn1 & Hn2 & Hn3 & _ & Hn4 & Hn5 & _ & _ & ->)
    |[(k & o & o' & Hk & Hso & _ & Hs & Hsc & Hp & Hc & Hsub & ->)
     |(k & o & o' & Hk & Hso & _ & Hdone & Hc & Hsub & ->)]]].
  - by eapply Hok.
  - destruct (decide (k = i)) as [->|Hi].
    + rewrite lookup_insert_eq in Ha. injection Ha as <-. by left.
    + rewrite lookup_insert_ne in Ha by done. by eapply Hok.
  - destruct (decide (k = i)) as [->|Hi].
    + rewrite lookup_insert_eq in Ha. injection Ha as <-. left.
      destruct (Hok i o Hk) as [(_ & H0 & H1 & H2 & H3)|[Hx _]]; [|congruence].
      repeat split; try congruence.
      rewrite Hp, H0, H1. destruct (Qlt_bool 0 (maxScore o)); [|done].
      apply Math_round_zero_of.
    + rewrite lookup_insert_ne in Ha by done. by eapply Hok.
  - destruct (decide (k = i)) as [->|Hi].
    + rewrite lookup_insert_eq in Ha. injection Ha as <-. right.
      by rewrite Hc, Hsub.
    + rewrite lookup_insert_ne in Ha by done. by eapply Hok.
Qed.

(** X14.  Whatever requests are served, every attempt is either in
    progress, with score 0, percentage 0 and no date of completion or
    submission, or completed, with both dates; no request leaves an
    attempt abandoned or expired. *)
Theorem attempts_stay_wellformed calls w :
  attempts_wellformed (db w) ->
  attempts_wellformed (db (serve_all jwt_verify calls w)).
Proof.
  revert w. induction calls as [|[env c] calls IH]; intros w Hok; [done|].
  cbn [serve_all]. apply IH.
  exact (change_wellformed env (db w) _ (serve_change jwt_verify env c w) Hok).
Qed.

End AttemptInvariants.

Lemma empty_attempts_sound (d : Db) :
  attempts d = ∅ -> single_open d /\ index_unique d /\ attempts_wellformed d.
Proof.
  intros He. unfold single_open, index_unique, attempts_wellformed.
  rewrite He. split; [|split]; intros *; by rewrite lookup_empty.
Qed.

Lemma attempt_identity_kept_witness :
  exists a', attempts (db (serve_all demo_jwt
                             [(at_time 200, Submit (request "student-token" 0 both_right))]
                             started)) !! 0%nat = Some a'
             /\ same_origin first_attempt a'.
Proof.
  apply (attempt_identity_kept demo_jwt
           [(at_time 200, Submit (request "student-token" 0 both_right))]
           started 0%nat first_attempt).
  by vm_compute.
Defined.

Lemma attempts_stay_unique_witness :
  single_open (db (serve_all demo_jwt two_rounds school))
  /\ index_unique (db (serve_all demo_jwt two_rounds school)).
Proof.
  apply (attempts_stay_unique demo_jwt two_rounds school);
    by apply (empty_attempts_sound (db school)).
Defined.

Lemma attempts_stay_wellformed_witness :
  attempts_wellformed (db (serve_all demo_jwt two_rounds school)).
Proof.
  apply (attempts_stay_wellformed demo_jwt two_rounds school).
  by apply (empty_attempts_sound (db school)).
Defined.

(** ** Saving and its failures *)

Lemma cast_response_malformed (qs : list IQuestion) (r : ResponseObject) :
  o_answer r = JUndefined \/ o_answer r = JNull
  \/ o_questionId r = EmptyString
  \/ (findQuestion qs (o_questionId r) = None /\ o_timeSpentSeconds r = None) ->
  cast_response (gradeResponse qs r) = None.
Proof.
  intros Hbad. unfold cast_response, gradeResponse.
  destruct (findQuestion qs (o_questionId r)) as [q|];
    cbn [o_isCorrect o_pointsEarned o_timeSpentSeconds o_questionId o_answer o_attempts].
  - destruct Hbad as [->|[->|[->|[? _]]]]; try done; cbn;
      by rewrite ?andb_false_r.
  - destruct (o_timeSpentSeconds r) as [t|]; [|done].
    destruct Hbad as [->|[->|[->|[_ ?]]]]; try done; cbn;
      by rewrite ?andb_false_r.
Qed.

Section Failures.

Variable jwt_verify : string -> option nat.

(** X15.  One malformed response fails the whole submit: when a response
    has no answer (undefined or null), an empty question id, or names an
    unknown question without a time spent, the submit is answered 500,
    the failure is logged, and the attempt stays in progress with the
    database unchanged. *)
Theorem malformed_response_rejects_submit env req w a q rs r :
  submit_admitted jwt_verify req w a q rs ->
  r ∈ rs ->
  o_answer r = JUndefined \/ o_answer r = JNull
  \/ o_questionId r = EmptyString
  \/ (findQuestion (questions q) (o_questionId r) = None
      /\ o_timeSpentSeconds r = None) ->
  POST_submit jwt_verify env req w
  = ({| resp_status := 500; resp_body := ErrorBody "Failed to submit quiz attempt" |},
     {| db := db w;
        console := console w ++
          ["Submit quiz attempt error: QuizAttempt validation failed"] |}).
Proof.
  intros (tok & u & Htok & Hjwt & Hu & Hrole & Ha & Hst & Hrs & Hq) Hin Hbad.
  assert (Hcast : cast_responses (gradedResponses (questions q) rs) = None).
  { destruct (cast_responses _) as [ps|] eqn:E; [|done].
    assert (Hsome : is_Some (cast_responses (gradedResponses (questions q) rs)))
      by by rewrite E.
    apply mapM_is_Some in Hsome. unfold gradedResponses in Hsome.
    rewrite Forall_forall in Hsome.
    destruct (Hsome (gradeResponse (questions q) r)) as [p Hp].
    - apply list_elem_of_fmap. by exists r.
    - cbn in Hp. by rewrite cast_response_malformed in Hp. }
  unfold POST_submit, POST_submit_try. rewrite Htok.
  cbv beta iota zeta delta [bind ret throw get_db json verifyToken respond try_catch].
  rewrite Hjwt, Hu, Hrole, Ha, Hst, Hrs, Hq.
  rewrite !bool_decide_eq_false_2 by (intro; congruence).
  unfold save_attempt. rewrite Hcast. reflexivity.
Qed.

End Failures.

Lemma malformed_response_rejects_submit_witness :
  (POST_submit demo_jwt (at_time 200)
     (request "student-token" 0
        (answers [answer_to "mc" (JNum 2); answer_to "capital" JNull] 4%Q))
     started).1
  = {| resp_status := 500; resp_body := ErrorBody "Failed to submit quiz attempt" |}.
Proof.
  rewrite (malformed_response_rejects_submit demo_jwt (at_time 200)
             (request "student-token" 0
                (answers [answer_to "mc" (JNum 2); answer_to "capital" JNull] 4%Q))
             started first_attempt capital_quiz
             [answer_to "mc" (JNum 2); answer_to "capital" JNull]
             (answer_to "capital" JNull)).
  - reflexivity.
  - exists "student-token", {| role := role_student |}. repeat split; by vm_compute.
  - right. left.
  - right. by left.
Defined.

Section Refusals.

Variable jwt_verify : string -> option nat.

(** X16.  A request that is refused changes nothing: on every route,
    the submit included, an answer with a status from 400 to 499 (400,
    401, 403 or 404) comes before any write, and the database is as it
    was.  (An answer of 500 says nothing of the kind: a handler can fail
    after it has saved.) *)
Theorem refused_request_changes_nothing env c w :
  400 <= resp_status (serve jwt_verify env c w).1 < 500 ->
  db (serve jwt_verify env c w).2 = db w.
Proof.
  destruct c as [req|req|req|req|req]; cbn [serve];
    unfold POST_attempt, POST_attempt_try, POST_submit, POST_submit_try,
      PATCH_submit, PATCH_submit_try, PATCH_quiz, PATCH_quiz_try, catch_update,
      DELETE_quiz, DELETE_quiz_try;
    run_handler;
    repeat (case_match; simplify_eq/=; try done); lia.
Qed.

End Refusals.

Lemma refused_request_changes_nothing_witness :
  db (serve demo_jwt (at_time 300)
        (Submit (request "student-token" 0 both_right)) submitted).2
  = db submitted.
Proof.
  apply (refused_request_changes_nothing demo_jwt (at_time 300)
           (Submit (request "student-token" 0 both_right)) submitted).
  by vm_compute.
Defined.

Lemma attempt_pre_save_timeSpentMinutes (t : Z) (a : IQuizAttempt) :
  timeSpentMinutes (attempt_pre_save t a) = timeSpentMinutes a.
Proof. unfold attempt_pre_save. by repeat case_match. Qed.

Section Progress.

Variable jwt_verify : string -> option nat.

(** X17.  A progress save answered 200 rewrites the attempt in progress
    of the calling student and nothing else: the attempt stays in
    progress with its score and its origin; the time spent is replaced
    when the body carries one; the responses are replaced, when the body
    carries some, by one ungraded entry per response sent, in order,
    marked incorrect with 0 points whatever the answer is. *)
Theorem progress_save_effect env req w resp w' :
  PATCH_submit jwt_verify env req w = (resp, w') ->
  resp_status resp = 200 ->
  exists a a',
    attempts (db w) !! params_id req = Some a
    /\ status a = in_progress
    /\ w' = {| db := set_attempts (<[params_id req := a']> (attempts (db w))) (db w);
               console := console w |}
    /\ resp_body resp = MessageBody "Progress saved"
    /\ same_origin a a'
    /\ status a' = in_progress
    /\ score a' = score a
    /\ completedAt a' = completedAt a
    /\ timeSpentMinutes a'
       = match body_timeSpentMinutes (body req) with
         | Some t => t
         | None => timeSpentMinutes a
         end
    /\ match body_responses (body req) with
       | Some rs =>
           Forall2 (fun (r : ResponseObject) (p : IQuestionResponse) =>
                      questionId p = o_questionId r /\ answer p = o_answer r
                      /\ isCorrect p = false /\ pointsEarned p = 0%Q)
                   rs (responses a')
       | None => responses a' = responses a
       end.
Proof.
  unfold PATCH_submit, PATCH_submit_try.
  cbv beta iota zeta delta [bind ret throw get_db json verifyToken respond try_catch
                            catch_block console_error].
  intros H Hs.
  destruct (request_token req) as [tok|] eqn:Htok; [|by simplify_eq/=].
  destruct (jwt_verify tok) as [uid|] eqn:Hjwt; [|by simplify_eq/=].
  destruct (users (db w) !! uid) as [u|] eqn:Hu; [|by simplify_eq/=].
  destruct (attempts (db w) !! params_id req) as [a|] eqn:Ha; [|by simplify_eq/=].
  case_bool_decide as Hown; [by simplify_eq/=|].
  case_bool_decide as Hst; [by simplify_eq/=|].
  set (a1 := match body_timeSpentMinutes (body req) with
             | Some t => with_timeSpentMinutes t a
             | None => a
             end) in *.
  assert (Ha1 : same_origin a a1 /\ status a1 = in_progress /\ score a1 = score a
                /\ completedAt a1 = completedAt a /\ responses a1 = responses a
                /\ timeSpentMinutes a1
                   = match body_timeSpentMinutes (body req) with
                     | Some t => t
                     | None => timeSpentMinutes a
                     end).
  { unfold a1. destruct (body_timeSpentMinutes (body req)); by repeat split. }
  clearbody a1. destruct Ha1 as (Ho1 & Hst1 & Hsc1 & Hc1 & Hr1 & Ht1).
  unfold save_attempt in H.
  destruct (body_responses (body req)) as [rs|] eqn:Hrs;
    cbn [fmap option_fmap option_map] in H.
  - destruct (cast_responses _) as [ps|] eqn:Hcast;
      cbn [fmap option_fmap option_map] in H.
    2:{ revert H. cbv beta iota zeta delta [throw]. cbn [err_message ValidationError].
        case_match; intros; by simplify_eq/=. }
    destruct (validate_attempt (with_responses ps a1)) eqn:Hval.
    2:{ revert H. cbv beta iota zeta delta [throw]. cbn [err_message ValidationError].
        case_match; intros; by simplify_eq/=. }
    revert H. cbv beta iota zeta delta [bind ret throw get_db put_db].
    cbn [db console]. intros [= <- <-].
    exists a, (attempt_pre_save (now env) (with_responses ps a1)).
    destruct (attempt_pre_save_open (now env) (with_responses ps a1) Hst1)
      as (E1 & E2 & _ & E4 & _).
    destruct (attempt_pre_save_fields (now env) (with_responses ps a1))
      as (_ & _ & _ & _ & E5 & _).
    rewrite E1, E2, E4, E5, attempt_pre_save_timeSpentMinutes.
    cbn [with_responses score completedAt timeSpentMinutes responses].
    do 4 (split; [done|]). split; [|do 4 (split; [done|])].
    + pose proof (attempt_pre_save_origin (now env) (with_responses ps a1)) as Ho.
      eapply same_origin_trans; [exact Ho1|]. exact Ho.
    + apply mapM_Some in Hcast. apply Forall2_fmap_l in Hcast.
      eapply Forall2_impl; [exact Hcast|]. intros r p Hp. cbv beta in Hp.
      apply cast_response_Some in Hp as (-> & -> & Hc & Hpts).
      cbn in Hc, Hpts. by simplify_eq.
  - destruct (validate_attempt a1) eqn:Hval.
    2:{ revert H. cbv beta iota zeta delta [throw]. cbn [err_message ValidationError].
        case_match; intros; by simplify_eq/=. }
    revert H. cbv beta iota zeta delta [bind ret throw get_db put_db].
    cbn [db console]. intros [= <- <-].
    exists a, (attempt_pre_save (now env) a1).
    destruct (attempt_pre_save_open (now env) a1 Hst1) as (E1 & E2 & _ & E4 & _).
    destruct (attempt_pre_save_fields (now env) a1) as (_ & _ & _ & _ & E5 & _).
    rewrite E1, E2, E4, E5, attempt_pre_save_timeSpentMinutes.
    do 4 (split; [done|]). split; [|by do 4 (split; [done|])].
    pose proof (attempt_pre_save_origin (now env) a1) as Ho.
    eapply same_origin_trans; [exact Ho1|]. exact Ho.
Qed.

End Progress.

Lemma progress_save_effect_witness :
  exists a', attempts
               (db (PATCH_submit demo_jwt (at_time 150)
                      (request "student-token" 0 both_right) started).2) !! 0%nat
             = Some a'
             /\ status a' = in_progress /\ score a' = 0%Q.
Proof.
  destruct (progress_save_effect demo_jwt (at_time 150)
              (request "student-token" 0 both_right) started
              (PATCH_submit demo_jwt (at_time 150)
                 (request "student-token" 0 both_right) started).1
              (PATCH_submit demo_jwt (at_time 150)
                 (request "student-token" 0 both_right) started).2)
    as (a & a' & Ha & _ & Hw & _ & _ & Hst & Hsc & _).
  - by vm_compute.
  - by vm_compute.
  - exists a'. rewrite Hw. cbn [db attempts set_attempts].
    rewrite lookup_insert_eq. split; [done|]. split; [done|].
    rewrite Hsc. vm_compute in Ha. by injection Ha as <-.
Defined.

Section QuizUpdate.

Variable jwt_verify : string -> option nat.

(** X18.  A quiz update answered 200 comes from the teacher who wrote
    the quiz and rewrites that quiz alone: the status, the questions and
    the due date are those of the body where it carries them; the total
    is recomputed as the sum of the points of the stored questions; the
    date of publication is stamped when the quiz is saved as published
    for the first time and kept afterwards; the author and the analytics
    are kept.  Attempts are not touched, so an attempt already started
    keeps the maximum score it recorded. *)
Theorem quiz_update_effect env req w resp w' :
  PATCH_quiz jwt_verify env req w = (resp, w') ->
  resp_status resp = 200 ->
  exists tok u q q',
    request_token req = Some tok
    /\ jwt_verify tok = Some (author q)
    /\ users (db w) !! author q = Some u /\ role u = role_teacher
    /\ quizzes (db w) !! params_id req = Some q
    /\ w' = {| db := set_quizzes (<[params_id req := q']> (quizzes (db w))) (db w);
               console := console w |}
    /\ resp_body resp = QuizBody (Some q')
    /\ validate_quiz q' = true
    /\ author q' = author q /\ analytics q' = analytics q
    /\ quiz_status q' = match body_status (body req) with
                        | Some s => s
                        | None => quiz_status q
                        end
    /\ questions q' = match body_questions (body req) with
                      | Some qs => ensure_ids (newObjectId env) qs
                      | None => questions q
                      end
    /\ dueDate q' = match body_dueDate (body req) with
                    | Some due => due
                    | None => dueDate q
                    end
    /\ totalPoints q' = pointsTotal (questions q')
    /\ publishedAt q' = match publishedAt q with
                        | Some t => Some t
                        | None => if bool_decide (quiz_status q' = published)
                                  then Some (now env) else None
                        end.
Proof.
  unfold PATCH_quiz, PATCH_quiz_try, catch_update.
  cbv beta iota zeta delta [bind ret throw get_db json verifyToken respond try_catch
                            console_error].
  intros H Hs.
  destruct (request_token req) as [tok|] eqn:Htok; [|by simplify_eq/=].
  destruct (jwt_verify tok) as [uid|] eqn:Hjwt; [|by simplify_eq/=].
  destruct (users (db w) !! uid) as [u|] eqn:Hu; [|by simplify_eq/=].
  case_bool_decide as Hrole; [by simplify_eq/=|].
  destruct (quizzes (db w) !! params_id req) as [q|] eqn:Hq; [|by simplify_eq/=].
  case_bool_decide as Hown; [by simplify_eq/=|].
  subst uid.
  set (q1 := apply_quiz_update env (body req) q) in *.
  assert (Hsave : validate_quiz q1 = true
                  /\ (resp, w')
                     = ({| resp_status := 200;
                           resp_body :=
                             QuizBody (Some (quiz_pre_save (now env) (newObjectId env) q1)) |},
                        {| db := set_quizzes
                                   (<[params_id req :=
                                        quiz_pre_save (now env) (newObjectId env) q1]>
                                      (quizzes (db w))) (db w);
                           console := console w |})).
  { unfold save_quiz in H.
    destruct (body_questions (body req)) as [[|qu qs]|]; [by simplify_eq/=|..];
      (destruct (validate_quiz q1) eqn:Hval;
       [ split; [done|]; revert H;
         cbv beta iota zeta delta [bind ret throw get_db put_db];
         cbn [db console set_quizzes quizzes]; rewrite lookup_insert_eq;
         by intros <-
       | revert H; cbv beta iota zeta delta [throw];
         cbn [err_message err_name ValidationError];
         repeat case_match; intros; by simplify_eq/= ]). }
  destruct Hsave as [Hval [= -> ->]].
  destruct (quiz_pre_save_valid (now env) (newObjectId env) q1 Hval) as [Hqs Hv'].
  exists tok, u, q, (quiz_pre_save (now env) (newObjectId env) q1).
  do 7 (split; [done|]). split; [done|]. split; [done|]. split; [done|].
  split; [done|]. split; [by rewrite Hqs|]. split; [done|].
  split; [by rewrite Hqs|].
  cbn [publishedAt quiz_pre_save quiz_status]. fold q1.
  change (publishedAt q1) with (publishedAt q).
  destruct (publishedAt q); [by destruct (quiz_status q1)|].
  by destruct (quiz_status q1).
Qed.

End QuizUpdate.

Lemma quiz_update_effect_witness :
  exists q', quizzes (db started_then_edited) !! 10%nat = Some q'
             /\ totalPoints q' = pointsTotal (questions q')
             /\ publishedAt q' = Some 50.
Proof.
  destruct (quiz_update_effect demo_jwt (at_time 150)
              (request "teacher-token" 10 (new_questions [pick_third; paris; bonus]))
              started
              (PATCH_quiz demo_jwt (at_time 150)
                 (request "teacher-token" 10 (new_questions [pick_third; paris; bonus]))
                 started).1
              started_then_edited)
    as (tok & u & q & q' & _ & _ & _ & _ & Hq & Hw & _ & _ & _ & _ & _ & _ & _
        & Htot & Hpub).
  - by vm_compute.
  - by vm_compute.
  - exists q'. rewrite Hw. cbn [db quizzes set_quizzes].
    rewrite lookup_insert_eq. split; [done|]. split; [done|].
    rewrite Hpub. vm_compute in Hq. by injection Hq as <-.
Defined.

(** ** Reading attempts *)

#[local] Instance later_first_total : Total later_first.
Proof. intros x y. unfold later_first. lia. Qed.

#[local] Instance later_first_trans : Transitive later_first.
Proof. intros x y z. unfold later_first. lia. Qed.

#[local] Instance higher_first_total : Total higher_first.
Proof. intros x y. unfold higher_first. lia. Qed.

#[local] Instance higher_first_trans : Transitive higher_first.
Proof. intros x y z. unfold higher_first. lia. Qed.

Lemma findInProgress_unique (d : Db) (uid qid i : nat) (a : IQuizAttempt) :
  single_open d ->
  attempts d !! i = Some a -> attempt_of uid qid a -> status a = in_progress ->
  findInProgress d uid qid = Some (i, a).
Proof.
  intros Hone Ha [Hs Hq] Hst.
  destruct (findInProgress d uid qid) as [[j b]|] eqn:E.
  - apply findInProgress_Some in E as (Hb & [Hbs Hbq] & Hbst). cbn in *.
    assert (j = i) as -> by (apply (Hone j i b a); congruence).
    congruence.
  - rewrite findInProgress_None in E. by destruct (E i a Ha).
Qed.

Section Reading.

Variable jwt_verify : string -> option nat.

Lemma GET_attempt_known (req : Request) (current : bool) (w : World) tok uid u :
  request_token req = Some tok -> jwt_verify tok = Some uid ->
  users (db w) !! uid = Some u ->
  GET_attempt jwt_verify req current w
  = ({| att_status := 200;
        att_body :=
          if current then
            CurrentAttempt
              ((fun kv : nat * IQuizAttempt =>
                  (kv, (fun q => (questions q, settings q))
                         <$> quizzes (db w) !! quiz kv.2))
               <$> findInProgress (db w) uid (params_id req))
          else AttemptHistory (findAttempts (db w) uid (params_id req)) |}, w).
Proof.
  intros Htok Hjwt Hu. unfold GET_attempt, GET_attempt_try. run_handler.
  rewrite Htok, Hjwt. cbn. rewrite Hu. by destruct current.
Qed.

Lemma POST_attempt_body_inv env req w id a :
  resp_body (POST_attempt jwt_verify env req w).1 = AttemptBody (Some (id, a)) ->
  exists tok uid u,
    request_token req = Some tok /\ jwt_verify tok = Some uid
    /\ users (db w) !! uid = Some u
    /\ attempts (db (POST_attempt jwt_verify env req w).2) !! id = Some a
    /\ attempt_of uid (params_id req) a /\ status a = in_progress.
Proof.
  unfold POST_attempt, POST_attempt_try. run_handler.
  repeat (case_match; simplify_eq/=; try done).
  1,2: intros [= ->];
    match goal with
    | H : findInProgress _ _ _ = Some _ |- _ =>
        apply findInProgress_Some in H as (? & ? & ?)
    end; by eexists _, _, _.
  all: rewrite new_attempt_pre_save by done.
  all: rewrite lookup_insert_eq; cbn; intros [= <- <-].
  all: eexists _, _, _; rewrite lookup_insert_eq; by repeat split.
Qed.

(** X19.  Reading the attempts of a quiz changes nothing, and the
    current attempt it reports is the one the start request answered
    with: when every student has at most one attempt in progress per
    quiz, the attempt a start request returns, new or resumed, is the
    attempt the same client reads back as current, with the questions
    and settings of its quiz. *)
Theorem current_attempt_after_start env req w id a :
  single_open (db w) ->
  resp_body (POST_attempt jwt_verify env req w).1 = AttemptBody (Some (id, a)) ->
  let w' := (POST_attempt jwt_verify env req w).2 in
  GET_attempt jwt_verify req true w'
  = ({| att_status := 200;
        att_body :=
          CurrentAttempt
            (Some (id, a, (fun q => (questions q, settings q))
                            <$> quizzes (db w) !! params_id req)) |}, w')
  /\ (GET_attempt jwt_verify req false w').2 = w'.
Proof.
  intros Hone Hbody. cbv zeta.
  destruct (POST_attempt_body_inv env req w id a Hbody)
    as (tok & uid & u & Htok & Hjwt & Hu & Ha & Hof & Hst).
  assert (Hu' : users (db (POST_attempt jwt_verify env req w).2) !! uid = Some u).
  { revert Hu. unfold POST_attempt, POST_attempt_try. run_handler.
    repeat (case_match; simplify_eq/=; try done). }
  assert (Hone' : single_open (db (POST_attempt jwt_verify env req w).2)).
  { exact (change_single_open env (db w) _ (POST_attempt_change jwt_verify env req w) Hone). }
  rewrite !(GET_attempt_known req _ _ tok uid u Htok Hjwt Hu').
  split; [|done].
  rewrite (findInProgress_unique _ uid (params_id req) id a Hone' Ha Hof Hst).
  cbn. destruct Hof as [_ ->]. by rewrite POST_attempt_quizzes.
Qed.

End Reading.

Lemma current_attempt_after_start_witness :
  (GET_attempt demo_jwt (request "student-token" 10 no_body) true started).1
  = {| att_status := 200;
       att_body :=
         CurrentAttempt
           (Some (0%nat, first_attempt,
                  Some (questions capital_quiz, settings capital_quiz))) |}.
Proof.
  destruct (current_attempt_after_start demo_jwt (at_time 100)
              (request "student-token" 10 no_body) school 0%nat first_attempt)
    as [H _].
  - by apply (empty_attempts_sound (db school)).
  - by vm_compute.
  - cbv zeta in H. change (POST_attempt demo_jwt (at_time 100)
                             (request "student-token" 10 no_body) school).2
      with started in H.
    by rewrite H.
Defined.

Section History.

Variable jwt_verify : string -> option nat.

(** X20.  For a caller whose token verifies and whose account exists,
    the history of a quiz is answered 200 and leaves the world as it is;
    it lists each attempt of the caller on that quiz exactly once,
    whatever its status, and no other attempt, the latest started
    first. *)
Theorem attempt_history req w tok uid u :
  request_token req = Some tok ->
  jwt_verify tok = Some uid ->
  users (db w) !! uid = Some u ->
  exists found,
    GET_attempt jwt_verify req false w
    = ({| att_status := 200; att_body := AttemptHistory found |}, w)
    /\ (forall i a, (i, a) ∈ found <->
                    attempts (db w) !! i = Some a
                    /\ student a = uid /\ quiz a = params_id req)
    /\ NoDup found.*1
    /\ StronglySorted (fun x y => startedAt y.2 <= startedAt x.2) found.
Proof.
  intros Htok Hjwt Hu. exists (findAttempts (db w) uid (params_id req)).
  split; [by rewrite (GET_attempt_known jwt_verify req false w tok uid u)|].
  unfold findAttempts. split; [|split].
  - intros i a. rewrite merge_sort_Permutation, list_elem_of_filter,
      elem_of_map_to_list. cbn. tauto.
  - rewrite merge_sort_Permutation.
    eapply sublist_NoDup; [apply (NoDup_fst_map_to_list (attempts (db w)))|].
    apply (fmap_sublist fst), sublist_filter.
  - exact (@StronglySorted_merge_sort _ later_first _ later_first_trans
             later_first_total _).
Qed.

(** X21.  After a submit answered 200, when the student had at most one
    attempt in progress per quiz, reading the current attempt of the
    quiz with the same token reports none. *)
Theorem no_current_attempt_after_submit env req w resp w' get :
  single_open (db w) ->
  POST_submit jwt_verify env req w = (resp, w') ->
  resp_status resp = 200 ->
  request_token get = request_token req ->
  (forall a, attempts (db w) !! params_id req = Some a -> params_id get = quiz a) ->
  GET_attempt jwt_verify get true w'
  = ({| att_status := 200; att_body := CurrentAttempt None |}, w').
Proof.
  intros Hone Hrun H200 Htok' Hid.
  destruct (POST_submit_200_attempt jwt_verify env req w resp w' Hrun H200)
    as (a & q & rs & ps & Hadm & Hsav & Hatt & _).
  destruct Hadm as (tok & u & Htok & Hjwt & Hu & _ & Ha & Hst & _ & _).
  assert (Hu' : users (db w') !! student a = Some u).
  { replace w' with (POST_submit jwt_verify env req w).2 by by rewrite Hrun.
    revert Hu. clear. unfold POST_submit, POST_submit_try. run_handler.
    repeat (case_match; simplify_eq/=; try done). }
  rewrite (GET_attempt_known jwt_verify get true w' tok (student a) u);
    [|congruence|done|done].
  rewrite (Hid a Ha).
  assert (Hnone : findInProgress (db w') (student a) (quiz a) = None).
  { apply findInProgress_None. intros i b Hb [Hbs Hbq] Hbst.
    rewrite Hatt in Hb. destruct (decide (i = params_id req)) as [->|Hne].
    - rewrite lookup_insert_eq in Hb. injection Hb as <-.
      rewrite attempt_pre_save_status in Hbst. done.
    - rewrite lookup_insert_ne in Hb by done.
      destruct Hne. apply (Hone i (params_id req) b a); congruence. }
  by rewrite Hnone.
Qed.

End History.

Lemma attempt_history_witness :
  exists found,
    GET_attempt demo_jwt (request "student-token" 10 no_body) false submitted
    = ({| att_status := 200; att_body := AttemptHistory found |}, submitted)
    /\ NoDup found.*1.
Proof.
  destruct (attempt_history demo_jwt (request "student-token" 10 no_body) submitted
              "student-token" 1%nat {| role := role_student |})
    as (found & H & _ & Hnd & _); try (by vm_compute).
  by exists found.
Defined.

Lemma no_current_attempt_after_submit_witness :
  GET_attempt demo_jwt (request "student-token" 10 no_body) true submitted
  = ({| att_status := 200; att_body := CurrentAttempt None |}, submitted).
Proof.
  apply (no_current_attempt_after_submit demo_jwt (at_time 200)
           (request "student-token" 0 both_right) started
           (POST_submit demo_jwt (at_time 200)
              (request "student-token" 0 both_right) started).1
           submitted (request "student-token" 10 no_body)).
  - exact (change_single_open (at_time 100) (db school) _
             (POST_attempt_change demo_jwt (at_time 100)
                (request "student-token" 10 no_body) school)
             (proj1 (empty_attempts_sound (db school) eq_refl))).
  - by vm_compute.
  - by vm_compute.
  - by vm_compute.
  - intros a Ha. vm_compute in Ha. by injection Ha as <-.
Defined.

(** ** Reading a quiz *)

Section QuizDetails.

Variable jwt_verify : string -> option nat.

(** X22.  A quiz is shown to its author, whatever its status (with its
    statistics), and to every other account when it is published
    (without them); anyone else is answered 403.  The progress is
    attached for a student.  Reading changes nothing in the database.
    For the author the statistics are computed first: they are there
    when every completed attempt on the quiz belongs to an account that
    still exists, and the answer is 500, with one line logged, when one
    of them does not. *)
Theorem quiz_detail_access req w tok uid u q au :
  request_token req = Some tok ->
  jwt_verify tok = Some uid ->
  users (db w) !! uid = Some u ->
  quizzes (db w) !! params_id req = Some q ->
  users (db w) !! author q = Some au ->
  let out := GET_quiz jwt_verify req w in
  let progress :=
    if bool_decide (role u = role_student)
    then Some (studentProgress_of (db w) uid (params_id req) q)
    else None in
  db out.2 = db w
  /\ (author q <> uid -> quiz_status q <> published ->
      out = ({| det_status := 403; det_body := DetailError "Access denied" |}, w))
  /\ (author q <> uid -> quiz_status q = published ->
      out = ({| det_status := 200; det_body := QuizDetail q progress None |}, w))
  /\ (author q = uid ->
      (forall i a, attempts (db w) !! i = Some a -> quiz a = params_id req ->
                   status a = completed -> is_Some (users (db w) !! student a)) ->
      out = ({| det_status := 200;
                det_body :=
                  QuizDetail q progress
                    (Some (getQuizStatistics (db w) (params_id req))) |}, w))
  /\ (author q = uid ->
      (exists i a, attempts (db w) !! i = Some a /\ quiz a = params_id req
                   /\ status a = completed /\ users (db w) !! student a = None) ->
      out.1 = {| det_status := 500; det_body := DetailError "Failed to fetch quiz" |}
      /\ length (console out.2) = S (length (console w))).
Proof.
  intros Htok Hjwt Hu Hq Hau. cbv zeta.
  unfold GET_quiz, GET_quiz_try, getQuizStatistics_call. run_handler.
  rewrite Htok, Hjwt. cbn. rewrite Hu, Hq, Hau.
  assert (Hroles : bool_decide (role u <> role_teacher)
                   && bool_decide (role u <> role_student)
                   && bool_decide (role u <> role_parent) = false).
  { by destruct (role u). }
  rewrite Hroles, orb_false_r.
  set (found := filter _ (map_to_list (attempts (db w)))).
  assert (Hfound : Forall (fun kv : nat * IQuizAttempt =>
                             is_Some (users (db w) !! student kv.2)) found
                   <-> forall i a, attempts (db w) !! i = Some a ->
                         quiz a = params_id req -> status a = completed ->
                         is_Some (users (db w) !! student a)).
  { rewrite Forall_forall. split.
    - intros Hall i a Ha Hqa Hst. apply (Hall (i, a)).
      apply list_elem_of_filter. split; [done|]. by apply elem_of_map_to_list.
    - intros Hall [i a] Hin. apply list_elem_of_filter in Hin as [[Hqa Hst] Hin].
      apply elem_of_map_to_list in Hin. by apply (Hall i a). }
  destruct (bool_decide (author q = uid)) eqn:Ea.
  - apply bool_decide_eq_true in Ea. cbn [negb andb].
    destruct (bool_decide (Forall _ found)) eqn:Eall.
    + apply bool_decide_eq_true in Eall.
      cbn. split; [done|]. split; [done|]. split; [done|]. split; [done|].
      intros _ (i & a & Ha & Hqa & Hst & Hnone).
      destruct (proj1 Hfound Eall i a Ha Hqa Hst) as [x Hx]. congruence.
    + apply bool_decide_eq_false in Eall.
      cbn. split; [done|]. split; [done|]. split; [done|]. split.
      * intros _ Hok. destruct Eall. by apply Hfound.
      * intros _ _. split; [done|]. by rewrite length_app, Nat.add_1_r.
  - apply bool_decide_eq_false in Ea. cbn [negb andb].
    destruct (bool_decide (quiz_status q = published)) eqn:Ep; cbn.
    + apply bool_decide_eq_true in Ep. by repeat split.
    + apply bool_decide_eq_false in Ep. by repeat split.
Qed.

(** X23.  The [canRetake] flag shown to a student agrees with the limit
    gate of the start request: when it is false, a start request by that
    student on that quiz is answered 403 and changes nothing; when it is
    true and the quiz is published and not past its due date, the start
    request is not refused. *)
Theorem can_retake_matches_start env req w tok uid u q :
  request_token req = Some tok ->
  jwt_verify tok = Some uid ->
  users (db w) !! uid = Some u ->
  role u = role_student ->
  quizzes (db w) !! params_id req = Some q ->
  let sp := studentProgress_of (db w) uid (params_id req) q in
  let out := POST_attempt jwt_verify env req w in
  (sp_canRetake sp = false -> resp_status out.1 = 403 /\ out.2 = w)
  /\ (sp_canRetake sp = true ->
      quiz_status q = published ->
      (forall due, dueDate q = Some due -> now env <= due) ->
      resp_status out.1 <> 403).
Proof.
  intros Htok Hjwt Hu Hrole Hq. cbv zeta.
  unfold studentProgress_of. cbn [sp_canRetake].
  unfold POST_attempt, POST_attempt_try. rewrite Htok. run_handler.
  rewrite Hjwt, Hu, Hrole, Hq.
  rewrite bool_decide_eq_false_2 by (intro; congruence).
  split.
  - intros Hno. apply Z.ltb_ge, Z.leb_le in Hno.
    case_bool_decide as Hpub; [done|].
    destruct (dueDate q) as [due|]; [destruct (due <? now env); [done|]|];
      by rewrite Hno.
  - intros Hyes Hpub Hdue.
    rewrite bool_decide_eq_false_2 by (intro; congruence).
    apply Z.ltb_lt in Hyes.
    rewrite (proj2 (Z.leb_gt _ _) Hyes).
    assert (Hd : match dueDate q with
                 | Some due => due <? now env
                 | None => false
                 end = false).
    { destruct (dueDate q) as [due|]; [|done].
      apply Z.ltb_ge. by apply Hdue. }
    rewrite Hd. repeat (case_match; simplify_eq/=; try done).
Qed.

(** X24.  The best percentage shown to a student is the highest
    percentage among the completed attempts of that student on the quiz,
    with the score and the start date of an attempt that reached it, and
    0 when there is none; the attempts listed are the completed ones,
    which are at most the attempts counted against the limit. *)
Theorem best_percentage_is_highest (d : Db) (uid qid : nat) (q : IQuiz) :
  let sp := studentProgress_of d uid qid q in
  (forall i a, attempts d !! i = Some a -> student a = uid -> quiz a = qid ->
               status a = completed -> percentage a <= sp_bestPercentage sp)
  /\ ((exists i a, attempts d !! i = Some a /\ student a = uid /\ quiz a = qid
                   /\ status a = completed /\ sp_bestPercentage sp = percentage a
                   /\ sp_bestScore sp = score a
                   /\ sp_lastAttemptAt sp = Some (startedAt a))
      \/ ((forall i a, attempts d !! i = Some a -> student a = uid -> quiz a = qid ->
                       status a <> completed)
          /\ sp_bestPercentage sp = 0 /\ sp_bestScore sp = 0%Q
          /\ sp_lastAttemptAt sp = None /\ sp_attempts sp = []))
  /\ Z.of_nat (length (sp_attempts sp)) <= sp_attemptCount sp.
Proof.
  cbv zeta. unfold studentProgress_of.
  cbn [sp_bestPercentage sp_bestScore sp_lastAttemptAt sp_attempts sp_attemptCount].
  assert (Hin : forall i a, (i, a) ∈ findCompleted d uid qid <->
                  attempts d !! i = Some a /\ quiz a = qid /\ student a = uid
                  /\ status a = completed).
  { intros i a. unfold findCompleted.
    rewrite merge_sort_Permutation, list_elem_of_filter, elem_of_map_to_list.
    cbn. tauto. }
  assert (Hsorted : StronglySorted higher_first (findCompleted d uid qid)).
  { exact (@StronglySorted_merge_sort _ higher_first _ higher_first_trans
             higher_first_total _). }
  assert (Hlen : Z.of_nat (length (findCompleted d uid qid))
                 <= getStudentAttemptCount d uid qid).
  { unfold findCompleted, getStudentAttemptCount.
    rewrite merge_sort_Permutation. apply inj_le.
    apply submseteq_length, sublist_submseteq.
    set (l := map_to_list (attempts d)). clearbody l.
    induction l as [|kv l IH]; [constructor|].
    rewrite !filter_cons. destruct (decide _) as [(Hq & Hs & Hst)|Hn].
    - rewrite decide_True; [by constructor|].
      repeat split; try done. rewrite Hst. constructor.
    - destruct (decide _); [by constructor|done]. }
  destruct (findCompleted d uid qid) as [|[j b] rest] eqn:E.
  - cbn. split; [|split; [right|done]].
    + intros i a Ha Hs Hq Hst.
      assert (H : (i, a) ∈ @nil (nat * IQuizAttempt)) by (by apply Hin).
      by apply elem_of_nil in H.
    + split; [|done]. intros i a Ha Hs Hq Hst.
      assert (H : (i, a) ∈ @nil (nat * IQuizAttempt)) by (by apply Hin).
      by apply elem_of_nil in H.
  - cbn [head fmap option_fmap option_map fst snd].
    apply StronglySorted_cons in Hsorted as [Hall _].
    rewrite Forall_forall in Hall.
    split; [|split; [left|by rewrite length_map]].
    + intros i a Ha Hs Hq Hst.
      assert (H : (i, a) ∈ (j, b) :: rest) by (by apply Hin).
      apply elem_of_cons in H as [[= -> ->]|H]; [done|].
      exact (Hall _ H).
    + exists j, b. destruct (proj1 (Hin j b)) as (? & ? & ? & ?); [left|].
      by repeat split.
Qed.

End QuizDetails.

Lemma quiz_detail_access_witness :
  GET_quiz demo_jwt (request "teacher-token" 10 no_body) submitted
  = ({| det_status := 200;
        det_body :=
          QuizDetail
            (with_analytics (next_analytics no_analytics (inject_Z 100) 4%Q true)
               capital_quiz)
            None (Some (getQuizStatistics (db submitted) 10)) |}, submitted).
Proof.
  refine (proj1 (proj2 (proj2 (proj2
            (quiz_detail_access demo_jwt (request "teacher-token" 10 no_body)
               submitted "teacher-token" 2%nat {| role := role_teacher |}
               (with_analytics (next_analytics no_analytics (inject_Z 100) 4%Q true)
                  capital_quiz)
               {| role := role_teacher |} _ _ _ _ _)))) _ _);
    try (by vm_compute).
  intros i a Ha _ _.
  assert (Hi : i = 0%nat).
  { destruct (decide (i = 0%nat)) as [Hi|Hi]; [done|].
    assert (Hnone : attempts (db submitted) !! i = None).
    { apply not_elem_of_dom. assert (Hd : dom (attempts (db submitted)) = {[0%nat]})
        by by vm_compute.
      rewrite Hd. by apply not_elem_of_singleton. }
    congruence. }
  subst i. vm_compute in Ha. injection Ha as <-. by eexists.
Defined.

Lemma can_retake_matches_start_witness :
  resp_status
    (POST_attempt demo_jwt (at_time 700) (request "student-token" 10 no_body)
       three_attempts).1 = 403.
Proof.
  destruct (quizzes (db three_attempts) !! 10%nat) as [q|] eqn:Hq;
    [|by vm_compute in Hq].
  destruct (can_retake_matches_start demo_jwt (at_time 700)
              (request "student-token" 10 no_body) three_attempts
              "student-token" 1%nat {| role := role_student |} q)
    as [Hno _]; [by vm_compute..|].
  apply Hno. vm_compute in Hq. injection Hq as <-. by vm_compute.
Defined.

(** ** The quiz taker page *)




(** X26.  A right answer that is falsy is lost on the way: when the
    student picked the first option of a multiple-choice question whose
    correct answer is 0, or False for a true-false question whose
    correct answer is false, the page sends the empty string instead,
    and the response is graded incorrect with 0 points, although the
    answer picked matches the correct answer. *)
Theorem falsy_choice_graded_wrong (qs : list IQuestion)
    (responses : gmap string JsValue) (timeSpent : Z) (q : IQuestion) :
  findQuestion qs (q_id q) = Some q ->
  q_type q <> short_answer ->
  valid_correctAnswer q = true ->
  js_truthy (correctAnswer q) = false ->
  let picked := handleResponseChange (q_id q) (correctAnswer q) responses in
  let r := submissionEntry picked timeSpent (length qs) q in
  checkAnswer q (correctAnswer q) = true
  /\ o_answer r = JStr EmptyString
  /\ checkAnswer q (o_answer r) = false
  /\ pointsFor qs r = Some 0%Q
  /\ o_isCorrect (gradeResponse qs r) = Some false.
Proof.
  intros Hfind Htype Hvalid Hfalsy. cbv zeta.
  unfold submissionEntry, handleResponseChange, pointsFor, gradeResponse.
  cbn [o_answer o_questionId]. rewrite lookup_insert_eq, Hfalsy, Hfind.
  cbn [o_isCorrect].
  unfold valid_correctAnswer in Hvalid. unfold checkAnswer.
  destruct (q_type q), (correctAnswer q) as [| |b|n|s]; try done.
  - cbn in Hfalsy. apply negb_false_iff, Z.eqb_eq in Hfalsy as ->. done.
  - cbn in Hfalsy. subst b. done.
Qed.



Lemma falsy_choice_graded_wrong_witness :
  pointsFor [pick_first; paris]
    (submissionEntry (handleResponseChange "first" (JNum 0) ∅) 125 2 pick_first)
  = Some 0%Q.
Proof.
  apply (falsy_choice_graded_wrong [pick_first; paris] ∅ 125 pick_first);
    by vm_compute.
Defined.


(** ** The progress of a student *)

Lemma entry_get_None (acc : list (nat * ProgressEntry)) (k : nat) :
  entry_get acc k = None <-> k ∉ acc.*1.
Proof.
  induction acc as [|[k0 e0] acc IH]; cbn.
  - split; [intros _; apply not_elem_of_nil|done].
  - case_bool_decide as Hk.
    + subst. split; [done|]. intros Hn. destruct Hn. left.
    + rewrite IH, not_elem_of_cons. split; [by intros ?|by intros [_ ?]].
Qed.

Lemma entry_set_absent (acc : list (nat * ProgressEntry)) (k : nat)
    (e : ProgressEntry) :
  entry_get acc k = None -> entry_set acc k e = acc ++ [(k, e)].
Proof.
  induction acc as [|[k0 e0] acc IH]; cbn; [done|].
  case_bool_decide; [done|]. intros Hx. by rewrite IH.
Qed.

Lemma progress_step_eq (found : list (nat * IQuizAttempt * IQuiz))
    (acc : list (nat * ProgressEntry)) (x : nat * IQuizAttempt * IQuiz) :
  progress_step found acc x
  = match entry_get acc (quiz x.1.2) with
    | None => acc ++ [(quiz x.1.2, entry_of found x)]
    | Some _ => acc
    end.
Proof.
  unfold progress_step. destruct (entry_get acc (quiz x.1.2)) eqn:E; [done|].
  by rewrite entry_set_absent.
Qed.

Lemma progress_fold_keeps (found l : list (nat * IQuizAttempt * IQuiz))
    (acc : list (nat * ProgressEntry)) :
  NoDup acc.*1 ->
  Forall (fun ke : nat * ProgressEntry => (pe_quiz ke.2).1 = ke.1) acc ->
  (exists ext, fold_left (progress_step found) l acc = acc ++ ext)
  /\ NoDup (fold_left (progress_step found) l acc).*1
  /\ (forall k, k ∈ (fold_left (progress_step found) l acc).*1 ->
                k ∈ acc.*1 \/ Exists (fun y => quiz y.1.2 = k) l)
  /\ Forall (fun ke : nat * ProgressEntry => (pe_quiz ke.2).1 = ke.1)
            (fold_left (progress_step found) l acc).
Proof.
  revert acc. induction l as [|x l IH]; intros acc Hnd Hkey; cbn [fold_left].
  - split; [exists []; by rewrite app_nil_r|]. split; [done|].
    split; [by left|done].
  - rewrite progress_step_eq.
    destruct (entry_get acc (quiz x.1.2)) eqn:E.
    + destruct (IH acc Hnd Hkey) as (Hext & Hnd' & Hkeys & Hkey').
      split; [done|]. split; [done|]. split; [|done]. intros k Hk.
      destruct (Hkeys k Hk); [by left|right; by right].
    + apply entry_get_None in E.
      assert (Hnd1 : NoDup (acc ++ [(quiz x.1.2, entry_of found x)]).*1).
      { rewrite fmap_app. apply NoDup_app. split; [done|]. cbn. split.
        - intros k Hk Hk'. apply list_elem_of_singleton in Hk'. by subst.
        - apply NoDup_singleton. }
      assert (Hkey1 : Forall (fun ke : nat * ProgressEntry => (pe_quiz ke.2).1 = ke.1)
                        (acc ++ [(quiz x.1.2, entry_of found x)])).
      { apply Forall_app. split; [done|]. by repeat constructor. }
      destruct (IH _ Hnd1 Hkey1) as ([ext Hext] & Hnd' & Hkeys & Hkey').
      split; [exists ((quiz x.1.2, entry_of found x) :: ext);
              by rewrite Hext, <- app_assoc|].
      split; [done|]. split; [|done]. intros k Hk.
      destruct (Hkeys k Hk) as [Hin|Hex]; [|right; by right].
      rewrite fmap_app in Hin. apply elem_of_app in Hin as [Hin|Hin]; [by left|].
      cbn in Hin. apply list_elem_of_singleton in Hin. right. by left.
Qed.

(** X28.  [getStudentProgress] reports, for each quiz, the first
    completed attempt the query returned and not the best one: the entry
    of a quiz carries the score, the percentage and the start date of
    the first attempt on that quiz in the list, whatever the attempts
    after it are, and it is the only entry of that quiz. *)
Theorem progress_reports_first_attempt
    (found pre post : list (nat * IQuizAttempt * IQuiz))
    (x : nat * IQuizAttempt * IQuiz) :
  found = pre ++ x :: post ->
  Forall (fun y => quiz y.1.2 <> quiz x.1.2) pre ->
  entry_of found x ∈ progress_of found
  /\ pe_bestPercentage (entry_of found x) = percentage x.1.2
  /\ pe_bestScore (entry_of found x) = score x.1.2
  /\ (forall e, e ∈ progress_of found -> (pe_quiz e).1 = quiz x.1.2 ->
                e = entry_of found x).
Proof.
  intros Hfound Hpre. unfold progress_of.
  assert (Hrun : fold_left (progress_step found) found []
                 = fold_left (progress_step found) post
                     (progress_step found (fold_left (progress_step found) pre []) x)).
  { by rewrite Hfound, fold_left_app. }
  destruct (progress_fold_keeps found pre [] NoDup_nil_2 (Forall_nil_2 _))
    as (_ & Hnd1 & Hkeys1 & Hkey1).
  assert (Habsent : entry_get (fold_left (progress_step found) pre [])
                      (quiz x.1.2) = None).
  { apply entry_get_None. intros Hk. destruct (Hkeys1 _ Hk) as [Hk'|Hex].
    - by apply elem_of_nil in Hk'.
    - apply Exists_exists in Hex as (y & Hy & Hq).
      rewrite Forall_forall in Hpre. by destruct (Hpre y Hy). }
  rewrite progress_step_eq, Habsent in Hrun.
  assert (Hnd2 : NoDup (fold_left (progress_step found) pre []
                        ++ [(quiz x.1.2, entry_of found x)]).*1).
  { rewrite fmap_app. apply NoDup_app. split; [done|]. cbn. split.
    - intros k Hk Hk'. apply list_elem_of_singleton in Hk'. subst.
      by apply entry_get_None in Habsent.
    - apply NoDup_singleton. }
  assert (Hkey2 : Forall (fun ke : nat * ProgressEntry => (pe_quiz ke.2).1 = ke.1)
                    (fold_left (progress_step found) pre []
                     ++ [(quiz x.1.2, entry_of found x)])).
  { apply Forall_app. split; [done|]. by repeat constructor. }
  destruct (progress_fold_keeps found post _ Hnd2 Hkey2)
    as ([ext Hext] & Hnd & _ & Hkey).
  rewrite <- Hrun in Hext, Hnd, Hkey.
  assert (Hmem : (quiz x.1.2, entry_of found x)
                 ∈ fold_left (progress_step found) found []).
  { rewrite Hext. apply elem_of_app. left. apply elem_of_app. right. left. }
  split; [|split; [done|split; [done|]]].
  - apply list_elem_of_fmap. by exists (quiz x.1.2, entry_of found x).
  - intros e He Hq. apply list_elem_of_fmap in He as ([k e'] & -> & He).
    cbn in Hq |- *.
    rewrite Forall_forall in Hkey. pose proof (Hkey _ He) as Hk. cbn in Hk.
    assert (k = quiz x.1.2) as -> by congruence.
    pose proof (elem_of_list_to_map_1 (M := gmap nat) _ _ _ Hnd He) as H1.
    pose proof (elem_of_list_to_map_1 (M := gmap nat) _ _ _ Hnd Hmem) as H2.
    congruence.
Qed.

Lemma progress_reports_first_attempt_witness :
  progress_of sixty_then_eighty = [entry_of sixty_then_eighty
                                     (0%nat, completed_with 1 60 5%Q, capital_quiz)]
  /\ pe_bestPercentage (entry_of sixty_then_eighty
                          (0%nat, completed_with 1 60 5%Q, capital_quiz)) = 60.
Proof.
  destruct (progress_reports_first_attempt sixty_then_eighty []
              [(1%nat, completed_with 2 80 7%Q, capital_quiz)]
              (0%nat, completed_with 1 60 5%Q, capital_quiz))
    as (_ & Hp & _); [reflexivity|constructor|].
  split; [reflexivity|exact Hp].
Defined.

(** ** Attempts and their quizzes *)

Section References.

Variable jwt_verify : string -> option nat.

Lemma refer_insert_attempt (d : Db) (i : nat) (a : IQuizAttempt) :
  attempts_refer d -> is_Some (quizzes d !! quiz a) ->
  attempts_refer (set_attempts (<[i := a]> (attempts d)) d).
Proof.
  intros Hok Ha j b Hb. cbn [attempts quizzes set_attempts] in *.
  destruct (decide (i = j)) as [->|Hne].
  - rewrite lookup_insert_eq in Hb. by injection Hb as <-.
  - rewrite lookup_insert_ne in Hb by done. by eapply Hok.
Qed.

Lemma refer_insert_quiz (d : Db) (k : nat) (q : IQuiz) :
  attempts_refer d -> attempts_refer (set_quizzes (<[k := q]> (quizzes d)) d).
Proof.
  intros Hok j b Hb. cbn [attempts quizzes set_quizzes] in *.
  destruct (decide (k = quiz b)) as [->|Hne].
  - rewrite lookup_insert_eq. by eexists.
  - rewrite lookup_insert_ne by done. by eapply Hok.
Qed.

Lemma refer_insert_quiz_after (d : Db) (m : gmap nat IQuizAttempt) (k : nat)
    (q : IQuiz) :
  attempts_refer (set_attempts m d) ->
  attempts_refer (set_quizzes (<[k := q]> (quizzes d)) (set_attempts m d)).
Proof. apply (refer_insert_quiz (set_attempts m d)). Qed.

Lemma serve_refer env c w :
  attempts_refer (db w) -> attempts_refer (db (serve jwt_verify env c w).2).
Proof.
  intros Hok.
  destruct c as [req|req|req|req|req]; cbn [serve];
    unfold POST_attempt, POST_attempt_try, POST_submit, POST_submit_try,
      PATCH_submit, PATCH_submit_try, PATCH_quiz, PATCH_quiz_try, catch_update,
      DELETE_quiz, DELETE_quiz_try;
    run_handler;
    repeat (case_match; simplify_eq/=; try done).
  all: repeat match goal with
       | H : _ <$> _ = Some _ |- _ => apply fmap_Some in H as (? & ? & ->)
       end.
  all: repeat first [apply refer_insert_quiz | apply refer_insert_quiz_after
                    | apply refer_insert_attempt];
    try done.
  all: rewrite ?attempt_pre_save_quiz; cbn [quiz with_responses with_submission
         with_timeSpentMinutes].
  all: try (by eexists).
  all: try (by eapply Hok).
  intros j b Hb. cbn [attempts quizzes set_quizzes] in *.
  rewrite lookup_delete_ne; [by eapply Hok|].
  match goal with
  | H : (0 <? countQuizAttempts ?d ?k) = false |- _ =>
      apply Z.ltb_ge in H;
      assert (Hzero : countQuizAttempts d k = 0)
        by (unfold countQuizAttempts in *; lia)
  end.
  rewrite countQuizAttempts_zero in Hzero. intros Heq.
  by destruct (Hzero j b Hb).
Qed.

(** X29.  Whatever requests are served, every attempt refers to a
    stored quiz: a quiz with attempts is archived and never removed.  So
    the progress of a student can always be computed, and the quiz of a
    current attempt is always there to populate. *)
Theorem attempts_keep_their_quiz calls w :
  attempts_refer (db w) ->
  attempts_refer (db (serve_all jwt_verify calls w))
  /\ (forall sid, is_Some (getStudentProgress (db (serve_all jwt_verify calls w)) sid)).
Proof.
  intros Hok.
  assert (Hall : attempts_refer (db (serve_all jwt_verify calls w))).
  { revert w Hok. induction calls as [|[env c] calls IH]; intros w Hok; [done|].
    cbn [serve_all]. by apply IH, serve_refer. }
  split; [done|]. intros sid. unfold getStudentProgress.
  apply fmap_is_Some, mapM_is_Some, Forall_forall. intros [i a] Hin. cbn.
  apply list_elem_of_filter in Hin as [_ Hin]. apply elem_of_map_to_list in Hin.
  apply fmap_is_Some. by eapply Hall.
Qed.

End References.

Lemma attempts_keep_their_quiz_witness :
  attempts_refer
    (db (serve_all demo_jwt
           (two_rounds ++ [(at_time 800, DeleteQuiz delete_request)]) school)).
Proof.
  apply (attempts_keep_their_quiz demo_jwt
           (two_rounds ++ [(at_time 800, DeleteQuiz delete_request)]) school).
  intros i a Ha. cbn in Ha. by rewrite lookup_empty in Ha.
Defined.

(** ** The best attempt *)

#[local] Instance best_first_total : Total best_first.
Proof.
  intros x y. unfold best_first.
  destruct (Z.lt_trichotomy (percentage x.2) (percentage y.2)) as [H|[H|H]].
  - right. by left.
  - destruct (Qlt_le_dec (score x.2) (score y.2)) as [Hs|Hs].
    + right. right. split; [done|]. apply Qle_bool_iff. by apply Qlt_le_weak.
    + left. right. split; [done|]. by apply Qle_bool_iff.
  - left. by left.
Qed.

#[local] Instance best_first_trans : Transitive best_first.
Proof.
  intros x y z. unfold best_first.
  intros [H1|[H1 Hs1]] [H2|[H2 Hs2]].
  - left. lia.
  - left. lia.
  - left. lia.
  - right. split; [lia|]. apply Qle_bool_iff.
    apply Qle_bool_iff in Hs1, Hs2. by eapply Qle_trans.
Qed.

(** X30.  [getBestAttempt] returns a completed attempt of the student on
    the quiz that no other such attempt beats: every other one has a
    lower percentage, or the same percentage and a score that is not
    higher; it returns nothing exactly when the student has completed no
    attempt on the quiz. *)
Theorem best_attempt_is_best (d : Db) (sid qid : nat) :
  match getBestAttempt d sid qid with
  | Some (i, a) =>
      attempts d !! i = Some a
      /\ student a = sid /\ quiz a = qid /\ status a = completed
      /\ forall j b, attempts d !! j = Some b ->
                     student b = sid -> quiz b = qid -> status b = completed ->
                     percentage b < percentage a
                     \/ (percentage b = percentage a /\ (score b <= score a)%Q)
  | None =>
      forall j b, attempts d !! j = Some b ->
                  student b = sid -> quiz b = qid -> status b <> completed
  end.
Proof.
  unfold getBestAttempt.
  set (P := fun kv : nat * IQuizAttempt =>
              student kv.2 = sid /\ quiz kv.2 = qid /\ status kv.2 = completed).
  assert (Hin : forall i a, (i, a) ∈ merge_sort best_first
                                       (filter P (map_to_list (attempts d))) <->
                  attempts d !! i = Some a /\ P (i, a)).
  { intros i a.
    rewrite merge_sort_Permutation, list_elem_of_filter, elem_of_map_to_list.
    tauto. }
  assert (Hsorted : StronglySorted best_first
                      (merge_sort best_first (filter P (map_to_list (attempts d)))))
    by exact (@StronglySorted_merge_sort _ best_first _ best_first_trans
                best_first_total _).
  destruct (merge_sort best_first (filter P (map_to_list (attempts d))))
    as [|[i a] rest]; cbn [head].
  - intros j b Hb Hs Hq Hst.
    assert (H : (j, b) ∈ @nil (nat * IQuizAttempt)) by (by apply Hin).
    by apply elem_of_nil in H.
  - destruct (proj1 (Hin i a)) as (Ha & Hs & Hq & Hst); [left|].
    cbn in Hs, Hq, Hst. do 4 (split; [done|]).
    intros j b Hb Hbs Hbq Hbst.
    assert (H : (j, b) ∈ (i, a) :: rest) by (by apply Hin).
    apply StronglySorted_cons in Hsorted as [Hall _].
    rewrite Forall_forall in Hall.
    apply elem_of_cons in H as [[= -> ->]|H].
    + right. split; [done|]. apply Qle_refl.
    + destruct (Hall _ H) as [Hlt|[Heq Hle]]; [by left|right].
      split; [done|]. by apply Qle_bool_iff.
Qed.

(** ** Analytics: what a run stores and what is recomputed *)




Section AnalyticsRun.

Variable jwt_verify : string -> option nat.








End AnalyticsRun.

Section AveragesAgree.

Variable jwt_verify : string -> option nat.

(** When the total of the quiz is the maximum the attempt recorded, the
    percentage the submit handler passes to [updateAnalytics] is the
    percentage it stores on the attempt. *)
Lemma fed_percentage_is_persisted env req w a q rs :
  resp_status (POST_submit jwt_verify env req w).1 = 200 ->
  attempts (db w) !! params_id req = Some a ->
  quizzes (db w) !! quiz a = Some q ->
  body_responses (body req) = Some rs ->
  (totalPoints q == maxScore a)%Q ->
  exists a',
    attempts (db (POST_submit jwt_verify env req w).2) !! params_id req = Some a'
    /\ percentage a' = submitPercentage q (totalScore (questions q) rs).
Proof.
  intros H200 Ha Hq Hrs Hsame.
  destruct (POST_submit_200_attempt jwt_verify env req w _ _
              (surjective_pairing _) H200)
    as (a0 & q0 & rs0 & ps & Hadm & [_ Hval] & Hatt & _).
  destruct Hadm as (tok & u & _ & _ & _ & _ & Ha0 & _ & Hrs0 & Hq0).
  assert (a0 = a) as -> by congruence.
  assert (q0 = q) as -> by congruence.
  assert (rs0 = rs) as -> by congruence.
  exists (attempt_pre_save (now env) (finalized env req a q rs ps)).
  rewrite Hatt, lookup_insert_eq. split; [done|].
  assert (Hpos : (0 < maxScore a)%Q).
  { unfold validate_attempt in Hval. repeat (apply andb_prop in Hval as [Hval ?]).
    eapply Qlt_le_trans; [|by apply Qle_bool_imp_le]. done. }
  assert (Hlt : forall m, (0 < m)%Q -> Qlt_bool 0 m = true).
  { intros m Hm. unfold Qlt_bool. destruct (Qle_bool m 0) eqn:E; [|done].
    apply Qle_bool_imp_le in E. by apply Qlt_not_le in Hm. }
  rewrite attempt_pre_save_percentage by by apply Hlt.
  unfold submitPercentage. rewrite Hlt by by rewrite Hsame.
  apply Math_round_proper. cbn [score maxScore finalized with_responses with_submission].
  by rewrite Hsame.
Qed.


End AveragesAgree.

